(* ===== verification/_CoqProject ===== *)
-Q . S2P
Prelude.v
PyMonad.v
PyDict.v
Etree.v
Blocks.v
FileStore.v
AssetWriters.v
XMLBuilder.v
Spec.v
Refinement.v
Examples.v
Evolution.v
Assets.v
Structure.v
Render.v
Registry.v
Machine.v
Success.v
Stores.v
Congruence.v
Names.v
Errors.v
Objects.v
Calls.v
Session.v
Dispatch.v
Methods.v
Order.v
