(* ===== verification/Prelude.v ===== *)
(** * A verification development for datapane's XML builder

    The program is [src/python-client/src/datapane/view/xml_visitor.py]: the
    visitor [XMLBuilder] that turns a tree of blocks (a "View") into an lxml
    element tree while it writes the assets of the tree to a file store, and
    the registry of asset writers it looks writers up in.

    ** The parts of the program and the files that model them

    - [Prelude] (this file): notation scope, tactics, the hint database and
      the list and option lemmas the other files share.
    - [PyMonad]: Python's control flow.  A computation is a function
      [St -> Outcome A * St]; an exception is the outcome [Raise e] and, as in
      Python, it keeps every mutation made before it was raised.
      [try_except] is the [try: ... except E: ...] statement.  The
      exceptions are the five the file raises, catches or causes, and
      [OtherException] for an exception of any other class, which a writer
      may raise.
    - [PyDict]: Python's [dict] with string keys and values, in insertion
      order: lookup, item assignment, the merge [{**a, **b}], the keyword
      arguments of a call (a repeated keyword raises [TypeError]), equality
      that ignores order, and the abstraction to a finite map.
    - [Etree]: the lxml objects the visitor builds: [Element], the element
      factory [E] and [Element.set].
    - [Blocks]: the block classes the visitor dispatches on ([BaseElement],
      [ContainerBlock], [View], [EmbeddedTextBlock], [Interactive],
      [AssetBlock]) as one inductive type, with the induction principle for
      its nested lists of children.
    - [FileStore]: the contract of the store the visitor writes to, as a
      class of operations with laws ([FileStore]), the further laws of a
      store that deduplicates ([DedupStore]) and of one that registers one
      entry per call ([CountedStore]), and two instances: [ListStore], which
      keeps one entry per hash, and [AppendStore], which appends.
    - [AssetWriters]: [AssetMeta], the [AssetWriterP] protocol, the global
      [asset_mapping] and [get_writer] with its lazy initialisation.
    - [XMLBuilder]: the visitor itself: its state, [add_element], one
      definition per [visit] method, [_add_asset_to_store] (its first test
      [reuse_prev_entry], its [try] statement [write_data], its [load_file]
      branch [load_path]), and [visit], the dispatch on the class of the
      block.  [build] is [XMLBuilder(store).visit(view)] in a fresh program.
    - [Spec]: what the visitor promises, as a function [to_xml] from blocks
      to elements that threads no accumulator, with [store_asset], the
      decision table of [_add_asset_to_store].
    - [Refinement]: the proof that [visit] implements [Spec], and the three
      lemmas that read a visit off the specification.
    - [Examples]: a store, a writer and block trees for the witnesses.
    - [Evolution]: the preorder [evolves] on the state outside the
      accumulator and the invariant [memo_ok] between slots and store.
    - [Assets]: asset extraction branch by branch, and the attributes of the
      element of an asset block.
    - [Structure]: the relation [mirrors] between a block and its element,
      and the shape of the document.
    - [Render]: [render], the document as a function of the tree, of the
      first name to hand out and of the slots; second traversals.
    - [Registry]: [get_writer] as its callers see it.
    - [Machine]: the recursion of [visit] through [b.traverse(self)] as a
      machine with an explicit stack.  [enter] is a method up to its call of
      [traverse], [leave] the rest of it, and an activation on the stack
      holds the local variables in between ([cur_elemnts], the block) and
      the blocks still to visit.
    - [Success]: the condition on a tree and a registry under which a visit
      returns.
    - [Stores]: what a visit does to the store, for each contract of the
      store and for [ListStore].
    - [Congruence]: the setoid library for dictionaries held as lists:
      trees and documents up to the order of attributes, and the [Proper]
      instance of [visit].  It carries no property of its own.
    - [Names]: the names of the placeholders of [Interactive] blocks.
    - [Errors]: the exceptions that can leave a visit, each traced to a
      block of the tree.
    - [Objects]: the visitor with [self.elements] as a reference to a list
      object, as Python has it: the [visit] methods again, on a state that
      holds the list objects by their identity ([obj_visit],
      [obj_add_element], ...), and the proof that they agree with
      [XMLBuilder].
    - [Calls]: a store that records the calls [add_file] and [load_file]
      made on it ([Logged], an instance of [FileStore] over any other), and
      the calls of a visit.
    - [Session]: a program that makes builders and visits trees any number
      of times on one store, as a step relation and its closure.
    - [Dispatch]: the selection [multimethod] makes among the functions
      registered under one name, over a partial order [issubclass]
      ([Hierarchy]); classes from [class] statements ([ancestors]).
    - [Methods]: the six registrations of [visit] ([visit_registry]), which
      of them a block object of a class gets, and an asset writer whose
      methods are multimethods ([multi_writer]).
    - [Order]: the order of the files in a [ListStore] after a visit.

    ** How the state is modelled

    [XMLBuilder.World] is everything a visit can read or write: the builder
    object ([store], [elements]), the [_prev_entry] slot of every asset block
    (a finite map from the identity of the block object to the entry, so two
    occurrences of one block object share their slot), the module-level
    [asset_mapping] and the supply of names of [gen_name].

    [elements] is a value in [World]: the list, not the list object.  That
    this loses nothing is a theorem: [Objects.Objects] keeps the list
    objects in a finite map from their identity and [self.elements] as an
    identity, [Objects.abs] reads a [World] off it, and each method on
    objects is simulated by the method on values
    ([PyMonad.simulates], [Objects.obj_visit_refines]).

    A block is a value of [Blocks.Block], and its constructor is the
    function of [visit] that [multimethod] selects for the block object.
    Which function that is for an object of a given class is the subject of
    [Dispatch] and [Methods]; a tree in which the selection is the
    constructor everywhere is [Methods.typed].  A block object whose class
    has no most specific registration is not a [Block]: for it the call of
    [visit] is a [DispatchError] ([Methods.visit_dispatch_error]) before
    any method runs.

    ** What the theorems show

    - [Refinement.visit_refines]: the accumulator discipline.  From every
      state, [visit b] and the specification have the same outcome and leave
      the same store, slots, registry and names, and the same accumulator
      when they return.
    - [Render]: the element a visit appends is [render] of the block
      ([visit_renders]); with a store that deduplicates, a second traversal
      of the tree by a new builder on the same store returns the document
      again and writes nothing ([visit_rerun]), the very same document if
      the tree takes no name ([visit_rerun_same]).
    - [Session]: the same for any session.  What every visit keeps is kept
      through any number of visits and builders ([session_invariant], by
      induction on the steps), and a tree that was visited with success is
      not written again at any later point ([session_rerun]); a session
      of the visitor on list objects is a session of the values they stand
      for ([obj_session_simulated]).
    - [Objects]: the visitor on list objects agrees with the visitor on
      values, after a return and after an exception
      ([obj_visit_refines]); whatever its outcome, a visit only appends to
      the lists that are there, and only to the one [self.elements] refers
      to, so a holder of a list loses no element of it
      ([obj_visit_appends]); after a return the field refers to the list it referred to, one
      element longer, or, after a [View], to a new list that holds the
      document ([obj_visit_returns]); a container that raises leaves the
      list of its caller alone and the field on another list
      ([obj_visit_raises]); one list is made per container and view
      ([obj_visit_allocates]).
    - [Calls]: recording the calls does not change a visit
      ([visit_erases]); a visit that returns has made one call on the store
      per asset block, in document order, each for the entry the block is
      left with, and the store it leaves is the store it was given after
      these calls ([visit_calls]); after an exception too the store is the
      one the recorded calls give ([visit_replays]).
    - [Order]: with [ListStore] the store after a visit that returns is the
      store before it with the entries of the asset blocks added in
      document order, an entry whose hash is there being skipped
      ([visit_store_order]).
    - [Dispatch], [Methods]: the function a call of [visit] runs is the one
      registered for the most specific of the six classes the block is an
      instance of, and there is a [DispatchError] exactly when there is no
      such class (the lemmas [visit_dispatch_least] and
      [visit_dispatch_error], instances of [Dispatch.dispatch_Return]); the
      order of the definitions in the file does not matter
      ([visit_dispatch_order]); with single inheritance every instance of
      [BaseElement] is dispatched ([visit_dispatch_single]); a writer whose
      methods are multimethods makes [_add_asset_to_store] store the data
      or raise the client error that names its type
      ([add_asset_multimethod]).
    - [Structure]: a visit that returns has appended one element that
      mirrors the block ([visit_mirrors]): children in order, tags and
      attributes of the blocks, every asset as the element of the entry in
      its slot; the document of a view ([build_document]); which trees
      without assets a visit returns for ([visit_static]), a [View] that is
      the first block of a container among them ([ex_nested_view]); a
      container that fails leaves the accumulator of its children behind
      ([visit_container_raises]); the visit of an [Interactive] for each
      of its targets, with the test of the target, the name taken and the
      element appended attribute by attribute ([visit_Interactive_self],
      [visit_Interactive_group], [visit_Interactive_default]).
    - [Evolution]: every visit, returning or raising, is a step of [evolves]
      ([visit_evolves]) and keeps [memo_ok] ([visit_memo_ok]); with a store
      that deduplicates a second visit of an asset changes nothing but the
      accumulator ([visit_asset_again]); the names taken ([visit_names]).
    - [Assets]: [_add_asset_to_store] on each of its branches with the state
      it leaves: reuse, write, load, "No asset to add", the unsupported
      payload, the [KeyError] of the registry that the [except] clause
      does not catch, and any other exception of a writer, which passes as
      it is and leaves the entry [get_file] made out of the store
      ([add_asset_writer_raises]); the element a visit of an asset block
      appends, attribute by attribute ([visit_asset_attributes]); the
      [TypeError] of a block attribute named [type] or [src].
    - [Registry]: the first call fills the registry, a registry that is not
      empty is never filled, and the registry settles after one call.
    - [Machine]: the machine computes [visit] ([exec_visit]); from a call
      with no caller it halts within [S (cost b)] moves with the result of
      [visit b] ([machine_terminates]); its stack never holds more
      activations of [visit] than the tree is deep, and holds that many when
      the visit returns ([machine_depth]).
    - [Success]: a visit returns when every [View] is the first block of its
      parent and every asset block can be stored ([visit_succeeds]); the
      condition is on the tree and the registry only, and it is exact for a
      first visit: when no asset block has an entry to reuse, a visit that
      returned was given such a tree ([visit_returned_storable]).
    - [Stores]: the store grows by at most one file per asset block
      ([visit_store_bound], for a [CountedStore]); with [ListStore] the
      hashes of the entries stay distinct and every [src] of the document
      names exactly one entry ([visit_refs_resolve]).
    - [Congruence]: [visit] is [Proper] for equality up to the order of
      attributes ([visit_proper]): a library fact about the list model of
      dictionaries, not a property of the code.
    - [Names]: when the enumeration of names is injective, the placeholders
      of a document have pairwise distinct names, none handed out before
      ([visit_placeholders_distinct]).
    - [Errors]: an exception that leaves a visit is the [AssertionError]
      of a misplaced [View] or an error of an asset block of the tree, with
      the registry as the visit uses it: the [KeyError] of a class the
      registry has no writer for, the [TypeError] of a repeated keyword, a
      client error (nothing to store, or a [DispatchError] of the writer
      the registry has for the class), or what that writer raises on the
      data of the block; [DispatchError] never leaves
      ([visit_raises_classified]).
    - [PyMonad], [PyDict], [Etree]: the laws of the monad, of dictionaries
      and keyword arguments, and of elements that the above rest on.

    Theorems about the visitor hold for every instance of [FileStore]; the
    ones that need more say [DedupStore] or [CountedStore].

    ** Bounds, fuel

    [visit] is structurally recursive on the block tree and uses no fuel.
    The machine of [Machine] is run for a number of moves: [S (cost b)]
    moves are enough for a call of [visit b], where [cost b] counts two
    moves for a container or a view, one for every block and one for every
    call of a block; [machine_terminates] proves that this number, and any
    greater one, gives the result of [visit].  The stack of the machine
    counts activations of [visit]; the frames Python puts between two of
    them ([accept], the dispatch of [multimethod], [reduce]) are a constant
    factor that is not modelled, and neither is the recursion limit.
    Every definition evaluates by [vm_compute].  Strings and names are
    unbounded; the digest of [ListStore] is Adler-32, kept in 32 bits
    ([ListStore.adler32_bound]), as a stand-in for the hash of the store.

    ** What is not modelled

    - lxml's validation of tag names, attribute names and character data, and
      the serialisation of the element tree to text;
    - the contents of [datapane.blocks], [datapane.processors] and
      [datapane.view.asset_writers]: they are not part of the source tree, so
      the block classes, the store and the writers are modelled from their
      use in [xml_visitor.py] and from the specification, and the writers and
      [gen_name] are parameters of the visitor's section;
    - the value a [visit] method returns ([self], for chaining): a visit is
      modelled by its effect on the state;
    - [assert] is modelled as always enabled (no [python -O]);
    - failures of the code the visitor calls, other than those of the
      writers: the operations of the store are total ([load_file] of a path
      that does not exist, an I/O error of [add_file] are not modelled),
      [b.controls._to_xml()] is the element the block holds, and
      instantiating a writer class gives the writer;
    - subclasses of [XMLBuilder]: the class name in the message of the client
      error ([self.__class__.__name__]) is the literal [XMLBuilder];
    - that a dictionary has no key twice is not part of the type [dict]
      (a list of items): where a theorem needs it of an input it says so
      ([dict_wf]);
    - the classes of [datapane.blocks]: the selection of [multimethod] is
      modelled for any class hierarchy ([Dispatch]), and the class table of
      the examples is an illustration; what a method of [visit] would do
      with a block object that lacks the attributes it reads is not
      modelled, since [Block] gives a block the attributes of its
      constructor;
    - Python's linearisation of the bases of a class (the order of
      [__mro__]): [issubclass] needs the set of the ancestors only;
    - the lxml element objects as objects: an element is a value, built once
      and not shared, which is how the visitor uses them ([e.set] is applied
      before the element is appended); only the list [self.elements] is
      modelled with its identity ([Objects]);
    - the reclaiming of list objects no reference reaches, and the file
      [get_file] opens: [get_file] is a function of the store here, so the
      record of [Calls] has the calls that register an entry and no other. *)

From stdpp Require Export ssreflect base tactics option list strings gmap pretty.

(** ** Notation scope *)

Declare Scope py_scope.
Delimit Scope py_scope with py.
Open Scope py_scope.

(** ** Hint database *)

(** [py] collects the equations that evaluate the Python models: the
    computation lemmas of the monad, of dictionaries and of the element
    factory.  [py_simpl] rewrites with them. *)
Create HintDb py discriminated.
Create Rewrite HintDb py.

Ltac py_simpl := repeat (progress (autorewrite with py in *; simpl in * )).

(** Case analysis on the first [decide] or [match] of the goal, closing the
    branches that are contradictory. *)
Ltac py_case :=
  first [case_decide | case_match]; simplify_eq/=; try done.

(** ** Lists *)

Section lists.
Context {A : Type}.
Implicit Types (l k : list A) (x y : A).

Lemma app_singleton_inv l k x y : l ++ [x] = k ++ [y] → l = k ∧ x = y.
Proof. intros H. by apply app_inj_tail in H. Qed.

Lemma last_snoc l x : last (l ++ [x]) = Some x.
Proof. by rw last_app. Qed.

Lemma length_snoc l x : length (l ++ [x]) = S (length l).
Proof. rw length_app /=. lia. Qed.

Lemma prefix_snoc l x : l `prefix_of` l ++ [x].
Proof. by exists [x]. Qed.

Lemma filter_ext_elem_of (P Q : A → Prop)
    `{!∀ x, Decision (P x), !∀ x, Decision (Q x)} l :
  (∀ x, x ∈ l → P x ↔ Q x) → filter P l = filter Q l.
Proof.
  induction l as [|x l IH]; intros Hext; [done|].
  rw !filter_cons IH; [|by intros; apply Hext; right].
  by rw (decide_ext (P x) (Q x)); [|apply Hext; left].
Qed.

Lemma elem_of_fmap_subseteq {B} (f : A → B) l k (z : B) :
  l ⊆ k → z ∈ f <$> l → z ∈ f <$> k.
Proof.
  rw !list_elem_of_fmap. intros Hlk (x & -> & Hx). exists x. split; [done|].
  by apply Hlk.
Qed.

Lemma Forall2_snoc {B} (P : A → B → Prop) l (k : list B) x (z : B) :
  Forall2 P l k → P x z → Forall2 P (l ++ [x]) (k ++ [z]).
Proof. intros. apply Forall2_app; by repeat constructor. Qed.

Lemma Forall2_impl_Forall {B} (P Q : A → B → Prop) l (k : list B) :
  Forall (λ x, ∀ z, P x z → Q x z) l → Forall2 P l k → Forall2 Q l k.
Proof.
  intros Hl HP. induction HP as [|x z l k Hxz _ IH]; [constructor|].
  apply Forall_cons in Hl as [Hx Hl]. constructor; auto.
Qed.

Lemma sum_list_fmap_0 (f : A → nat) l :
  sum_list (f <$> l) = 0 ↔ Forall (λ x, f x = 0) l.
Proof.
  induction l as [|x l IH]; [by split|].
  rw fmap_cons Forall_cons -IH /=. lia.
Qed.

Lemma length_join_fmap {B} (f : A → list B) l :
  length (mjoin (f <$> l)) = sum_list ((length ∘ f) <$> l).
Proof. induction l as [|x l IH]; [done|]. by rw /= length_app IH. Qed.

(** In a list without two elements of one image, an element is determined
    by its image. *)
Lemma NoDup_fmap_unique {B} (f : A → B) l x y :
  NoDup (f <$> l) → x ∈ l → y ∈ l → f x = f y → x = y.
Proof.
  induction l as [|a l IH]; [by intros _ ?%elem_of_nil|].
  rw fmap_cons NoDup_cons !elem_of_cons. intros [Ha Hl] [->|Hx] [->|Hy] Hf; auto.
  - destruct Ha. rw Hf. by apply list_elem_of_fmap_2.
  - destruct Ha. rw -Hf. by apply list_elem_of_fmap_2.
Qed.

(** A list without repeats all of whose elements are [x] is [[x]]. *)
Lemma NoDup_singleton_eq l x : NoDup l → x ∈ l → (∀ y, y ∈ l → y = x) → l = [x].
Proof.
  intros Hl Hx Hall. destruct l as [|a [|b l]]; [by apply elem_of_nil in Hx| |].
  - f_equal. apply Hall. by left.
  - apply NoDup_cons in Hl as [Ha _]. destruct Ha.
    rw (Hall a (list_elem_of_here _ _)) -(Hall b); [by left | by right; left].
Qed.

(** A stronger predicate that misses an element of the list keeps fewer
    elements. *)
Lemma length_filter_lt_sub (P Q : A → Prop)
    `{!∀ x, Decision (P x), !∀ x, Decision (Q x)} l x :
  (∀ y, P y → Q y) → x ∈ l → Q x → ¬ P x →
  length (filter P l) < length (filter Q l).
Proof.
  intros HPQ Hx HQ HP.
  assert (filter P l = filter P (filter Q l)) as ->.
  { rw list_filter_filter. apply filter_ext_elem_of. naive_solver. }
  apply (length_filter_lt _ _ x); [by apply list_elem_of_filter | done].
Qed.

Lemma forallb_Forall (f : A → bool) l :
  forallb f l = true ↔ Forall (λ x, f x = true) l.
Proof.
  induction l as [|x l IH]; [by split|].
  rw /= andb_true_iff Forall_cons IH //.
Qed.

Lemma Forall_impl2 (P Q R : A → Prop) l :
  Forall P l → Forall Q l → (∀ x, P x → Q x → R x) → Forall R l.
Proof. intros HP HQ HR. induction HP; inversion_clear HQ; constructor; auto. Qed.

Lemma Forall2_Forall_r {B} (P : A → B → Prop) (Q : B → Prop) l (k : list B) :
  Forall (λ x, ∀ z, P x z → Q z) l → Forall2 P l k → Forall Q k.
Proof.
  intros Hl HP. induction HP as [|x z l k Hxz _ IH]; [constructor|].
  apply Forall_cons in Hl as [Hx Hl]. constructor; auto.
Qed.

Lemma Forall2_elem_of_l {B} (P : A → B → Prop) l (k : list B) x :
  Forall2 P l k → x ∈ l → ∃ z, z ∈ k ∧ P x z.
Proof.
  induction 1 as [|x' z l k Hxz _ IH]; [by intros ?%elem_of_nil|].
  intros [->|Hx]%elem_of_cons; [exists z; split; [by left|done]|].
  destruct (IH Hx) as (z' & ? & ?). exists z'. split; [by right|done].
Qed.

(** What relates the elements of two lists one by one also relates their
    images: the lists of the results are equal. *)
Lemma Forall2_fmap_eq {B C} (f : A → C) (g : B → C) (P : A → B → Prop) l (k : list B) :
  (∀ x z, P x z → f x = g z) → Forall2 P l k → f <$> l = g <$> k.
Proof. intros Hfg. induction 1; [done|]. rw !fmap_cons. f_equal; auto. Qed.
End lists.

(** [all_first p first l]: every element of [l] passes [p], which is told
    whether the element is the first of the list. *)
Section all_first.
Context {A : Type} (p : bool → A → bool).

Fixpoint all_first (first : bool) (l : list A) : bool :=
  match l with
  | [] => true
  | x :: l' => p first x && all_first false l'
  end.

Lemma all_first_app first l k :
  all_first first (l ++ k) =
    all_first first l && all_first (first && bool_decide (l = [])) k.
Proof.
  revert first. induction l as [|x l IH]; intros first; [by destruct first|].
  by rw /= IH /= andb_false_r andb_assoc.
Qed.
End all_first.

(** [thread f cost n l]: [f] on the elements of [l] from left to right, each
    with the counter that starts at [n] and that every element before it
    has advanced by its cost. *)
Section thread.
Context {A B : Type} (f : nat → A → B) (cost : A → nat).

Fixpoint thread (n : nat) (l : list A) : list B :=
  match l with
  | [] => []
  | x :: l' => f n x :: thread (n + cost x) l'
  end.

Lemma length_thread n l : length (thread n l) = length l.
Proof. revert n. induction l as [|x l IH]; intros n; [done|]. by rw /= IH. Qed.

(** Where nothing costs, the counter does not move. *)
Lemma thread_free n l : Forall (λ x, cost x = 0) l → thread n l = f n <$> l.
Proof.
  induction 1 as [|x l Hx _ IH]; [done|]. by rw /= Hx Nat.add_0_r IH.
Qed.
End thread.

Lemma thread_ext {A B} (f g : nat → A → B) cost n l :
  Forall (λ x, ∀ k, f k x = g k x) l → thread f cost n l = thread g cost n l.
Proof.
  intros Hl. revert n. induction Hl as [|x l Hx _ IH]; intros n; [done|].
  by rw /= Hx IH.
Qed.

(** What every result holds of the numbers handed to it, the results of the
    whole list hold of the numbers handed to the list, in order. *)
Lemma thread_join_sublist {A B C} (g : nat → A → B) (h : B → list C) (img : nat → C)
    cost l n :
  Forall (λ x, ∀ k, h (g k x) `sublist_of` (img <$> seq k (cost x))) l →
  mjoin (h <$> thread g cost n l) `sublist_of` (img <$> seq n (sum_list (cost <$> l))).
Proof.
  intros Hl. revert n. induction Hl as [|x l Hx _ IH]; intros n; [done|].
  csimpl. rw seq_app fmap_app. by apply sublist_app.
Qed.

(** ** Invariants as preorders *)

(** [keeps I]: the relation between a state and a later one of an operation
    that keeps the invariant [I]. *)
Definition keeps {A} (I : A → Prop) : relation A := λ x y, I x → I y.

#[export] Instance keeps_preorder {A} (I : A → Prop) : PreOrder (keeps I).
Proof. split; [by intros ?? | intros x y z Hxy Hyz ?; by apply Hyz, Hxy]. Qed.

#[export] Hint Resolve prefix_snoc : py.
#[export] Hint Rewrite @length_snoc @last_snoc : py.
