(* ===== verification/PyMonad.v ===== *)
(** * Python's control flow: state and exceptions

    A Python method mutates the objects it can reach and either returns a
    value or raises.  [M St A] is the type of such computations over a state
    [St]: a function from the state before to the outcome and the state
    after.  Unlike the usual error monad, the state after a [Raise] is kept:
    an exception does not undo the mutations made before it.

    The monad is an instance of stdpp's [MRet], [MBind] and [FMap], so the
    notations [x ← m; k] and [m ≫= f] apply.  [run_bind] and the other [run_]
    lemmas are the equations proofs evaluate computations with; they are in
    the rewrite database [py]. *)

From S2P Require Import Prelude.

(** The exceptions [xml_visitor.py] raises, catches or lets through: the
    five it names or causes itself, and an exception of any other class,
    by the name of the class, which the code it calls (a writer) may raise
    and which no clause of the file catches. *)
Inductive PyExc : Type :=
| AssertionError
| KeyError (key : string)
| TypeError (msg : string)
| DispatchError
| DPClientError (msg : string)
| OtherException (class_name : string).

#[export] Instance PyExc_eq_dec : EqDecision PyExc.
Proof. solve_decision. Defined.

Inductive Outcome (A : Type) : Type :=
| Return (a : A)
| Raise (e : PyExc).
Arguments Return {A} a.
Arguments Raise {A} e.

#[export] Instance Outcome_eq_dec `{EqDecision A} : EqDecision (Outcome A).
Proof. solve_decision. Defined.

Definition is_Return {A} (o : Outcome A) : bool :=
  match o with Return _ => true | Raise _ => false end.

Definition M (St A : Type) : Type := St → Outcome A * St.

Definition run {St A} (m : M St A) (s : St) : Outcome A * St := m s.
Arguments run {St A} m s : simpl never.

Section monad.
Context {St : Type}.

#[export] Instance M_ret : MRet (M St) := λ A a s, (Return a, s).

#[export] Instance M_bind : MBind (M St) := λ A B f m s,
  match m s with
  | (Return a, s') => f a s'
  | (Raise e, s') => (Raise e, s')
  end.

#[export] Instance M_fmap : FMap (M St) := λ A B f m, a ← m; mret (f a).

(** Reading and writing the state. *)
Definition get : M St St := λ s, (Return s, s).
Definition gets {A} (f : St → A) : M St A := λ s, (Return (f s), s).
Definition put (s : St) : M St unit := λ _, (Return tt, s).
Definition modify (f : St → St) : M St unit := λ s, (Return tt, f s).

(** [raise e] and [assert b]. *)
Definition raise {A} (e : PyExc) : M St A := λ s, (Raise e, s).
Definition py_assert (b : bool) : M St unit :=
  if b then mret tt else raise AssertionError.

(** [try: m except <the exceptions catches accepts> : h].  The handler runs
    in the state the exception left. *)
Definition try_except {A} (m : M St A) (catches : PyExc → bool)
    (h : PyExc → M St A) : M St A := λ s,
  match m s with
  | (Return a, s') => (Return a, s')
  | (Raise e, s') => if catches e then h e s' else (Raise e, s')
  end.

(** Two computations are equivalent when they agree on every state. *)
#[export] Instance M_equiv {A} : Equiv (M St A) := λ m1 m2, ∀ s, run m1 s = run m2 s.

#[export] Instance M_equivalence {A} : Equivalence (≡@{M St A}).
Proof.
  split; [by intros ?? | by intros ?? H s | intros ??? H1 H2 s].
  by rw (H1 s).
Qed.

Section run.
Context {A B : Type}.
Implicit Types (m : M St A) (f : A → M St B) (s : St).

Lemma run_ret (a : A) s : run (mret a) s = (Return a, s).
Proof. done. Qed.

Lemma run_bind m f s :
  run (m ≫= f) s =
    match run m s with
    | (Return a, s') => run (f a) s'
    | (Raise e, s') => (Raise e, s')
    end.
Proof. done. Qed.

Lemma run_fmap (g : A → B) m s :
  run (g <$> m) s =
    match run m s with
    | (Return a, s') => (Return (g a), s')
    | (Raise e, s') => (Raise e, s')
    end.
Proof. rw /fmap /M_fmap run_bind. by destruct (run m s) as [[]]. Qed.

Lemma run_get s : run get s = (Return s, s).
Proof. done. Qed.
Lemma run_gets (g : St → A) s : run (gets g) s = (Return (g s), s).
Proof. done. Qed.
Lemma run_put s s' : run (put s') s = (Return tt, s').
Proof. done. Qed.
Lemma run_modify (g : St → St) s : run (modify g) s = (Return tt, g s).
Proof. done. Qed.
Lemma run_raise e s : run (raise e : M St A) s = (Raise e, s).
Proof. done. Qed.

Lemma run_assert (b : bool) s :
  run (py_assert b) s = (if b then Return tt else Raise AssertionError, s).
Proof. by destruct b. Qed.

Lemma run_try_except m catches (h : PyExc → M St A) s :
  run (try_except m catches h) s =
    match run m s with
    | (Return a, s') => (Return a, s')
    | (Raise e, s') => if catches e then run (h e) s' else (Raise e, s')
    end.
Proof. done. Qed.

(** A bind returns exactly when both halves do. *)
Lemma bind_returns m f s (b : B) s2 :
  run (m ≫= f) s = (Return b, s2) ↔
  ∃ a s1, run m s = (Return a, s1) ∧ run (f a) s1 = (Return b, s2).
Proof.
  rw run_bind. destruct (run m s) as [[a|e] s1]; naive_solver.
Qed.

(** A bind raises when its first half does, or when the first half
    returns and the second raises. *)
Lemma bind_raises m f s e s2 :
  run (m ≫= f) s = (Raise e, s2) ↔
  run m s = (Raise e, s2) ∨
  ∃ a s1, run m s = (Return a, s1) ∧ run (f a) s1 = (Raise e, s2).
Proof.
  rw run_bind. destruct (run m s) as [[a|e'] s1]; naive_solver.
Qed.

(** A preorder on states that both halves of a bind respect is respected
    by the bind, whatever its outcome. *)
Lemma bind_preserves (P : St → St → Prop) `{!PreOrder P} m f :
  (∀ s, P s (run m s).2) → (∀ a s, P s (run (f a) s).2) → ∀ s, P s (run (m ≫= f) s).2.
Proof.
  intros Hm Hf s. rw run_bind. move: (Hm s).
  destruct (run m s) as [[a|e] s1]; [|done]. intros Hs1. etrans; [done | apply Hf].
Qed.
End run.

(** The monad laws, up to [≡]. *)
Lemma bind_ret_l {A B} (a : A) (f : A → M St B) : mret a ≫= f ≡ f a.
Proof. done. Qed.

Lemma bind_ret_r {A} (m : M St A) : m ≫= mret ≡ m.
Proof. intros s. rw run_bind. by destruct (run m s) as [[]]. Qed.

Lemma bind_assoc {A B C} (m : M St A) (f : A → M St B) (g : B → M St C) :
  (m ≫= f) ≫= g ≡ m ≫= (λ a, f a ≫= g).
Proof. intros s. rw !run_bind. by destruct (run m s) as [[]]. Qed.

Lemma bind_raise_l {A B} e (f : A → M St B) : raise e ≫= f ≡ raise e.
Proof. done. Qed.

#[export] Instance bind_proper {A B} :
  Proper (pointwise_relation A (≡) ==> (≡) ==> (≡)) (mbind (M := M St) (B := B)).
Proof.
  intros f g Hfg m1 m2 Hm s. rw !run_bind (Hm s).
  destruct (run m2 s) as [[a|e] s']; [apply Hfg | done].
Qed.

#[export] Instance run_proper {A} : Proper ((≡) ==> (=) ==> (=)) (run (St := St) (A := A)).
Proof. by intros m1 m2 Hm s ? <-. Qed.

#[export] Instance try_except_proper {A} :
  Proper ((≡) ==> (=) ==> pointwise_relation _ (≡) ==> (≡)) (try_except (A := A)).
Proof.
  intros m1 m2 Hm c ? <- h1 h2 Hh s. rw !run_try_except (Hm s).
  destruct (run m2 s) as [[a|e] s']; [done|]. destruct (c e); [apply Hh | done].
Qed.
End monad.

#[export] Hint Rewrite @run_ret @run_bind @run_fmap @run_get @run_gets @run_put
  @run_modify @run_raise @run_assert @run_try_except : py.

(** A call of a function that has no state: its outcome, in the state as it is. *)
Definition call {St A} (o : Outcome A) : M St A := λ s, (o, s).

Lemma run_call {St A} (o : Outcome A) (s : St) : run (call o) s = (o, s).
Proof. done. Qed.

#[export] Hint Rewrite @run_call : py.

(** [zoom proj upd m] runs a computation on a part of the state: the part
    [proj s] is what [m] sees, and what [m] leaves is written back with
    [upd], after a return and after a raise alike. *)
Definition zoom {St St' A} (proj : St → St') (upd : St' → St → St)
    (m : M St' A) : M St A := λ s,
  let '(o, p) := m (proj s) in (o, upd p s).

Lemma run_zoom {St St' A} (proj : St → St') upd (m : M St' A) s :
  run (zoom proj upd m) s = ((run m (proj s)).1, upd (run m (proj s)).2 s).
Proof. rw /run /zoom. by destruct (m (proj s)). Qed.

#[export] Instance zoom_proper {St St' A} (proj : St → St') upd :
  Proper ((≡) ==> (≡)) (zoom (A := A) proj upd).
Proof. intros m1 m2 Hm s. by rw !run_zoom (Hm (proj s)). Qed.

#[export] Hint Rewrite @run_zoom : py.

(** [traverse f l] runs [f] on the elements of [l] from left to right and
    stops at the first that raises: the loop
    [reduce(lambda v, x: x.accept(v), l, visitor)]. *)
Section traverse.
Context {St A : Type} (f : A → M St unit).

Fixpoint traverse (l : list A) : M St unit :=
  match l with
  | [] => mret tt
  | x :: l' => f x ≫= λ _, traverse l'
  end.

Lemma run_traverse_nil s : run (traverse []) s = (Return tt, s).
Proof. done. Qed.

Lemma run_traverse_cons x l s :
  run (traverse (x :: l)) s =
    match run (f x) s with
    | (Return _, s') => run (traverse l) s'
    | (Raise e, s') => (Raise e, s')
    end.
Proof. done. Qed.

Lemma traverse_app l k : traverse (l ++ k) ≡ traverse l ≫= λ _, traverse k.
Proof.
  induction l as [|x l IH]; intros s; [done|].
  rw /= !run_bind. destruct (run (f x) s) as [[[]|e] s']; [apply IH | done].
Qed.

(** The loop ends at the first element that raises: the elements after it
    are not visited, and the state is the one the exception left. *)
Lemma traverse_raises l x k s s1 e s2 :
  run (traverse l) s = (Return tt, s1) → run (f x) s1 = (Raise e, s2) →
  run (traverse (l ++ x :: k)) s = (Raise e, s2).
Proof. intros Hl Hx. by rw traverse_app run_bind Hl run_traverse_cons Hx. Qed.
End traverse.

#[export] Hint Rewrite @run_traverse_nil @run_traverse_cons : py.

(** [collect f first l] runs [f] on the elements of [l] from left to right
    and returns the list of the results; [f] is told whether the element is
    the first of the list ([first], for the head, and [false] after it). *)
Section collect.
Context {St A B : Type} (f : bool → A → M St B).

Fixpoint collect (first : bool) (l : list A) : M St (list B) :=
  match l with
  | [] => mret []
  | x :: l' => y ← f first x; ys ← collect false l'; mret (y :: ys)
  end.

Lemma run_collect_nil first s : run (collect first []) s = (Return [], s).
Proof. done. Qed.

Lemma run_collect_cons first x l s :
  run (collect first (x :: l)) s =
    match run (f first x) s with
    | (Return y, s') =>
        match run (collect false l) s' with
        | (Return ys, s'') => (Return (y :: ys), s'')
        | (Raise e, s'') => (Raise e, s'')
        end
    | (Raise e, s') => (Raise e, s')
    end.
Proof.
  rw /= run_bind. destruct (run (f first x) s) as [[y|e] s']; [|done].
  rw run_bind. by destruct (run (collect false l) s') as [[ys|e] s''].
Qed.

(** A list of results is as long as the list of arguments. *)
Lemma collect_length first l s ys s' :
  run (collect first l) s = (Return ys, s') → length ys = length l.
Proof.
  revert first s ys. induction l as [|x l IH]; intros first s ys.
  { rw run_collect_nil. intros ?. by simplify_eq. }
  rw run_collect_cons. destruct (run (f first x) s) as [[y|e] s1]; [|done].
  destruct (run (collect false l) s1) as [[ys1|e] s2] eqn:Hl; [|done].
  intros ?; simplify_eq. rw /=. f_equal. by eapply IH.
Qed.

(** A relation that holds between every argument and its result holds
    between the lists, position by position. *)
Lemma collect_Forall2 (R : A → B → Prop) l :
  Forall (λ x, ∀ first s y s', run (f first x) s = (Return y, s') → R x y) l →
  ∀ first s ys s', run (collect first l) s = (Return ys, s') → Forall2 R l ys.
Proof.
  induction 1 as [|x l Hx _ IH]; intros first s ys s'.
  { rw run_collect_nil. intros ?. simplify_eq. constructor. }
  rw run_collect_cons. destruct (run (f first x) s) as [[y|e] s1] eqn:Hy; [|done].
  destruct (run (collect false l) s1) as [[ys1|e] s2] eqn:Hl; [|done].
  intros ?; simplify_eq. constructor; eauto.
Qed.

(** A property of the state that every call keeps, whatever its outcome, is
    kept by the whole list of calls. *)
Lemma collect_preserves (P : St → St → Prop) `{!PreOrder P} l :
  Forall (λ x, ∀ first s, P s (run (f first x) s).2) l →
  ∀ first s, P s (run (collect first l) s).2.
Proof.
  induction 1 as [|x l Hx _ IH]; intros first s; [done|].
  rw run_collect_cons. move: (Hx first s).
  destruct (run (f first x) s) as [[y|e] s1]; [|done]. intros Hs1.
  move: (IH false s1). destruct (run (collect false l) s1) as [[ys|e] s2]; simpl;
    intros; by etrans.
Qed.

(** A relation between argument and result that depends on the state, and
    that later states keep, holds between the lists in the final state. *)
Lemma collect_Forall2_mono (P : St → St → Prop) `{!PreOrder P}
    (R : St → A → B → Prop) l :
  (∀ s s' x y, P s s' → R s x y → R s' x y) →
  (∀ x first s, P s (run (f first x) s).2) →
  Forall (λ x, ∀ first s y s', run (f first x) s = (Return y, s') → R s' x y) l →
  ∀ first s ys s', run (collect first l) s = (Return ys, s') → Forall2 (R s') l ys.
Proof.
  intros Hmono HP. induction 1 as [|x l Hx _ IH]; intros first s ys s'.
  { rw run_collect_nil. intros ?. simplify_eq. constructor. }
  rw run_collect_cons. destruct (run (f first x) s) as [[y|e] s1] eqn:Hy; [|done].
  assert (P s1 (run (collect false l) s1).2) as Hs.
  { apply collect_preserves; [done|]. by apply Forall_true. }
  destruct (run (collect false l) s1) as [[ys1|e] s2] eqn:Hl; [|done].
  intros ?; simplify_eq/=. constructor; eauto.
Qed.

(** A log that every call that returns extends by entries in a relation
    with its argument that later states keep: a list of calls that returns
    has extended the log by the entries of its calls, in order. *)
Lemma collect_appends {C} (P : St → St → Prop) `{!PreOrder P}
    (μ : St → list C) (R : St → A → list C → Prop) l :
  (∀ s s' x cs, P s s' → R s x cs → R s' x cs) →
  (∀ x first s, P s (run (f first x) s).2) →
  Forall (λ x, ∀ first s y s', run (f first x) s = (Return y, s') →
                ∃ cs, μ s' = μ s ++ cs ∧ R s' x cs) l →
  ∀ first s ys s', run (collect first l) s = (Return ys, s') →
    ∃ css, μ s' = μ s ++ mjoin css ∧ Forall2 (R s') l css.
Proof.
  intros Hmono HP. induction 1 as [|x l Hx _ IH]; intros first s ys s'.
  { rw run_collect_nil. intros ?. simplify_eq. exists []. by rw /= app_nil_r. }
  rw run_collect_cons. destruct (run (f first x) s) as [[y|e] s1] eqn:Hy; [|done].
  assert (P s1 (run (collect false l) s1).2) as Hs.
  { apply collect_preserves; [done|]. by apply Forall_true. }
  destruct (run (collect false l) s1) as [[ys1|e] s2] eqn:Hl; [|done].
  intros ?; simplify_eq/=. destruct (Hx _ _ _ _ Hy) as (cs & Hcs & HR).
  destruct (IH _ _ _ _ Hl) as (css & Hcss & HRs). exists (cs :: css).
  rw Hcss Hcs /= app_assoc. split; [done|]. constructor; eauto.
Qed.

(** Results that are a function of a later state and of a counter that every
    call advances by the cost of its argument: the list of the results is
    that function threaded through the list. *)
Lemma collect_thread (P : St → St → Prop) `{!PreOrder P}
    (μ : St → nat) (cost : A → nat) (g : St → nat → A → B) l :
  (∀ x first s, P s (run (f first x) s).2) →
  (∀ x first s y s', run (f first x) s = (Return y, s') → μ s' = μ s + cost x) →
  Forall (λ x, ∀ first s y s', run (f first x) s = (Return y, s') →
                ∀ s'', P s' s'' → y = g s'' (μ s) x) l →
  ∀ first s ys s', run (collect first l) s = (Return ys, s') →
    ∀ s'', P s' s'' → ys = thread (g s'') cost (μ s) l.
Proof.
  intros HP Hμ. induction 1 as [|x l Hx _ IH]; intros first s ys s'.
  { rw run_collect_nil. intros ?. by simplify_eq. }
  rw run_collect_cons. destruct (run (f first x) s) as [[y|e] s1] eqn:Hy; [|done].
  assert (P s1 (run (collect false l) s1).2) as Hs.
  { apply collect_preserves; [done|]. by apply Forall_true. }
  destruct (run (collect false l) s1) as [[ys1|e] s2] eqn:Hl; [|done].
  intros ? s'' Hs''; simplify_eq/=. rw -(Hμ _ _ _ _ _ Hy). f_equal.
  - eapply Hx; [done|]. by etrans.
  - by eapply IH.
Qed.

(** A list of calls that returns has passed every test its calls pass when
    they return. *)
Lemma collect_returns_all_first (p : bool → A → bool) l :
  Forall (λ x, ∀ first s y s', run (f first x) s = (Return y, s') → p first x = true) l →
  ∀ first s ys s', run (collect first l) s = (Return ys, s') →
    all_first p first l = true.
Proof.
  induction 1 as [|x l Hx _ IH]; intros first s ys s'; [done|].
  rw run_collect_cons. destruct (run (f first x) s) as [[y|e] s1] eqn:Hy; [|done].
  destruct (run (collect false l) s1) as [[ys1|e] s2] eqn:Hl; [|done].
  intros _. rw /= (Hx _ _ _ _ Hy) /=. by eapply IH.
Qed.

(** The list of calls returns exactly when every call does, where whether a
    call returns does not depend on the state. *)
Lemma collect_is_Return (p : bool → A → bool) l :
  Forall (λ x, ∀ first s, is_Return (run (f first x) s).1 = p first x) l →
  ∀ first s, is_Return (run (collect first l) s).1 = all_first p first l.
Proof.
  induction 1 as [|x l Hx _ IH]; intros first s; [done|].
  rw run_collect_cons /= -(Hx first s).
  destruct (run (f first x) s) as [[y|e] s1]; [|done].
  rw /= -(IH false s1). by destruct (run (collect false l) s1) as [[ys|e] s2].
Qed.

(** The list of calls returns when every call returns in the states that
    have a property [Q] of its argument, and later states keep [Q]. *)
Lemma collect_returns (P : St → St → Prop) (Q : St → A → Prop) (p : bool → A → bool) l :
  (∀ s s' x, P s s' → Q s x → Q s' x) →
  (∀ x first s, P s (run (f first x) s).2) →
  Forall (λ x, ∀ first s, p first x = true → Q s x →
                is_Return (run (f first x) s).1 = true) l →
  ∀ first s, all_first p first l = true → Forall (Q s) l →
    is_Return (run (collect first l) s).1 = true.
Proof.
  intros HQ HP. induction 1 as [|x l Hx _ IH]; intros first s; [done|].
  rw /= andb_true_iff Forall_cons run_collect_cons. intros [Hp Hl] [Hq Hql].
  move: (Hx first s Hp Hq) (HP x first s).
  destruct (run (f first x) s) as [[y|e] s1]; [|done]. intros _ Hs1.
  assert (is_Return (run (collect false l) s1).1 = true) as Hr.
  { apply IH; [done|]. eapply Forall_impl; [done|]. intros x'. by apply HQ. }
  by destruct (run (collect false l) s1) as [[ys|e] s2].
Qed.

(** The exception of a list of calls is the exception of one of the calls:
    [P] holds of the element that raised, which is the first of the list if
    nothing is before it.  [P] may depend on a part [g] of the state that
    the calls do not change. *)
Lemma collect_raises {G} (g : St → G) (P : G → bool → A → PyExc → Prop) l :
  Forall (λ a, ∀ first s, g (run (f first a) s).2 = g s) l →
  Forall (λ a, ∀ first s x, (run (f first a) s).1 = Raise x → P (g s) first a x) l →
  ∀ first s x, (run (collect first l) s).1 = Raise x →
    ∃ l1 a l2, l = l1 ++ a :: l2 ∧ P (g s) (first && bool_decide (l1 = [])) a x.
Proof.
  induction l as [|a l IH]; intros Hg HP first s x; [done|].
  apply Forall_cons in Hg as [Hga Hg]. apply Forall_cons in HP as [Ha HP].
  rw run_collect_cons. move: (Ha first s) (Hga first s).
  destruct (run (f first a) s) as [[y|e] s1]; simpl.
  - intros _ Hs1. move: (IH Hg HP false s1 x).
    destruct (run (collect false l) s1) as [[ys|e] s2]; [done|]. simpl.
    intros Hl Hx. destruct (Hl Hx) as (l1 & a' & l2 & -> & HP').
    exists (a :: l1), a', l2. rw bool_decide_eq_false_2 // andb_false_r.
    by rw -Hs1.
  - intros HPa _ [= <-]. exists [], a, l. rw bool_decide_eq_true_2 // andb_true_r.
    split; [done | by apply HPa].
Qed.

(** Calls that return, from a state with the invariant [I], only for
    arguments with the property [Q], and then keep [I]: a list of calls that
    returns was given arguments with [Q], and keeps [I]. *)
Lemma collect_invariant (I : St → Prop) (Q : A → Prop) l :
  Forall (λ x, ∀ first s y s', I s → run (f first x) s = (Return y, s') → Q x ∧ I s') l →
  ∀ first s ys s', I s → run (collect first l) s = (Return ys, s') → Forall Q l ∧ I s'.
Proof.
  induction 1 as [|x l Hx _ IH]; intros first s ys s' Hs.
  { rw run_collect_nil. intros ?; by simplify_eq. }
  rw run_collect_cons. destruct (run (f first x) s) as [[y|e] s1] eqn:Hy; [|done].
  destruct (Hx _ _ _ _ Hs Hy) as [Hq Hs1].
  destruct (run (collect false l) s1) as [[ys1|e] s2] eqn:Hl; [|done].
  intros ?; simplify_eq. destruct (IH _ _ _ _ Hs1 Hl) as [Hql Hs2]. by split; [constructor|].
Qed.

(** A measure of the state that a call raises by at most the cost of its
    argument, whatever its outcome, is raised by at most the sum. *)
Lemma collect_bound (μ : St → nat) (c : A → nat) l :
  Forall (λ x, ∀ first s, μ (run (f first x) s).2 ≤ μ s + c x) l →
  ∀ first s, μ (run (collect first l) s).2 ≤ μ s + sum_list (c <$> l).
Proof.
  induction 1 as [|x l Hx _ IH]; intros first s; [rw /=; lia|].
  rw run_collect_cons. move: (Hx first s).
  destruct (run (f first x) s) as [[y|e] s1]; csimpl; [|lia].
  move: (IH false s1). destruct (run (collect false l) s1) as [[ys|e] s2]; simpl; lia.
Qed.

(** A counter that every call advances by an amount of its argument is
    advanced by the sum. *)
Lemma collect_sum (μ : St → nat) (c : A → nat) l :
  Forall (λ x, ∀ first s y s', run (f first x) s = (Return y, s') → μ s' = μ s + c x) l →
  ∀ first s ys s', run (collect first l) s = (Return ys, s') →
    μ s' = μ s + sum_list (c <$> l).
Proof.
  induction 1 as [|x l Hx _ IH]; intros first s ys s'.
  { rw run_collect_nil /=. intros ?. simplify_eq. lia. }
  rw run_collect_cons. destruct (run (f first x) s) as [[y|e] s1] eqn:Hy; [|done].
  destruct (run (collect false l) s1) as [[ys1|e] s2] eqn:Hl; [|done].
  intros ?; simplify_eq/=. rw (IH _ _ _ _ Hl) (Hx _ _ _ _ Hy). lia.
Qed.
End collect.

#[export] Hint Rewrite @run_collect_nil @run_collect_cons : py.

(** ** A loop is a list of calls whose results are dropped

    [traverse_collect] lets the lemmas of [collect] speak of [traverse]. *)
Section traverse_collect.
Context {St A : Type} (f : A → M St unit).

Lemma traverse_collect first l s :
  run (traverse f l) s =
    (match (run (collect (λ _, f) first l) s).1 with
     | Return _ => Return tt
     | Raise e => Raise e
     end, (run (collect (λ _, f) first l) s).2).
Proof.
  revert first s. induction l as [|x l IH]; intros first s; [done|].
  rw run_traverse_cons run_collect_cons.
  destruct (run (f x) s) as [[[]|e] s1]; [|done].
  rw (IH false). by destruct (run (collect _ false l) s1) as [[]].
Qed.

Lemma traverse_preserves (P : St → St → Prop) `{!PreOrder P} l :
  Forall (λ x, ∀ s, P s (run (f x) s).2) l → ∀ s, P s (run (traverse f l) s).2.
Proof.
  intros Hl s. rw (traverse_collect true).
  apply (collect_preserves (λ _, f) P). by eapply Forall_impl.
Qed.

Lemma traverse_bound (μ : St → nat) (c : A → nat) l :
  Forall (λ x, ∀ s, μ (run (f x) s).2 ≤ μ s + c x) l →
  ∀ s, μ (run (traverse f l) s).2 ≤ μ s + sum_list (c <$> l).
Proof.
  intros Hl s. rw (traverse_collect true).
  apply (collect_bound (λ _, f)). by eapply Forall_impl.
Qed.

Lemma traverse_sum (μ : St → nat) (c : A → nat) l :
  Forall (λ x, ∀ s s', run (f x) s = (Return tt, s') → μ s' = μ s + c x) l →
  ∀ s s', run (traverse f l) s = (Return tt, s') → μ s' = μ s + sum_list (c <$> l).
Proof.
  intros Hl s s'. rw (traverse_collect true).
  destruct (run (collect _ true l) s) as [[ys|e] s1] eqn:Hc; [|done].
  intros [= <-]. eapply (collect_sum (λ _, f)); [|done].
  eapply Forall_impl; [done|]. intros x Hx _ s0 [] s0'. apply Hx.
Qed.
End traverse_collect.

(** ** Simulation

    [simulates R m m']: from states that [R] relates, [m] and [m'] have the
    same outcome and leave states that [R] relates.  It is the diagram
    that connects two models of a method over different states. *)
Section simulation.
Context {St St' : Type} (R : St → St' → Prop).

Definition simulates {A} (m : M St A) (m' : M St' A) : Prop :=
  ∀ s s', R s s' → (run m s).1 = (run m' s').1 ∧ R (run m s).2 (run m' s').2.

Lemma simulates_ret {A} (a : A) : simulates (mret a) (mret a).
Proof. by intros s s' Hs. Qed.

Lemma simulates_call {A} (o : Outcome A) : simulates (call o) (call o).
Proof. by intros s s' Hs. Qed.

Lemma simulates_bind {A B} (m : M St A) (m' : M St' A) (f : A → M St B) f' :
  simulates m m' → (∀ a, simulates (f a) (f' a)) → simulates (m ≫= f) (m' ≫= f').
Proof.
  intros Hm Hf s s' Hs. rw !run_bind. destruct (Hm s s' Hs) as [Ho Hs1].
  destruct (run m s) as [[a|e] s1], (run m' s') as [[a'|e'] s1'];
    simplify_eq/=; [by apply Hf | done].
Qed.

Lemma simulates_traverse {A} (f : A → M St unit) (f' : A → M St' unit) l :
  Forall (λ x, simulates (f x) (f' x)) l → simulates (traverse f l) (traverse f' l).
Proof.
  induction 1 as [|x l Hx _ IH]; [apply simulates_ret|].
  apply simulates_bind; [done | by intros _].
Qed.
End simulation.

(** ** Outcomes up to an equivalence of the values

    Two outcomes are equivalent when both return, equivalent values, or both
    raise, the same exception.  Two results are, written [r1 ≃ r2], when
    their outcomes are equivalent and their states equal. *)
Inductive outcome_equiv `{Equiv A} : Equiv (Outcome A) :=
| Return_equiv a1 a2 : a1 ≡ a2 → outcome_equiv (Return a1) (Return a2)
| Raise_equiv e : outcome_equiv (Raise e) (Raise e).
#[export] Existing Instance outcome_equiv.

#[export] Instance outcome_equivalence `{Equiv A} `{!Equivalence (≡@{A})} :
  Equivalence (≡@{Outcome A}).
Proof.
  split.
  - intros [a|e]; by constructor.
  - intros ?? []; by constructor.
  - intros ??? [] Hyz; inversion_clear Hyz; constructor. by etrans.
Qed.

Definition result_equiv {St} `{Equiv A} (r1 r2 : Outcome A * St) : Prop :=
  r1.1 ≡ r2.1 ∧ r1.2 = r2.2.
Infix "≃" := result_equiv (at level 70) : py_scope.

#[export] Instance result_equivalence {St} `{Equiv A} `{!Equivalence (≡@{A})} :
  Equivalence (result_equiv (St := St) (A := A)).
Proof.
  split; [by intros ? | by intros ?? [??] | intros ??? [??] [??]]; split;
    by etrans.
Qed.

(** Lists that are equivalent element by element, through calls that give
    equivalent results, give equivalent lists of results. *)
Lemma collect_equiv {St A} `{Equiv B} (f : bool → A → M St B) l1 l2 :
  Forall2 (λ x1 x2, ∀ first s, run (f first x1) s ≃ run (f first x2) s) l1 l2 →
  ∀ first s, run (collect f first l1) s ≃ run (collect f first l2) s.
Proof.
  induction 1 as [|x1 x2 l1 l2 Hx _ IH]; intros first s.
  { rw !run_collect_nil. by split; repeat constructor. }
  rw !run_collect_cons. destruct (Hx first s) as [Ho Hs].
  destruct (run (f first x1) s) as [o1 s1], (run (f first x2) s) as [o2 s2].
  simpl in *. subst s2. destruct Ho as [y1 y2 Hy|e]; [|by split; constructor].
  destruct (IH false s1) as [Ho Hs].
  destruct (run (collect f false l1) s1) as [o1 s1'],
    (run (collect f false l2) s1) as [o2 s2'].
  simpl in *. subst s2'. destruct Ho as [ys1 ys2 Hys|e]; split; by repeat constructor.
Qed.
