(* ===== verification/PyDict.v ===== *)
(** * Python dictionaries with string keys and values

    A [dict] is the list of its items in insertion order; a dictionary a
    Python program can build has no repeated key ([dict_wf]).  The file models
    the operations [xml_visitor.py] applies to attribute dictionaries:

    - [d.get(k)] as [dict_get], [d[k] = v] as [dict_set] (a key that is
      present keeps its position, a new key goes last);
    - the display [{**a, **b}] as [dict_update]: the items of [b] are assigned
      to a copy of [a] one after the other, so [b] wins on a shared key;
    - the keyword arguments of a call [f(k=v, **d, k'=v')] as [kwargs]: the
      keywords are collected from left to right and a keyword that comes
      twice raises [TypeError];
    - [==] on dictionaries, which ignores the order, as the equivalence [≡],
      and the abstraction [dict_to_map] to a finite map. *)

From S2P Require Import Prelude PyMonad.

Definition dict : Type := list (string * string).

Definition keys (d : dict) : list string := d.*1.

Definition dict_wf (d : dict) : Prop := NoDup (keys d).

#[export] Instance dict_wf_dec d : Decision (dict_wf d).
Proof. rw /dict_wf. apply _. Defined.

Fixpoint dict_get (k : string) (d : dict) : option string :=
  match d with
  | [] => None
  | (k', v) :: d' => if decide (k = k') then Some v else dict_get k d'
  end.

(** [k in d] *)
Definition dict_mem (k : string) (d : dict) : bool := bool_decide (is_Some (dict_get k d)).

Fixpoint dict_set (k v : string) (d : dict) : dict :=
  match d with
  | [] => [(k, v)]
  | (k', v') :: d' =>
      if decide (k = k') then (k, v) :: d' else (k', v') :: dict_set k v d'
  end.

Definition dict_update (d1 d2 : dict) : dict :=
  foldl (λ d kv, dict_set kv.1 kv.2 d) d1 d2.

Notation "{** d1 , ** d2 }" := (dict_update d1 d2)
  (at level 0, d1 at level 9, d2 at level 9, format "{** d1 ,  ** d2 }") : py_scope.

(** The keyword arguments of a call collected so far are [kw]; [kwargs_add]
    adds the keywords of one more group, and fails with the first keyword of
    the group that was already given. *)
Fixpoint kwargs_add (kw items : dict) : string + dict :=
  match items with
  | [] => inr kw
  | (k, v) :: items' =>
      if dict_mem k kw then inl k else kwargs_add (kw ++ [(k, v)]) items'
  end.

Fixpoint kwargs_from (kw : dict) (groups : list dict) : string + dict :=
  match groups with
  | [] => inr kw
  | g :: groups' =>
      match kwargs_add kw g with
      | inl k => inl k
      | inr kw' => kwargs_from kw' groups'
      end
  end.

(** [kwargs groups]: the dictionary a callee receives as [**attrib], or the
    [TypeError] for the keyword that was given twice. *)
Definition kwargs {St} (groups : list dict) : M St dict :=
  match kwargs_from [] groups with
  | inl k => raise (TypeError k)
  | inr kw => mret kw
  end.

Definition dict_to_map (d : dict) : gmap string string := list_to_map d.

#[export] Instance dict_equiv : Equiv dict := λ d1 d2, ∀ k, dict_get k d1 = dict_get k d2.

#[export] Instance dict_equivalence : Equivalence (≡@{dict}).
Proof.
  split; [by intros ?? | by intros ?? H k | intros ??? H1 H2 k].
  by rw H1.
Qed.

(** ** Lookup *)

Section lookup.
Implicit Types (d : dict) (k v : string).

Lemma dict_get_to_map d k : dict_get k d = dict_to_map d !! k.
Proof.
  induction d as [|[k' v'] d IH]; [done|]. rw /= IH.
  case_decide; simplify_eq; by [rw lookup_insert_eq | rw lookup_insert_ne].
Qed.

Lemma dict_equiv_to_map d1 d2 : d1 ≡ d2 ↔ dict_to_map d1 = dict_to_map d2.
Proof.
  split; [intros H; apply map_eq => k | intros H k]; move: (H).
  - by rw -!dict_get_to_map.
  - by rw !dict_get_to_map => ->.
Qed.

Lemma dict_get_None d k : dict_get k d = None ↔ k ∉ keys d.
Proof. rw dict_get_to_map. symmetry. apply not_elem_of_list_to_map. Qed.

Lemma dict_get_Some_elem_of d k v : dict_get k d = Some v → (k, v) ∈ d.
Proof. rw dict_get_to_map. apply elem_of_list_to_map_2. Qed.

Lemma dict_get_Some d k v : dict_wf d → dict_get k d = Some v ↔ (k, v) ∈ d.
Proof. intros Hwf. rw dict_get_to_map. symmetry. by apply elem_of_list_to_map. Qed.

Lemma dict_mem_keys d k : dict_mem k d = bool_decide (k ∈ keys d).
Proof.
  rw /dict_mem. apply bool_decide_ext.
  rw -not_eq_None_Some dict_get_None. split; [apply dec_stable | tauto].
Qed.

Lemma dict_get_app d1 d2 k :
  dict_get k (d1 ++ d2) = match dict_get k d1 with Some v => Some v | None => dict_get k d2 end.
Proof. induction d1 as [|[k' v'] d1 IH]; [done|]. simpl. by case_decide. Qed.
End lookup.

#[export] Instance dict_get_proper k : Proper ((≡) ==> (=)) (dict_get k).
Proof. by intros d1 d2 H. Qed.

#[export] Instance dict_mem_proper k : Proper ((≡) ==> (=)) (dict_mem k).
Proof. intros d1 d2 H. by rw /dict_mem H. Qed.

(** ** Item assignment *)

Section set.
Implicit Types (d : dict) (k v : string).

Lemma dict_get_set d k k' v :
  dict_get k' (dict_set k v d) = if decide (k' = k) then Some v else dict_get k' d.
Proof.
  induction d as [|[k0 v0] d IH]; simpl; [done|].
  repeat (case_decide; simplify_eq/=); try done; by rw IH decide_False.
Qed.

Lemma dict_get_set_eq d k v : dict_get k (dict_set k v d) = Some v.
Proof. by rw dict_get_set decide_True. Qed.

Lemma dict_get_set_ne d k k' v : k' ≠ k → dict_get k' (dict_set k v d) = dict_get k' d.
Proof. intros. by rw dict_get_set decide_False. Qed.

(** Assignment keeps the order of the keys: an old key stays where it is,
    a new one is appended. *)
Lemma keys_dict_set d k v :
  keys (dict_set k v d) = if bool_decide (k ∈ keys d) then keys d else keys d ++ [k].
Proof.
  induction d as [|[k0 v0] d IH]; [done|]. rw /=.
  destruct (decide (k = k0)) as [->|Hne]; simpl.
  - rw bool_decide_eq_true_2; [done|left].
  - rw IH. case_bool_decide as Hin.
    + rw bool_decide_eq_true_2; [done|by right].
    + rw bool_decide_eq_false_2; [done|]. by intros [?|?]%elem_of_cons.
Qed.

Lemma dict_set_wf d k v : dict_wf d → dict_wf (dict_set k v d).
Proof.
  rw /dict_wf keys_dict_set. case_bool_decide; [done|].
  intros. apply NoDup_app. split_and!; [done| |apply NoDup_singleton].
  by intros ?? ->%list_elem_of_singleton.
Qed.

Lemma dict_set_to_map d k v : dict_to_map (dict_set k v d) = <[k:=v]> (dict_to_map d).
Proof.
  apply map_eq => k'. rw -dict_get_to_map dict_get_set.
  case_decide; simplify_eq; [by rw lookup_insert_eq|].
  by rw lookup_insert_ne // dict_get_to_map.
Qed.

Lemma dict_set_new d k v : k ∉ keys d → dict_set k v d = d ++ [(k, v)].
Proof.
  induction d as [|[k0 v0] d IH]; [done|]. rw /= not_elem_of_cons => -[??].
  by rw decide_False // IH.
Qed.

Lemma length_dict_set d k v :
  length (dict_set k v d) = if bool_decide (k ∈ keys d) then length d else S (length d).
Proof.
  rw -(length_fmap fst (dict_set _ _ _)) -/(keys _) keys_dict_set.
  case_bool_decide; rw ?length_app /keys length_fmap /=; lia.
Qed.
End set.

#[export] Instance dict_set_proper k v : Proper ((≡) ==> (≡)) (dict_set k v).
Proof. intros d1 d2 H k'. by rw !dict_get_set H. Qed.

#[export] Hint Rewrite dict_get_set_eq : py.
#[export] Hint Resolve dict_set_wf : py.

(** ** Merging *)

Section update.
Implicit Types (d : dict) (k v : string).

Lemma dict_update_nil d : {** d, ** [] } = d.
Proof. done. Qed.

Lemma dict_update_cons d k v d2 : {** d, ** ((k, v) :: d2)} = {** (dict_set k v d), ** d2}.
Proof. done. Qed.

Lemma dict_update_snoc d d2 k v : {** d, ** (d2 ++ [(k, v)]) } = dict_set k v {** d, ** d2}.
Proof. by rw /dict_update foldl_app. Qed.

Lemma dict_update_wf d1 d2 : dict_wf d1 → dict_wf {** d1, ** d2}.
Proof.
  revert d1. induction d2 as [|[k v] d2 IH]; intros d1 ?; [done|].
  rw dict_update_cons. eauto with py.
Qed.

(** The merged dictionary as a finite map: the right operand wins. *)
Lemma dict_update_to_map d1 d2 :
  dict_wf d2 → dict_to_map {** d1, ** d2} = dict_to_map d2 ∪ dict_to_map d1.
Proof.
  revert d1. induction d2 as [|[k v] d2 IH]; intros d1 Hwf.
  { by rw /= (left_id_L ∅ (∪)). }
  apply NoDup_cons in Hwf as [Hk Hwf].
  rw dict_update_cons IH // dict_set_to_map /= -insert_union_r.
  - by rw insert_union_l.
  - by apply not_elem_of_list_to_map.
Qed.

Lemma dict_get_update d1 d2 k :
  dict_wf d2 →
  dict_get k {** d1, ** d2} =
    match dict_get k d2 with Some v => Some v | None => dict_get k d1 end.
Proof.
  intros. rw !dict_get_to_map dict_update_to_map // lookup_union.
  by destruct (dict_to_map d2 !! k), (dict_to_map d1 !! k).
Qed.

(** The keys of the left operand keep their positions; the new keys of the
    right operand follow, in the right operand's order. *)
Lemma keys_dict_update d1 d2 :
  dict_wf d2 → keys {** d1, ** d2} = keys d1 ++ filter (.∉ keys d1) (keys d2).
Proof.
  revert d1. induction d2 as [|[k v] d2 IH]; intros d1 Hwf.
  { by rw /= filter_nil app_nil_r. }
  apply NoDup_cons in Hwf as [Hk Hwf]. fold (keys d2) in Hk, Hwf.
  rw dict_update_cons IH // keys_dict_set /=. case_bool_decide as Hin.
  - rw filter_cons_False; [done|]. by intros [].
  - rw filter_cons_True // -app_assoc /=. do 2 f_equal.
    apply filter_ext_elem_of => k' Hk'. rw not_elem_of_app list_elem_of_singleton.
    split; [tauto|]. intros ?; split; [done|]. by intros ->.
Qed.
End update.

#[export] Instance dict_update_proper : Proper ((≡) ==> (=) ==> (≡)) dict_update.
Proof.
  intros d1 d1' H d2 ? <-. revert d1 d1' H.
  induction d2 as [|[k v] d2 IH]; intros d1 d1' H; [done|].
  rw !dict_update_cons. apply IH. by rw H.
Qed.

#[export] Hint Resolve dict_update_wf : py.

(** ** Keyword arguments *)

Section kwargs.
Implicit Types (kw items d : dict) (k v : string) (groups : list dict).

Lemma dict_wf_app_l d1 d2 : dict_wf (d1 ++ d2) → dict_wf d1.
Proof. rw /dict_wf /keys fmap_app. by intros (? & _)%NoDup_app. Qed.

Lemma dict_wf_snoc d k v : dict_wf (d ++ [(k, v)]) ↔ dict_wf d ∧ k ∉ keys d.
Proof.
  rw /dict_wf /keys fmap_app NoDup_app /=. split.
  - intros (? & Hd & _). split; [done|]. intros ?. eapply Hd; [done|by left].
  - intros [??]. split_and!; [done| |apply NoDup_singleton].
    by intros ?? ->%list_elem_of_singleton.
Qed.

(** A group is accepted exactly when no keyword of it was given before, in
    an earlier group or in the group itself; the keywords are then appended
    in order. *)
Lemma kwargs_add_inr kw items kw' :
  dict_wf kw →
  kwargs_add kw items = inr kw' ↔ kw' = kw ++ items ∧ dict_wf (kw ++ items).
Proof.
  revert kw. induction items as [|[k v] items IH]; intros kw Hwf; simpl.
  { rw app_nil_r. naive_solver. }
  rw dict_mem_keys (assoc_L (++) kw [(k, v)] items). case_bool_decide as Hk.
  - split; [done|]. intros [_ Hbad%dict_wf_app_l%dict_wf_snoc]. tauto.
  - apply IH. by apply dict_wf_snoc.
Qed.

(** The keyword a refused group is refused for is one of its own. *)
Lemma kwargs_add_inl kw items k : kwargs_add kw items = inl k → k ∈ keys items.
Proof.
  revert kw. induction items as [|[k' v] items IH]; intros kw; simpl; [done|].
  destruct (dict_mem k' kw); [intros [= ->]; by left|]. intros ?. right. eauto.
Qed.

(** A keyword that was given before, in a group whose keywords before it
    are new, is the keyword the group is refused for. *)
Lemma kwargs_add_dup kw items1 k v items2 :
  dict_wf (kw ++ items1) → k ∈ keys kw →
  kwargs_add kw (items1 ++ (k, v) :: items2) = inl k.
Proof.
  revert kw. induction items1 as [|[k1 v1] items1 IH]; intros kw Hwf Hk; simpl.
  { by rw dict_mem_keys bool_decide_eq_true_2. }
  rw (assoc_L (++) kw [(k1, v1)] items1) in Hwf.
  rw dict_mem_keys bool_decide_eq_false_2.
  - apply IH; [done|]. rw /keys fmap_app. apply elem_of_app. by left.
  - by apply dict_wf_app_l, dict_wf_snoc in Hwf as [_ ?].
Qed.

Lemma kwargs_from_inr kw groups kw' :
  dict_wf kw →
  kwargs_from kw groups = inr kw' ↔
    kw' = kw ++ mjoin groups ∧ dict_wf (kw ++ mjoin groups).
Proof.
  revert kw. induction groups as [|g groups IH]; intros kw Hwf; simpl.
  { rw app_nil_r. naive_solver. }
  rw (assoc_L (++) kw g (mjoin groups)).
  destruct (kwargs_add kw g) as [k|kw1] eqn:Hg.
  - split; [done|]. intros [_ Hbad%dict_wf_app_l].
    assert (kwargs_add kw g = inr (kw ++ g)) as Hok by by apply kwargs_add_inr.
    congruence.
  - apply kwargs_add_inr in Hg as [-> Hwf1]; [|done]. by apply IH.
Qed.

(** The dictionary a callee receives has no repeated key. *)
Lemma kwargs_from_wf groups kw' : kwargs_from [] groups = inr kw' → dict_wf kw'.
Proof. intros [-> ?]%kwargs_from_inr; [done|apply NoDup_nil_2]. Qed.
End kwargs.
