(* ===== verification/Etree.v ===== *)
(** * lxml elements

    The objects [xml_visitor.py] builds with [lxml.builder.ElementMaker]: an
    element has a tag, attributes in the order they were set, an optional
    text and its child elements in order.  The visitor creates every element
    it appends, and appends it once, so an element tree is a tree and not a
    graph.

    [E] is the factory call [E.tag(c1, ..., cn, **attrib)] with element
    children, [E_text] the call [E.tag(text, **attrib)] with one text
    argument, [set] the method [Element.set].  lxml's checks of names and of
    character data are not modelled: the factory is total. *)

From S2P Require Import Prelude PyMonad PyDict.

(** A text argument: a plain string, which a serialiser escapes, or
    [etree.CDATA(s)], which it writes as it is. *)
Inductive Text : Type :=
| Plain (s : string)
| CDATA (s : string).

#[export] Instance Text_eq_dec : EqDecision Text.
Proof. solve_decision. Defined.

Unset Elimination Schemes.
Inductive Element : Type :=
  mkElement { tag : string; attrib : dict; text : option Text; children : list Element }.
Set Elimination Schemes.

(** Induction on elements: the property holds for an element when it holds
    for every child. *)
Section Element_ind.
Context (P : Element → Prop).
Context (Hnode : ∀ t a x cs, Forall P cs → P (mkElement t a x cs)).

Fixpoint Element_ind (e : Element) : P e :=
  match e with
  | mkElement t a x cs =>
      Hnode t a x cs
        ((fix go (l : list Element) : Forall P l :=
            match l with
            | [] => Forall_nil_2 P
            | c :: l' => Forall_cons_2 P c l' (Element_ind c) (go l')
            end) cs)
  end.
End Element_ind.

#[export] Instance Element_eq_dec : EqDecision Element.
Proof.
  refine (fix go (e1 e2 : Element) : Decision (e1 = e2) :=
    let _ : EqDecision Element := @go in
    match e1, e2 with
    | mkElement t1 a1 x1 c1, mkElement t2 a2 x2 c2 =>
        cast_if_and4 (decide (t1 = t2)) (decide (a1 = a2))
                     (decide (x1 = x2)) (decide (c1 = c2))
    end); abstract congruence.
Defined.

(** [E.tag(c1, ..., cn, **attrib)]: the attributes are set in the order of
    [attrib], then the children are appended in order. *)
Definition E (tag : string) (children : list Element) (attrib : dict) : Element :=
  mkElement tag attrib None children.

(** [E.tag(text, **attrib)] *)
Definition E_text (tag : string) (t : Text) (attrib : dict) : Element :=
  mkElement tag attrib (Some t) [].

(** [e.set(k, v)] *)
Definition set (e : Element) (k v : string) : Element :=
  mkElement (tag e) (dict_set k v (attrib e)) (text e) (children e).

(** [e.get(k)] *)
Definition get_attr (e : Element) (k : string) : option string :=
  dict_get k (attrib e).

(** The number of elements of a tree. *)
Fixpoint size (e : Element) : nat :=
  S (sum_list (size <$> children e)).

(** The elements of a tree in document order. *)
Fixpoint iter (e : Element) : list Element :=
  e :: mjoin (iter <$> children e).

(** Two elements are equal as XML when their tags, texts and children are
    equal and their attributes are equal as dictionaries: the order of the
    attributes does not count. *)
Inductive xml_equiv : Equiv Element :=
| xml_equiv_intro t a1 a2 x cs1 cs2 :
    a1 ≡ a2 → Forall2 xml_equiv cs1 cs2 →
    xml_equiv (mkElement t a1 x cs1) (mkElement t a2 x cs2).
#[export] Existing Instance xml_equiv.

Section element.
Implicit Types (e : Element) (k v : string).

Lemma tag_set e k v : tag (set e k v) = tag e.
Proof. done. Qed.
Lemma children_set e k v : children (set e k v) = children e.
Proof. done. Qed.
Lemma text_set e k v : text (set e k v) = text e.
Proof. done. Qed.

Lemma get_set e k k' v :
  get_attr (set e k v) k' = if decide (k' = k) then Some v else get_attr e k'.
Proof. apply dict_get_set. Qed.

Lemma get_set_eq e k v : get_attr (set e k v) k = Some v.
Proof. apply dict_get_set_eq. Qed.

Lemma get_E t cs a k : get_attr (E t cs a) k = dict_get k a.
Proof. done. Qed.

Lemma size_pos e : 0 < size e.
Proof. destruct e; simpl; lia. Qed.

Lemma length_iter e : length (iter e) = size e.
Proof.
  induction e as [t a x cs IH]. rw /=. f_equal.
  induction IH as [|c cs Hc _ IHcs]; [done|].
  by rw /= length_app Hc IHcs.
Qed.

Lemma xml_equiv_refl e : e ≡ e.
Proof.
  induction e as [t a x cs IH]. constructor; [done|].
  induction IH; by constructor.
Qed.

Lemma xml_equiv_sym e1 e2 : e1 ≡ e2 → e2 ≡ e1.
Proof.
  revert e2. induction e1 as [t a x cs IH]. intros e2 Heq. inversion_clear Heq as [?????? Ha Hcs].
  constructor; [done|]. clear Ha. revert cs2 Hcs.
  induction IH as [|c cs Hc _ IHcs]; intros cs2 Hcs; inversion_clear Hcs;
    constructor; [by apply Hc | by apply IHcs].
Qed.

Lemma xml_equiv_trans e1 e2 e3 : e1 ≡ e2 → e2 ≡ e3 → e1 ≡ e3.
Proof.
  revert e2 e3. induction e1 as [t a x cs IH]. intros e2 e3 H12 H23.
  inversion H12 as [? ? a2 ? ? cs2 Ha Hcs]; subst.
  inversion H23 as [? ? a3 ? ? cs3 Ha' Hcs']; subst.
  constructor; [by etrans|]. clear Ha Ha' H12 H23. revert cs2 cs3 Hcs Hcs'.
  induction IH as [|c cs Hc _ IHcs]; intros cs2 cs3 Hcs Hcs';
    inversion Hcs; subst; inversion Hcs'; subst; constructor;
    [by eapply Hc | by eapply IHcs].
Qed.
End element.

#[export] Instance xml_equivalence : Equivalence (≡@{Element}).
Proof. split; [exact xml_equiv_refl | exact xml_equiv_sym | exact xml_equiv_trans]. Qed.

#[export] Instance E_proper t : Proper (Forall2 (≡) ==> (≡) ==> (≡)) (E t).
Proof. intros cs1 cs2 Hcs a1 a2 Ha. by constructor. Qed.

#[export] Instance set_proper : Proper ((≡) ==> (=) ==> (=) ==> (≡)) set.
Proof.
  intros e1 e2 He k ? <- v ? <-. destruct He as [t a1 a2 x cs1 cs2 Ha Hcs].
  constructor; [by rw /= Ha | done].
Qed.

#[export] Instance tag_proper : Proper ((≡) ==> (=)) tag.
Proof. by intros ?? []. Qed.

#[export] Instance get_attr_proper : Proper ((≡) ==> (=) ==> (=)) get_attr.
Proof. intros ?? [t a1 a2 x cs1 cs2 Ha Hcs] k ? <-. apply Ha. Qed.

#[export] Hint Rewrite tag_set children_set text_set get_set_eq get_E : py.
