(* ===== verification/Blocks.v ===== *)
(** * Blocks

    The classes of [datapane.blocks] and [datapane.view] that [XMLBuilder.visit]
    has a method for, as one inductive type: the constructor of a block is
    the most specific of these classes the block is an instance of, which is
    what [multimethod] dispatches on.

    A constructor carries the attributes of the block the visitor reads.
    Blocks are immutable during a visit but for the [_prev_entry] slot of an
    asset block; that slot lives in the visitor's heap under the identity
    [oid] of the block object, so that a block object that occurs twice in a
    tree has one slot. *)

From S2P Require Import Prelude PyMonad PyDict Etree.

(** [b.target] of an [Interactive]: the three members of [TargetMode] the
    visitor tests for, and [NAMED t] for any other value. *)
Inductive TargetMode : Type :=
| SELF
| BELOW
| SIDE
| NAMED (t : string).

#[export] Instance TargetMode_eq_dec : EqDecision TargetMode.
Proof. solve_decision. Defined.

(** [type(b)] of an asset block: the four classes [get_writer] registers and
    [OtherAsset cls] for any other subclass of [AssetBlock]. *)
Inductive AssetKind : Type :=
| Plot
| Table
| DataTable
| Attachment
| OtherAsset (cls : string).

#[export] Instance AssetKind_eq_dec : EqDecision AssetKind.
Proof. solve_decision. Defined.

#[export] Instance AssetKind_countable : Countable AssetKind.
Proof.
  apply (inj_countable'
    (λ k, match k with
          | Plot => inl 0 | Table => inl 1 | DataTable => inl 2
          | Attachment => inl 3 | OtherAsset c => inr c
          end)
    (λ x, match x with
          | inl 0 => Plot | inl 1 => Table | inl 2 => DataTable
          | inl _ => Attachment | inr c => OtherAsset c
          end)).
  by intros [].
Defined.

(** [b.data]: a Python object, by the name of its type and the bytes a
    writer makes of it. *)
Record Payload : Type := mkPayload { type_name : string; payload_bytes : string }.

#[export] Instance Payload_eq_dec : EqDecision Payload.
Proof. solve_decision. Defined.

(** What the visitor reads of an asset block.  [file_attribs] is the value of
    [b.get_file_attribs()]. *)
Record AssetBlock : Type := mkAssetBlock {
  oid : nat;
  kind : AssetKind;
  asset_tag : string;
  asset_attributes : dict;
  file_attribs : dict;
  data : option Payload;
  file : option string;
  caption : option string
}.

#[export] Instance AssetBlock_eq_dec : EqDecision AssetBlock.
Proof. solve_decision. Defined.

(** The truth value of an optional string: [None] and [""] are false. *)
Definition truthy (s : option string) : bool :=
  match s with
  | Some (String _ _) => true
  | _ => false
  end.

Unset Elimination Schemes.
Inductive Block : Type :=
| BaseElement (_tag : string) (_attributes : dict)
| ContainerBlock (_tag : string) (_attributes : dict) (blocks : list Block)
| View (fragment : bool) (blocks : list Block)
| EmbeddedTextBlock (_tag : string) (_attributes : dict) (content : string)
| Interactive (_attributes : dict) (controls : Element) (target : TargetMode)
| Asset (b : AssetBlock).
Set Elimination Schemes.

(** Induction on blocks: a container or a view has the property when every
    block of it has. *)
Section Block_ind.
Context (P : Block → Prop).
Context (Hbase : ∀ t a, P (BaseElement t a)).
Context (Hcontainer : ∀ t a bs, Forall P bs → P (ContainerBlock t a bs)).
Context (Hview : ∀ f bs, Forall P bs → P (View f bs)).
Context (Htext : ∀ t a c, P (EmbeddedTextBlock t a c)).
Context (Hinteractive : ∀ a c m, P (Interactive a c m)).
Context (Hasset : ∀ b, P (Asset b)).

Fixpoint Block_ind (b : Block) : P b :=
  let fix go (l : list Block) : Forall P l :=
    match l with
    | [] => Forall_nil_2 P
    | c :: l' => Forall_cons_2 P c l' (Block_ind c) (go l')
    end in
  match b with
  | BaseElement t a => Hbase t a
  | ContainerBlock t a bs => Hcontainer t a bs (go bs)
  | View f bs => Hview f bs (go bs)
  | EmbeddedTextBlock t a c => Htext t a c
  | Interactive a c m => Hinteractive a c m
  | Asset b => Hasset b
  end.
End Block_ind.

#[export] Instance Block_eq_dec : EqDecision Block.
Proof.
  refine (fix go (b1 b2 : Block) : Decision (b1 = b2) :=
    let _ : EqDecision Block := @go in
    match b1, b2 with
    | BaseElement t1 a1, BaseElement t2 a2 =>
        cast_if_and (decide (t1 = t2)) (decide (a1 = a2))
    | ContainerBlock t1 a1 l1, ContainerBlock t2 a2 l2 =>
        cast_if_and3 (decide (t1 = t2)) (decide (a1 = a2)) (decide (l1 = l2))
    | View f1 l1, View f2 l2 => cast_if_and (decide (f1 = f2)) (decide (l1 = l2))
    | EmbeddedTextBlock t1 a1 c1, EmbeddedTextBlock t2 a2 c2 =>
        cast_if_and3 (decide (t1 = t2)) (decide (a1 = a2)) (decide (c1 = c2))
    | Interactive a1 c1 m1, Interactive a2 c2 m2 =>
        cast_if_and3 (decide (a1 = a2)) (decide (c1 = c2)) (decide (m1 = m2))
    | Asset x1, Asset x2 => cast_if (decide (x1 = x2))
    | _, _ => right _
    end); abstract congruence.
Defined.

(** The asset blocks of a tree, in the order a visit meets them. *)
Fixpoint assets (b : Block) : list AssetBlock :=
  match b with
  | ContainerBlock _ _ bs | View _ bs => mjoin (assets <$> bs)
  | Asset a => [a]
  | _ => []
  end.

(** The number of fresh names a visit of the tree asks [gen_name] for. *)
Definition wants_name (m : TargetMode) : bool :=
  match m with NAMED _ => false | _ => true end.

Fixpoint names_used (b : Block) : nat :=
  match b with
  | ContainerBlock _ _ bs | View _ bs => sum_list (names_used <$> bs)
  | Interactive _ _ m => if wants_name m then 1 else 0
  | _ => 0
  end.

(** The tag of the element a block becomes. *)
Definition out_tag (b : Block) : string :=
  match b with
  | BaseElement t _ | ContainerBlock t _ _ | EmbeddedTextBlock t _ _ => t
  | View _ _ => "View"
  | Interactive _ _ m =>
      match m with BELOW | SIDE => "Group" | _ => "Interactive" end
  | Asset a => asset_tag a
  end.

(** A tree that holds no [View] below its root position: the only trees the
    view-construction API builds. *)
Fixpoint view_free (b : Block) : bool :=
  match b with
  | ContainerBlock _ _ bs => forallb view_free bs
  | View _ _ => false
  | _ => true
  end.

(** A tree in which every [View] is the first block of its parent;
    [at_start] says whether the root is. *)
Fixpoint asserts_ok (at_start : bool) (b : Block) : bool :=
  match b with
  | ContainerBlock _ _ bs => all_first asserts_ok true bs
  | View _ bs => at_start && all_first asserts_ok true bs
  | _ => true
  end.

Lemma elem_of_assets_join (bs : list Block) (x : AssetBlock) :
  x ∈ mjoin (assets <$> bs) ↔ ∃ b, b ∈ bs ∧ x ∈ assets b.
Proof. rw list_elem_of_join. setoid_rewrite list_elem_of_fmap. naive_solver. Qed.

Lemma assets_join_nil (bs : list Block) :
  mjoin (assets <$> bs) = [] → Forall (λ b, assets b = []) bs.
Proof.
  induction bs as [|b bs IH]; [done|]. rw /=.
  intros [??]%app_eq_nil. constructor; auto.
Qed.

(** A tree without a [View] passes every assertion. *)
Lemma view_free_asserts_ok b at_start : view_free b = true → asserts_ok at_start b = true.
Proof.
  revert at_start. induction b as [| t a bs IH | | | |]; intros at_start; try done.
  assert (∀ first, forallb view_free bs = true →
    all_first asserts_ok first bs = true) as Hbs; [|apply Hbs].
  induction IH as [|b bs Hb _ IHbs]; intros first; [done|].
  rw /= !andb_true_iff. intros [??]. split; [by apply Hb | by apply IHbs].
Qed.
