(* ===== verification/FileStore.v ===== *)
(** * The file store

    [XMLBuilder] writes assets to a [FileStore] of [datapane.processors].
    The class [FileStore] below is the contract the visitor relies on: the
    operations it calls ([fw_klass], [files], [get_file], [load_file],
    [add_file], and [hash] of an entry) with the laws the specification gives
    them (a fresh entry is empty and of the store's class, the hash is a
    function of the bytes, adding and loading register and never remove).
    [DedupStore] adds the law of a store that deduplicates: adding an entry
    whose hash is registered changes nothing.  [CountedStore] adds the law
    of a store that registers one entry per call.  The visitor's theorems
    are proved for any instance, and say which of the contracts they need.

    [ListStore] is an instance of all three: the registered entries in a
    list, one per hash, over a table of the files on disk.  [AppendStore]
    appends whatever it is given: it is a [FileStore] and a [CountedStore],
    and does not deduplicate. *)

From S2P Require Import Prelude.

(** An entry: the class it is an instance of, extension, mime type and the
    bytes written to its file so far. *)
Record FileEntry : Type := mkFileEntry {
  entry_klass : string;
  fe_ext : string;
  fe_mime : string;
  fe_file : string
}.

#[export] Instance FileEntry_eq_dec : EqDecision FileEntry.
Proof. solve_decision. Defined.

(** [f.write(bytes)] on the file of an entry. *)
Definition write (fe : FileEntry) (bytes : string) : FileEntry :=
  mkFileEntry (entry_klass fe) (fe_ext fe) (fe_mime fe) (fe_file fe +:+ bytes).

Class FileStore (St : Type) : Type := {
  fw_klass : St → string;
  files : St → list FileEntry;
  hash : FileEntry → string;
  get_file : St → string → string → FileEntry;
  load_file : St → string → FileEntry * St;
  add_file : St → FileEntry → St;

  get_file_fresh s e m : get_file s e m = mkFileEntry (fw_klass s) e m "";
  hash_content fe1 fe2 : fe_file fe1 = fe_file fe2 → hash fe1 = hash fe2;
  add_file_klass s fe : fw_klass (add_file s fe) = fw_klass s;
  add_file_registers s fe : hash fe ∈ hash <$> files (add_file s fe);
  add_file_mono s fe : files s ⊆ files (add_file s fe);
  load_file_entry_klass s p : entry_klass (load_file s p).1 = fw_klass s;
  load_file_klass s p : fw_klass (load_file s p).2 = fw_klass s;
  load_file_registers s p : hash (load_file s p).1 ∈ hash <$> files (load_file s p).2;
  load_file_mono s p : files s ⊆ files (load_file s p).2
}.

(** A store that deduplicates: adding an entry whose hash is registered
    changes nothing. *)
Class DedupStore (St : Type) `{FileStore St} : Prop := {
  add_file_dedup s fe : hash fe ∈ hash <$> files s → add_file s fe = s
}.

(** A store that registers one entry at a time: a call of [add_file] or of
    [load_file] makes the list of files at most one longer. *)
Class CountedStore (St : Type) `{FileStore St} : Prop := {
  add_file_length s fe : length (files (add_file s fe)) ≤ S (length (files s));
  load_file_length s p : length (files (load_file s p).2) ≤ S (length (files s))
}.

#[export] Hint Rewrite @add_file_klass @load_file_klass @load_file_entry_klass : py.
#[export] Hint Resolve add_file_mono load_file_mono add_file_registers
  load_file_registers : py.

(** [len(self.store.files)] *)
Definition file_count `{FileStore St} (s : St) : nat := length (files s).

Section store_facts.
Context `{FileStore St}.
Implicit Types (s : St) (fe : FileEntry).

Lemma hash_registered_mono s fe h :
  h ∈ hash <$> files s → h ∈ hash <$> files (add_file s fe).
Proof. apply elem_of_fmap_subseteq, add_file_mono. Qed.

Lemma get_file_klass s e m : entry_klass (get_file s e m) = fw_klass s.
Proof. by rw get_file_fresh. Qed.

Lemma write_klass fe bytes : entry_klass (write fe bytes) = entry_klass fe.
Proof. done. Qed.

Lemma write_mime fe bytes : fe_mime (write fe bytes) = fe_mime fe.
Proof. done. Qed.

Lemma hash_write_fresh s e m e' m' bytes :
  hash (write (get_file s e m) bytes) = hash (write (get_file s e' m') bytes).
Proof. apply hash_content. by rw !get_file_fresh. Qed.

(** In a store that deduplicates, adding again changes nothing. *)
Lemma add_file_idem `{!DedupStore St} s fe : add_file (add_file s fe) fe = add_file s fe.
Proof. apply add_file_dedup, add_file_registers. Qed.
End store_facts.

#[export] Hint Rewrite @get_file_klass @write_klass @write_mime : py.

(** ** A store that keeps its entries in a list *)

Module ListStore.
(** Adler-32 of the bytes, as a stand-in for the digest of the store: the
    two sums are kept below 65521 and packed in 32 bits. *)
Definition adler_step (st : N * N) (c : Ascii.ascii) : N * N :=
  let a := ((st.1 + Ascii.N_of_ascii c) mod 65521)%N in
  (a, ((st.2 + a) mod 65521)%N).

Definition adler32 (bytes : string) : N :=
  let '(a, b) := foldl adler_step (1%N, 0%N) (String.list_ascii_of_string bytes) in
  (N.shiftl b 16 + a)%N.

Record t : Type := mk {
  klass : string;
  entries : list FileEntry;
  disk : gmap string string;
  guess_type : string → string * string
}.

Definition digest (fe : FileEntry) : string := pretty (adler32 (fe_file fe)).

Definition add (s : t) (fe : FileEntry) : t :=
  if bool_decide (digest fe ∈ digest <$> entries s) then s
  else mk (klass s) (entries s ++ [fe]) (disk s) (guess_type s).

Definition load (s : t) (path : string) : FileEntry * t :=
  let fe := mkFileEntry (klass s) (guess_type s path).1 (guess_type s path).2
                        (default "" (disk s !! path)) in
  (fe, add s fe).

Lemma add_klass s fe : klass (add s fe) = klass s.
Proof. rw /add. by case_bool_decide. Qed.

Lemma add_registers s fe : digest fe ∈ digest <$> entries (add s fe).
Proof.
  rw /add. case_bool_decide; [done|].
  rw /= fmap_app. apply elem_of_app. right. by left.
Qed.

Lemma add_mono s fe : entries s ⊆ entries (add s fe).
Proof.
  rw /add. case_bool_decide; [done|]. intros x ?. apply elem_of_app. by left.
Qed.

Lemma add_dedup s fe : digest fe ∈ digest <$> entries s → add s fe = s.
Proof. intros Hin. rw /add. by rw bool_decide_eq_true_2. Qed.

Lemma add_length s fe : length (entries (add s fe)) ≤ S (length (entries s)).
Proof. rw /add. case_bool_decide; rw /= ?length_app /=; lia. Qed.

(** The hash of every registered entry is its own: the list has no two
    entries of one hash. *)
Definition wf (s : t) : Prop := NoDup (digest <$> entries s).

Lemma add_wf s fe : wf s → wf (add s fe).
Proof.
  rw /wf /add. case_bool_decide as Hin; [done|]. intros Hwf.
  rw /= fmap_app. apply NoDup_app. split_and!; [done| |apply NoDup_singleton].
  by intros ?? ->%list_elem_of_singleton.
Qed.

Lemma adler_step_bound st c :
  (st.1 < 65521 → st.2 < 65521 →
   (adler_step st c).1 < 65521 ∧ (adler_step st c).2 < 65521)%N.
Proof. intros. split; apply N.mod_lt; lia. Qed.

(** The packed checksum fits in 32 bits. *)
Lemma adler32_bound bytes : (adler32 bytes < 2 ^ 32)%N.
Proof.
  rw /adler32.
  assert (∀ l st, (st.1 < 65521 → st.2 < 65521 →
    (foldl adler_step st l).1 < 65521 ∧ (foldl adler_step st l).2 < 65521)%N) as Hfold.
  { induction l as [|c l IH]; intros st ??; [done|].
    apply IH; by apply adler_step_bound. }
  destruct (Hfold (String.list_ascii_of_string bytes) (1, 0)%N) as [Ha Hb]; [done..|].
  destruct (foldl _ _ _) as [a b]. rw N.shiftl_mul_pow2. simpl in *. lia.
Qed.
End ListStore.

#[export] Program Instance ListStore_FileStore : FileStore ListStore.t := {
  fw_klass := ListStore.klass;
  files := ListStore.entries;
  hash := ListStore.digest;
  get_file s e m := mkFileEntry (ListStore.klass s) e m "";
  load_file := ListStore.load;
  add_file := ListStore.add
}.
Next Obligation. done. Qed.
Next Obligation. intros [] [] Heq; simpl in *. by rw /ListStore.digest /= Heq. Qed.
Next Obligation. exact ListStore.add_klass. Qed.
Next Obligation. exact ListStore.add_registers. Qed.
Next Obligation. exact ListStore.add_mono. Qed.
Next Obligation. done. Qed.
Next Obligation. intros s p. apply ListStore.add_klass. Qed.
Next Obligation. intros s p. apply ListStore.add_registers. Qed.
Next Obligation. intros s p. apply ListStore.add_mono. Qed.

#[export] Instance ListStore_DedupStore : DedupStore ListStore.t.
Proof. split. exact ListStore.add_dedup. Qed.

#[export] Instance ListStore_CountedStore : CountedStore ListStore.t.
Proof. split; [exact ListStore.add_length | intros s p; apply ListStore.add_length]. Qed.

(** ** A store that appends

    [add_file] as [files.append]: an entry added twice is in the list
    twice.  It has the laws of [FileStore] and does not deduplicate. *)

Module AppendStore.
Record t : Type := mk {
  klass : string;
  entries : list FileEntry;
  disk : gmap string string
}.

Definition add (s : t) (fe : FileEntry) : t :=
  mk (klass s) (entries s ++ [fe]) (disk s).

Definition load (s : t) (path : string) : FileEntry * t :=
  let fe := mkFileEntry (klass s) "" "application/octet-stream"
                        (default "" (disk s !! path)) in
  (fe, add s fe).

Lemma append_registers s fe :
  ListStore.digest fe ∈ ListStore.digest <$> entries (add s fe).
Proof. rw /= fmap_app. apply elem_of_app. right. by left. Qed.

Lemma append_mono s fe : entries s ⊆ entries (add s fe).
Proof. intros x ?. apply elem_of_app. by left. Qed.

Lemma append_length s fe : length (entries (add s fe)) = S (length (entries s)).
Proof. by rw /= length_snoc. Qed.
End AppendStore.

#[export] Program Instance AppendStore_FileStore : FileStore AppendStore.t := {
  fw_klass := AppendStore.klass;
  files := AppendStore.entries;
  hash := ListStore.digest;
  get_file s e m := mkFileEntry (AppendStore.klass s) e m "";
  load_file := AppendStore.load;
  add_file := AppendStore.add
}.
Next Obligation. done. Qed.
Next Obligation. intros [] [] Heq; simpl in *. by rw /ListStore.digest /= Heq. Qed.
Next Obligation. done. Qed.
Next Obligation. exact AppendStore.append_registers. Qed.
Next Obligation. exact AppendStore.append_mono. Qed.
Next Obligation. done. Qed.
Next Obligation. done. Qed.
Next Obligation. intros s p. apply AppendStore.append_registers. Qed.
Next Obligation. intros s p. apply AppendStore.append_mono. Qed.

#[export] Instance AppendStore_CountedStore : CountedStore AppendStore.t.
Proof. split; intros s ?; rw /= length_app /=; lia. Qed.
