(* ===== verification/AssetWriters.v ===== *)
(** * The registry of asset writers

    The end of [xml_visitor.py]: the named tuple [AssetMeta], the protocol
    [AssetWriterP] a writer implements, the module-level dictionary
    [asset_mapping] from asset classes to writers, and [get_writer], which
    fills the dictionary the first time it finds it empty and then indexes
    it with the class of the block.

    The four writer classes are in [datapane.view.asset_writers]; they are
    the fields of a record [AssetWriters] the registry is parameterised by.
    A method of a writer returns, or raises as [multimethod] does when it has
    no implementation for the type of the data ([DispatchError]). *)

From S2P Require Import Prelude PyMonad PyDict Etree Blocks FileStore.

(** [AssetMeta = namedtuple("AssetMeta", "ext mime")] *)
Record AssetMeta : Type := mkAssetMeta { ext : string; mime : string }.

#[export] Instance AssetMeta_eq_dec : EqDecision AssetMeta.
Proof. solve_decision. Defined.

(** [class AssetWriterP(t.Protocol)].  [write_file x] is the bytes
    [write_file(x, f)] writes to [f]. *)
Record AssetWriterP : Type := mkAssetWriter {
  get_meta : Payload → Outcome AssetMeta;
  write_file : Payload → Outcome string
}.

(** The classes of [asset_writers] that [get_writer] registers. *)
Record AssetWriters : Type := mkAssetWriters {
  PlotWriter : AssetWriterP;
  HTMLTableWriter : AssetWriterP;
  DataTableWriter : AssetWriterP;
  AttachmentWriter : AssetWriterP
}.

(** [type(b).__name__] *)
Definition kind_name (k : AssetKind) : string :=
  match k with
  | Plot => "Plot"
  | Table => "Table"
  | DataTable => "DataTable"
  | Attachment => "Attachment"
  | OtherAsset cls => cls
  end.

(** The dictionary [get_writer] passes to [asset_mapping.update]. *)
Definition default_mapping (aw : AssetWriters) : gmap AssetKind AssetWriterP :=
  <[Plot := PlotWriter aw]> (<[Table := HTMLTableWriter aw]>
    (<[DataTable := DataTableWriter aw]> (<[Attachment := AttachmentWriter aw]> ∅))).

(** [asset_mapping = dict()] when the module is loaded. *)
Definition asset_mapping_init : gmap AssetKind AssetWriterP := ∅.

(** [get_writer(b)], on the state [asset_mapping]. *)
Definition get_writer (aw : AssetWriters) (b : AssetBlock) :
    M (gmap AssetKind AssetWriterP) AssetWriterP :=
  asset_mapping ← get;
  _ ← (if decide (asset_mapping = ∅)
       then put (default_mapping aw ∪ asset_mapping)
       else mret tt);
  asset_mapping ← get;
  match asset_mapping !! kind b with
  | Some w => mret w
  | None => raise (KeyError (kind_name (kind b)))
  end.

(** The states of the registry a program that only calls [get_writer]
    reaches: not yet filled, or filled with the four writers. *)
Definition mapping_ok (aw : AssetWriters) (m : gmap AssetKind AssetWriterP) : Prop :=
  m = ∅ ∨ m = default_mapping aw.

(** The classes that have a writer. *)
Definition registered (k : AssetKind) : bool :=
  match k with OtherAsset _ => false | _ => true end.

Section registry.
Context (aw : AssetWriters).
Implicit Types (m : gmap AssetKind AssetWriterP) (b : AssetBlock) (k : AssetKind).

Lemma default_mapping_nonempty : default_mapping aw ≠ ∅.
Proof. apply insert_non_empty. Qed.

Lemma default_mapping_lookup k :
  default_mapping aw !! k =
    match k with
    | Plot => Some (PlotWriter aw)
    | Table => Some (HTMLTableWriter aw)
    | DataTable => Some (DataTableWriter aw)
    | Attachment => Some (AttachmentWriter aw)
    | OtherAsset _ => None
    end.
Proof. by destruct k. Qed.

Lemma default_mapping_registered k :
  is_Some (default_mapping aw !! k) ↔ registered k = true.
Proof. rw default_mapping_lookup. destruct k; by rw /= -?not_eq_None_Some. Qed.

End registry.
