(* ===== verification/XMLBuilder.v ===== *)
(** * The visitor [XMLBuilder]

    One definition per method of the class [XMLBuilder] of [xml_visitor.py],
    in the order of the source.  A method is a computation on [World]: the
    builder object itself ([self]: the store and the list of elements built at
    the current place of the tree) and the state outside it that the methods
    reach: the [_prev_entry] slots of the asset blocks, the registry
    [asset_mapping] and the names [gen_name] has handed out.

    The [visit] methods that recurse take the function to recurse with as an
    argument; [visit] ties the knot by structural recursion on the block and
    is the dispatch of [multimethod] on the class of the block.

    The section is parameterised by the store (any [FileStore]), the writer
    classes and the enumeration [name_of] of the names of [gen_name]. *)

From S2P Require Import Prelude PyMonad PyDict Etree Blocks FileStore AssetWriters.

Section builder.
Context `{FileStore St} (aw : AssetWriters) (name_of : nat → string).

(** The fields of the dataclass. *)
Record XMLBuilder : Type := mkXMLBuilder {
  store : St;
  elements : list Element
}.

Record World : Type := mkWorld {
  self : XMLBuilder;
  prev_entry : gmap nat FileEntry;
  asset_mapping : gmap AssetKind AssetWriterP;
  names : nat
}.

Definition set_self (x : XMLBuilder) (w : World) : World :=
  mkWorld x (prev_entry w) (asset_mapping w) (names w).
Definition set_elements (es : list Element) (w : World) : World :=
  set_self (mkXMLBuilder (store (self w)) es) w.
Definition set_store (s : St) (w : World) : World :=
  set_self (mkXMLBuilder s (elements (self w))) w.
Definition set_prev_entry (p : gmap nat FileEntry) (w : World) : World :=
  mkWorld (self w) p (asset_mapping w) (names w).
Definition set_asset_mapping (m : gmap AssetKind AssetWriterP) (w : World) : World :=
  mkWorld (self w) (prev_entry w) m (names w).
Definition set_names (n : nat) (w : World) : World :=
  mkWorld (self w) (prev_entry w) (asset_mapping w) n.

(** A builder as [XMLBuilder(store)] makes it, in a program that has not
    visited anything yet. *)
Definition new_world (s : St) : World :=
  mkWorld (mkXMLBuilder s []) ∅ asset_mapping_init 0.

(** [store_count] *)
Definition store_count (w : World) : nat := length (files (store (self w))).

(** [add_element(_, e)]; the block argument is not used. *)
Definition add_element (e : Element) : M World unit :=
  modify (λ w, set_elements (elements (self w) ++ [e]) w).

(** [gen_name()]: the next name of the enumeration. *)
Definition gen_name : M World string :=
  n ← gets names;
  _ ← modify (set_names (S n));
  mret (name_of n).

(** [str(v).lower()] of a boolean attribute value. *)
Definition conv_attrib (v : bool) : string := if v then "true" else "false".

(** [mk_attribs(version="1", fragment=b.fragment)] *)
Definition mk_attribs (fragment : bool) : dict :=
  [("version", "1"); ("fragment", conv_attrib fragment)].

(** [visit(self, b: BaseElement)] *)
Definition visit_BaseElement (_tag : string) (_attributes : dict) : M World unit :=
  add_element (E _tag [] _attributes).

(** [visit(self, b: ContainerBlock)] *)
Definition visit_ContainerBlock (visit : Block → M World unit)
    (_tag : string) (_attributes : dict) (blocks : list Block) : M World unit :=
  cur_elemnts ← gets (elements ∘ self);
  _ ← modify (set_elements []);
  _ ← traverse visit blocks;
  es ← gets (elements ∘ self);
  let element := E _tag es _attributes in
  _ ← modify (set_elements cur_elemnts);
  add_element element.

(** [visit(self, b: View)] *)
Definition visit_View (visit : Block → M World unit)
    (fragment : bool) (blocks : list Block) : M World unit :=
  es ← gets (elements ∘ self);
  _ ← py_assert (bool_decide (length es = 0));
  _ ← traverse visit blocks;
  es ← gets (elements ∘ self);
  let view_doc := E "View" es (mk_attribs fragment) in
  modify (set_elements [view_doc]).

(** [visit(self, b: EmbeddedTextBlock)] *)
Definition visit_EmbeddedTextBlock (_tag : string) (_attributes : dict)
    (content : string) : M World unit :=
  add_element (E_text _tag (CDATA content) _attributes).

(** The three branches of [visit(self, b: Interactive)]. *)
Definition interactive_self (_attributes : dict) (c_e : Element) : M World Element :=
  name ← gen_name;
  mret (E "Interactive" [c_e] {** _attributes, ** [("target", name); ("name", name)] }).

Definition interactive_group (_attributes : dict) (c_e : Element)
    (target : TargetMode) : M World Element :=
  let cols := if decide (target = BELOW) then "1" else "2" in
  name ← gen_name;
  mret (E "Group"
          [E "Interactive" [c_e] {** _attributes, ** [("target", name)] };
           E "Group" [E "Empty" [] [("name", name)]] [("columns", "1")]]
          [("columns", cols)]).

Definition interactive_default (_attributes : dict) (c_e : Element) : M World Element :=
  mret (E "Interactive" [c_e] _attributes).

(** [visit(self, b: Interactive)] *)
Definition visit_Interactive (_attributes : dict) (controls : Element)
    (target : TargetMode) : M World unit :=
  let c_e := controls in
  e ← (if decide (target = SELF) then interactive_self _attributes c_e
       else if decide (target = BELOW ∨ target = SIDE)
            then interactive_group _attributes c_e target
            else interactive_default _attributes c_e);
  add_element e.

(** The first test of [_add_asset_to_store]: the block has an entry from an
    earlier visit and the entry is of the class of this store. *)
Definition reuse_prev_entry (b : AssetBlock) : M World (option FileEntry) :=
  w ← get;
  match prev_entry w !! oid b with
  | Some pe =>
      if decide (entry_klass pe = fw_klass (store (self w)))
      then _ ← modify (set_store (add_file (store (self w)) pe)); mret (Some pe)
      else mret None
  | None => mret None
  end.

Definition is_DispatchError (e : PyExc) : bool :=
  match e with DispatchError => true | _ => false end.

(** The [try] statement of [_add_asset_to_store], for a block with data. *)
Definition write_data (b : AssetBlock) (d : Payload) : M World FileEntry :=
  try_except
    (writer ← zoom asset_mapping set_asset_mapping (get_writer aw b);
     meta ← call (get_meta writer d);
     s ← gets (store ∘ self);
     let fe := get_file s (ext meta) (mime meta) in
     bytes ← call (write_file writer d);
     let fe := write fe bytes in
     s ← gets (store ∘ self);
     _ ← modify (set_store (add_file s fe));
     mret fe)
    is_DispatchError
    (λ _, raise (DPClientError (type_name d +:+ " not supported for XMLBuilder"))).

(** [fe = self.store.load_file(b.file)] *)
Definition load_path (path : string) : M World FileEntry :=
  s ← gets (store ∘ self);
  let r := load_file s path in
  _ ← modify (set_store r.2);
  mret r.1.

(** [_add_asset_to_store(b)] *)
Definition _add_asset_to_store (b : AssetBlock) : M World FileEntry :=
  r ← reuse_prev_entry b;
  match r with
  | Some pe => mret pe
  | None =>
      fe ← match data b with
           | Some d => write_data b d
           | None =>
               match file b with
               | Some path => load_path path
               | None => raise (DPClientError "No asset to add")
               end
           end;
      _ ← modify (λ w, set_prev_entry (<[oid b := fe]> (prev_entry w)) w);
      mret fe
  end.

(** [if b.caption: e.set("caption", b.caption)] *)
Definition set_caption (b : AssetBlock) (e : Element) : Element :=
  match caption b with
  | Some c => if truthy (caption b) then set e "caption" c else e
  | None => e
  end.

(** The keyword arguments of the element of an asset block. *)
Definition asset_kwargs (b : AssetBlock) (fe : FileEntry) : M World dict :=
  kwargs [[("type", fe_mime fe)];
          {** asset_attributes b, ** file_attribs b };
          [("src", "ref://" +:+ hash fe)]].

(** [visit(self, b: AssetBlock)] *)
Definition visit_AssetBlock (b : AssetBlock) : M World unit :=
  fe ← _add_asset_to_store b;
  attrib ← asset_kwargs b fe;
  let e := E (asset_tag b) [] attrib in
  add_element (set_caption b e).

(** [visit]: the method for the class of the block. *)
Fixpoint visit (b : Block) : M World unit :=
  match b with
  | BaseElement t a => visit_BaseElement t a
  | ContainerBlock t a bs => visit_ContainerBlock visit t a bs
  | View f bs => visit_View visit f bs
  | EmbeddedTextBlock t a c => visit_EmbeddedTextBlock t a c
  | Interactive a c m => visit_Interactive a c m
  | Asset x => visit_AssetBlock x
  end.

(** The document of a visit that returned: the one element it left. *)
Definition document (w : World) : option Element :=
  match elements (self w) with
  | [e] => Some e
  | _ => None
  end.

(** [XMLBuilder(store).visit(view)] in a fresh program: the outcome and the
    state it leaves. *)
Definition build (s : St) (view : Block) : Outcome unit * World :=
  run (visit view) (new_world s).
End builder.

Arguments XMLBuilder St : clear implicits.
Arguments World St : clear implicits.

(** ** The equations of the operations *)

Section equations.
Context `{FileStore St} (aw : AssetWriters) (name_of : nat → string).
Implicit Types (w : World St) (e : Element) (b : AssetBlock).

Lemma run_add_element e w :
  run (add_element e) w = (Return tt, set_elements (elements (self w) ++ [e]) w).
Proof. done. Qed.

Lemma run_gen_name w :
  run (gen_name name_of) w = (Return (name_of (names w)), set_names (S (names w)) w).
Proof. done. Qed.

Lemma run_visit_BaseElement t a w :
  run (visit_BaseElement t a) w =
    (Return tt, set_elements (elements (self w) ++ [E t [] a]) w).
Proof. done. Qed.

Lemma run_visit_EmbeddedTextBlock t a c w :
  run (visit_EmbeddedTextBlock t a c) w =
    (Return tt, set_elements (elements (self w) ++ [E_text t (CDATA c) a]) w).
Proof. done. Qed.

(** [set_elements] and the other fields. *)
Lemma set_elements_id w : set_elements (elements (self w)) w = w.
Proof. by destruct w as [[]]. Qed.

Lemma set_elements_twice es es' w :
  set_elements es (set_elements es' w) = set_elements es w.
Proof. done. Qed.

Lemma set_elements_set_store es s w :
  set_elements es (set_store s w) = set_store s (set_elements es w).
Proof. done. Qed.

Lemma set_elements_set_names es n w :
  set_elements es (set_names n w) = set_names n (set_elements es w).
Proof. done. Qed.

Lemma set_elements_set_prev_entry es p w :
  set_elements es (set_prev_entry p w) = set_prev_entry p (set_elements es w).
Proof. done. Qed.

Lemma set_elements_set_asset_mapping es m w :
  set_elements es (set_asset_mapping m w) = set_asset_mapping m (set_elements es w).
Proof. done. Qed.
End equations.

#[export] Hint Rewrite @run_add_element @run_gen_name @run_visit_BaseElement
  @run_visit_EmbeddedTextBlock @set_elements_id @set_elements_twice : py.
