(* ===== verification/Spec.v ===== *)
(** * What the visitor promises

    The specification of [XMLBuilder.visit] as a function from blocks to
    elements.  It has no accumulator: the element of a container is built
    from the list of the elements of its blocks.  Its state is [Env], the
    state of the visitor without the list [elements]: the store, the
    [_prev_entry] slots, the registry and the names handed out.

    - [store_asset] is the decision table of [_add_asset_to_store]: which
      entry an asset block gets and what happens to the store, the slot and
      the registry, case by case;
    - [to_xml at_start b] is the element of block [b]; [at_start] says
      whether [b] is the first block of its parent, which is all a [View]
      tests of the accumulator;
    - [visit_spec] is a visit as the specification has it: compute the
      element, then append it.

    [Refinement] proves that the visitor implements this specification. *)

From S2P Require Import Prelude PyMonad PyDict Etree Blocks.
From S2P Require Import FileStore AssetWriters XMLBuilder.

Section spec.
Context `{FileStore St} (aw : AssetWriters) (name_of : nat → string).

Record Env : Type := mkEnv {
  env_store : St;
  env_prev : gmap nat FileEntry;
  env_mapping : gmap AssetKind AssetWriterP;
  env_names : nat
}.

(** The part of the visitor's state the specification speaks of. *)
Definition env_of (w : World St) : Env :=
  mkEnv (store (self w)) (prev_entry w) (asset_mapping w) (names w).

(** The visitor's state with that part replaced. *)
Definition with_env (v : Env) (w : World St) : World St :=
  mkWorld (mkXMLBuilder (env_store v) (elements (self w)))
          (env_prev v) (env_mapping v) (env_names v).

(** A computation of the specification, run by the visitor. *)
Definition lifted {A} (m : M Env A) : M (World St) A := zoom env_of with_env m.

(** A fresh name: the next of the enumeration. *)
Definition fresh_name : M Env string := λ v,
  (Return (name_of (env_names v)),
   mkEnv (env_store v) (env_prev v) (env_mapping v) (S (env_names v))).

(** The error a failure of a writer becomes: a dispatch error is reported to
    the client, any other exception passes. *)
Definition writer_error (d : Payload) (e : PyExc) : PyExc :=
  if is_DispatchError e
  then DPClientError (type_name d +:+ " not supported for XMLBuilder")
  else e.

(** The registry after a lookup: filled if it was empty. *)
Definition filled (m : gmap AssetKind AssetWriterP) : gmap AssetKind AssetWriterP :=
  if decide (m = ∅) then default_mapping aw else m.

(** The entry the block has from an earlier visit, if it is of the class of
    the store. *)
Definition memo_hit (b : AssetBlock) (v : Env) : option FileEntry :=
  match env_prev v !! oid b with
  | Some pe => if decide (entry_klass pe = fw_klass (env_store v)) then Some pe else None
  | None => None
  end.

(** The entry of an asset block.
    - The block has an entry of the class of the store: that entry, added to
      the store again; nothing is written.
    - Else the block has data: the writer of its class produces the meta data
      and the bytes, a fresh entry with them is added to the store and becomes
      the entry of the block.  No writer for the class is a [KeyError]; a
      writer that fails is [writer_error].
    - Else the block has a file: the store loads it, and the result becomes
      the entry of the block.
    - Else the client error "No asset to add". *)
Definition store_asset (b : AssetBlock) : M Env FileEntry := λ v,
  let s := env_store v in
  let memo fe s' m := mkEnv s' (<[oid b := fe]> (env_prev v)) m (env_names v) in
  let keep s' m := mkEnv s' (env_prev v) m (env_names v) in
  match memo_hit b v with
  | Some pe => (Return pe, keep (add_file s pe) (env_mapping v))
  | None =>
      match data b, file b with
      | Some d, _ =>
          let m := filled (env_mapping v) in
          match m !! kind b with
          | None => (Raise (KeyError (kind_name (kind b))), keep s m)
          | Some wr =>
              match get_meta wr d, write_file wr d with
              | Return meta, Return bytes =>
                  let fe := mkFileEntry (fw_klass s) (ext meta) (mime meta) bytes in
                  (Return fe, memo fe (add_file s fe) m)
              | Raise e, _ | Return _, Raise e => (Raise (writer_error d e), keep s m)
              end
          end
      | None, Some path =>
          (Return (load_file s path).1,
           memo (load_file s path).1 (load_file s path).2 (env_mapping v))
      | None, None => (Raise (DPClientError "No asset to add"), v)
      end
  end.

(** The element of an asset block whose entry is [fe]: the attributes are
    [type], the attributes of the block overridden by its file attributes,
    and [src]; a caption is set last. *)
Definition asset_xml (b : AssetBlock) (fe : FileEntry) : Outcome Element :=
  match kwargs_from [] [[("type", fe_mime fe)];
                        {** asset_attributes b, ** file_attribs b };
                        [("src", "ref://" +:+ hash fe)]] with
  | inl k => Raise (TypeError k)
  | inr attrib => Return (set_caption b (E (asset_tag b) [] attrib))
  end.

(** The element of an [Interactive] whose fresh name, if it needs one, is
    [name].  For [SELF] the control is its own target; for [BELOW] and [SIDE]
    the element is a group of the control and a placeholder for the result,
    in one column or in two; for any other target the control is as the
    block has it. *)
Definition interactive_element (a : dict) (c : Element) (m : TargetMode)
    (name : string) : Element :=
  let control target_attrs := E "Interactive" [c] {** a, ** target_attrs } in
  let group cols :=
    E "Group" [control [("target", name)];
               E "Group" [E "Empty" [] [("name", name)]] [("columns", "1")]]
              [("columns", cols)] in
  match m with
  | SELF => control [("target", name); ("name", name)]
  | BELOW => group "1"
  | SIDE => group "2"
  | NAMED _ => E "Interactive" [c] a
  end.

Definition interactive_xml (a : dict) (c : Element) (m : TargetMode) : M Env Element :=
  if wants_name m then interactive_element a c m <$> fresh_name
  else mret (interactive_element a c m "").

(** The element of a block. *)
Fixpoint to_xml (at_start : bool) (b : Block) : M Env Element :=
  match b with
  | BaseElement t a => mret (E t [] a)
  | ContainerBlock t a bs => es ← collect to_xml true bs; mret (E t es a)
  | View f bs =>
      _ ← py_assert at_start;
      es ← collect to_xml true bs;
      mret (E "View" es (mk_attribs f))
  | EmbeddedTextBlock t a c => mret (E_text t (CDATA c) a)
  | Interactive a c m => interactive_xml a c m
  | Asset x => fe ← store_asset x; call (asset_xml x fe)
  end.

(** A visit, by the specification. *)
Definition visit_spec (b : Block) : M (World St) unit :=
  acc ← gets (elements ∘ self);
  e ← lifted (to_xml (bool_decide (acc = [])) b);
  add_element e.
End spec.

Arguments Env St : clear implicits.
