(* ===== verification/Refinement.v ===== *)
(** * The visitor implements its specification

    [visit_refines]: for every block, [visit b ≈ visit_spec b].  A visit
    returns exactly when the specification does, with the element of the
    specification appended to the accumulator and the store, the slots, the
    registry and the names as the specification leaves them; it raises the
    exception of the specification, again with that state.  After an
    exception the accumulator of the visitor is whatever the visit had built;
    that list is the one thing [≈] leaves out.

    The proof is by induction on the block.  The operations that do not
    touch the accumulator are shown equal to the lifted operations of the
    specification ([gen_name_lifted], [add_asset_lifted]); the recursive
    cases rest on [traverse_implements], the accumulator discipline of a
    list of visits. *)

From S2P Require Import Prelude PyMonad PyDict Etree Blocks.
From S2P Require Import FileStore AssetWriters XMLBuilder Spec.

Section refinement.
Context `{FileStore St} (aw : AssetWriters) (name_of : nat → string).
Implicit Types (w : World St) (v : Env St) (b : Block) (e : Element).

Notation elems w := (elements (self w)).
Notation to_xml := (to_xml aw name_of).
Notation visit := (visit aw name_of).

(** Two results of a visit agree when the outcomes are equal and the states
    are equal but, after an exception, for the accumulator. *)
Definition agree {A} (r1 r2 : Outcome A * World St) : Prop :=
  r1.1 = r2.1 ∧ env_of r1.2 = env_of r2.2 ∧ (is_Return r1.1 → r1.2 = r2.2).

(** [refines m1 m2], written [m1 ≈ m2]: the computations agree from every
    state. *)
Definition refines {A} (m1 m2 : M (World St) A) : Prop :=
  ∀ w, agree (run m1 w) (run m2 w).

(** [r] is what a visit from [w] may do when the specification does [r']. *)
Definition implements (w : World St) (r : Outcome unit * World St)
    (r' : Outcome Element * Env St) : Prop :=
  match r'.1 with
  | Return e => r = (Return tt, set_elements (elems w ++ [e]) (with_env r'.2 w))
  | Raise x => r.1 = Raise x ∧ env_of r.2 = r'.2
  end.

(** The same for a list of visits and the list of their elements. *)
Definition implements_list (w : World St) (r : Outcome unit * World St)
    (r' : Outcome (list Element) * Env St) : Prop :=
  match r'.1 with
  | Return es => r = (Return tt, set_elements (elems w ++ es) (with_env r'.2 w))
  | Raise x => r.1 = Raise x ∧ env_of r.2 = r'.2
  end.

(** ** The state of the specification inside the state of the visitor *)

Lemma env_of_with_env v w : env_of (with_env v w) = v.
Proof. by destruct v. Qed.

Lemma with_env_env_of w : with_env (env_of w) w = w.
Proof. by destruct w as [[]]. Qed.

Lemma elements_with_env v w : elems (with_env v w) = elems w.
Proof. done. Qed.

Lemma env_of_set_elements es w : env_of (set_elements es w) = env_of w.
Proof. done. Qed.

Lemma with_env_set_elements v es w :
  with_env v (set_elements es w) = set_elements es (with_env v w).
Proof. done. Qed.

Lemma with_env_twice v v' w : with_env v (with_env v' w) = with_env v w.
Proof. done. Qed.

Lemma run_lifted {A} (m : M (Env St) A) w :
  run (lifted m) w = ((run m (env_of w)).1, with_env (run m (env_of w)).2 w).
Proof. apply run_zoom. Qed.

(** ** The operations outside the accumulator *)

Lemma gen_name_lifted : gen_name (St := St) name_of ≡ lifted (fresh_name name_of).
Proof. by intros [[]]. Qed.

(** What [get_writer] does to the registry, whatever it returns. *)
Lemma get_writer_mapping x (m : gmap AssetKind AssetWriterP) :
  (run (get_writer aw x) m).2 = if decide (m = ∅) then default_mapping aw else m.
Proof.
  rw /get_writer. py_simpl. case_decide as Hm; py_simpl.
  - subst m. rw (right_id_L ∅ (∪)). by destruct (default_mapping aw !! kind x).
  - by destruct (m !! kind x).
Qed.

Lemma get_writer_result x (m : gmap AssetKind AssetWriterP) :
  (run (get_writer aw x) m).1 =
    match (if decide (m = ∅) then default_mapping aw else m) !! kind x with
    | Some wr => Return wr
    | None => Raise (KeyError (kind_name (kind x)))
    end.
Proof.
  rw /get_writer. py_simpl. case_decide as Hm; py_simpl.
  - subst m. rw (right_id_L ∅ (∪)). by destruct (default_mapping aw !! kind x).
  - by destruct (m !! kind x).
Qed.

Lemma get_writer_lifted x w :
  run (zoom asset_mapping set_asset_mapping (get_writer aw x)) w =
    (match filled aw (asset_mapping w) !! kind x with
     | Some wr => Return wr
     | None => Raise (KeyError (kind_name (kind x)))
     end, set_asset_mapping (filled aw (asset_mapping w)) w).
Proof. by rw run_zoom get_writer_result get_writer_mapping. Qed.

Lemma reuse_prev_entry_lifted x w :
  run (reuse_prev_entry x) w =
    (Return (memo_hit x (env_of w)),
     match memo_hit x (env_of w) with
     | Some pe => set_store (add_file (store (self w)) pe) w
     | None => w
     end).
Proof.
  rw /reuse_prev_entry /memo_hit run_bind run_get /=.
  destruct (prev_entry w !! oid x) as [pe|]; [|done]. by case_decide.
Qed.

Lemma write_data_lifted x d w :
  data x = Some d → memo_hit x (env_of w) = None →
  run (pe ← write_data aw x d;
       _ ← modify (λ w, set_prev_entry (<[oid x := pe]> (prev_entry w)) w);
       mret pe) w = run (lifted (store_asset aw x)) w.
Proof.
  intros Hd Hmemo.
  rw run_lifted /store_asset /run Hmemo Hd /write_data -/(run _ w).
  rw run_bind run_try_except run_bind get_writer_lifted /=.
  destruct w as [[s es] p m n]; simpl in *.
  destruct (filled aw m !! kind x) as [wr|]; [|done].
  py_simpl. destruct (get_meta wr d) as [meta|e]; [|by destruct e].
  py_simpl. destruct (write_file wr d) as [bytes|e]; [|by destruct e].
  py_simpl. by rw /= get_file_fresh.
Qed.

Lemma add_asset_lifted x : _add_asset_to_store aw x ≡ lifted (store_asset aw x).
Proof.
  intros w. rw /_add_asset_to_store run_bind reuse_prev_entry_lifted.
  destruct (memo_hit x (env_of w)) as [pe|] eqn:Hmemo.
  { rw run_lifted /store_asset /run Hmemo. by destruct w as [[]]. }
  destruct (data x) as [d|] eqn:Hd; [by apply write_data_lifted|].
  rw run_lifted /store_asset /run Hmemo Hd -/(run _ w).
  destruct w as [[]]. by destruct (file x).
Qed.

(** ** The methods without recursion *)

Lemma visit_Interactive_lifted a c m :
  visit_Interactive (St := St) name_of a c m ≡
    (e ← lifted (interactive_xml name_of a c m); add_element e).
Proof. intros [[]]. by destruct m. Qed.

Lemma asset_kwargs_call x fe w :
  run (asset_kwargs x fe) w =
    (match kwargs_from [] [[("type", fe_mime fe)];
                           {** asset_attributes x, ** file_attribs x };
                           [("src", "ref://" +:+ hash fe)]] with
     | inl k => Raise (TypeError k)
     | inr attrib => Return attrib
     end, w).
Proof. rw /asset_kwargs /kwargs. by destruct (kwargs_from _ _). Qed.

Lemma visit_AssetBlock_lifted x :
  visit_AssetBlock aw x ≡
    (e ← lifted (fe ← store_asset aw x; call (asset_xml x fe)); add_element e).
Proof.
  intros w. rw /visit_AssetBlock run_bind (add_asset_lifted x w) run_bind !run_lifted run_bind.
  destruct (run (store_asset aw x) (env_of w)) as [[fe|e] v]; [|done].
  rw /= run_bind asset_kwargs_call /asset_xml.
  by destruct (kwargs_from _ _).
Qed.


(** ** The accumulator discipline *)

Lemma bool_decide_length_0 (es : list Element) :
  bool_decide (length es = 0) = bool_decide (es = []).
Proof. apply bool_decide_ext. by destruct es. Qed.

(** A container: the blocks are visited from an empty accumulator; if they
    all return, the accumulator they leave becomes the children of the
    element, which goes after the elements that were there before. *)
Lemma run_visit_ContainerBlock (vis : Block → M (World St) unit) t a bs w :
  run (visit_ContainerBlock vis t a bs) w =
    match run (traverse vis bs) (set_elements [] w) with
    | (Return _, w') =>
        (Return tt, set_elements (elems w ++ [E t (elems w') a]) w')
    | (Raise x, w') => (Raise x, w')
    end.
Proof.
  rw /visit_ContainerBlock run_bind run_gets run_bind run_modify run_bind.
  destruct (run (traverse vis bs) _) as [[[]|x] w']; [|done].
  by rw run_bind run_gets run_bind run_modify run_add_element.
Qed.

(** A view: an accumulator that is not empty fails the assertion; else the
    blocks are visited and what they leave becomes the children of the one
    element of the accumulator. *)
Lemma run_visit_View (vis : Block → M (World St) unit) f bs w :
  run (visit_View vis f bs) w =
    if bool_decide (elems w = []) then
      match run (traverse vis bs) w with
      | (Return _, w') =>
          (Return tt, set_elements [E "View" (elems w') (mk_attribs f)] w')
      | (Raise x, w') => (Raise x, w')
      end
    else (Raise AssertionError, w).
Proof.
  rw /visit_View run_bind run_gets run_bind run_assert /= bool_decide_length_0.
  case_bool_decide; [|done]. rw run_bind.
  destruct (run (traverse vis bs) _) as [[[]|x] w']; [|done].
  by rw run_bind run_gets run_modify.
Qed.

Lemma traverse_implements bs :
  Forall (λ b, ∀ w,
    implements w (run (visit b) w)
      (run (to_xml (bool_decide (elems w = [])) b) (env_of w))) bs →
  ∀ w, implements_list w (run (traverse visit bs) w)
         (run (collect to_xml (bool_decide (elems w = [])) bs) (env_of w)).
Proof.
  induction 1 as [|b bs Hb _ IH]; intros w.
  { by rw /implements_list /= app_nil_r with_env_env_of set_elements_id. }
  rw run_traverse_cons run_collect_cons. move: (Hb w). rw /implements.
  destruct (run (to_xml _ b) (env_of w)) as [[e|x] v]; simpl.
  2: { destruct (run (visit b) w) as [o w1]. cbn. by intros [-> <-]. }
  intros ->. move: (IH (set_elements (elems w ++ [e]) (with_env v w))).
  rw /implements_list env_of_set_elements env_of_with_env /=.
  rw bool_decide_eq_false_2; [|by destruct (elems w)].
  destruct (run (collect to_xml false bs) v) as [[es|x] v']; simpl; [|done].
  intros ->. by rw -app_assoc.
Qed.


Lemma run_to_xml_container at_start t a bs v :
  run (to_xml at_start (ContainerBlock t a bs)) v =
    match run (collect to_xml true bs) v with
    | (Return es, v') => (Return (E t es a), v')
    | (Raise x, v') => (Raise x, v')
    end.
Proof. rw /= run_bind. by destruct (run (collect _ _ _) v) as [[]]. Qed.

Lemma run_to_xml_view at_start f bs v :
  run (to_xml at_start (View f bs)) v =
    if at_start then
      match run (collect to_xml true bs) v with
      | (Return es, v') => (Return (E "View" es (mk_attribs f)), v')
      | (Raise x, v') => (Raise x, v')
      end
    else (Raise AssertionError, v).
Proof.
  rw /= run_bind run_assert. destruct at_start; [|done].
  rw run_bind. by destruct (run (collect _ _ _) v) as [[]].
Qed.

Notation visits_implement bs :=
  (Forall (λ b, ∀ w,
    implements w (run (visit b) w)
      (run (to_xml (bool_decide (elems w = [])) b) (env_of w))) bs).

Lemma visit_ContainerBlock_implements t a bs at_start w :
  visits_implement bs →
  implements w (run (visit_ContainerBlock visit t a bs) w)
    (run (to_xml at_start (ContainerBlock t a bs)) (env_of w)).
Proof.
  intros Hbs. move: (traverse_implements bs Hbs (set_elements [] w)).
  rw run_visit_ContainerBlock run_to_xml_container /implements /implements_list.
  rw env_of_set_elements /=.
  destruct (run (collect to_xml true bs) (env_of w)) as [[es|x] v],
    (run (traverse visit bs) _) as [o w1]; simpl; [by intros [= -> ->] | by intros [-> <-]].
Qed.

Lemma visit_View_implements f bs w :
  visits_implement bs →
  implements w (run (visit_View visit f bs) w)
    (run (to_xml (bool_decide (elems w = [])) (View f bs)) (env_of w)).
Proof.
  intros Hbs. move: (traverse_implements bs Hbs w).
  rw run_visit_View run_to_xml_view /implements /implements_list.
  case_bool_decide as Hacc; [|done]. rw Hacc.
  destruct (run (collect to_xml true bs) (env_of w)) as [[es|x] v],
    (run (traverse visit bs) _) as [o w1]; simpl; [by intros [= -> ->] | by intros [-> <-]].
Qed.

(** [visit] does what [to_xml] says. *)
Lemma visit_implements b w :
  implements w (run (visit b) w)
    (run (to_xml (bool_decide (elems w = [])) b) (env_of w)).
Proof.
  revert w. induction b as [t a|t a bs IH|f bs IH|t a c|a c m|x]; intros w.
  - by rw /implements /= with_env_env_of.
  - by apply visit_ContainerBlock_implements.
  - by apply visit_View_implements.
  - by rw /implements /= with_env_env_of.
  - rw /implements /= (visit_Interactive_lifted a c m w) run_bind run_lifted.
    by destruct (run (interactive_xml name_of a c m) (env_of w)) as [[e|x] v];
      rw /= ?env_of_with_env.
  - rw /implements /= (visit_AssetBlock_lifted x w).
    set (r := run (_ ≫= _) (env_of w)). rw run_bind run_lifted -/r.
    by destruct r as [[e|x'] v]; rw /= ?env_of_with_env.
Qed.

(** ** What a visit does, read off the specification *)

(** A visit returns exactly when the specification has an element for the
    block, and then appends that element. *)
Lemma visit_returns b w w' :
  run (visit b) w = (Return tt, w') ↔
  ∃ e v, run (to_xml (bool_decide (elems w = [])) b) (env_of w) = (Return e, v) ∧
         w' = set_elements (elems w ++ [e]) (with_env v w).
Proof.
  move: (visit_implements b w). rw /implements.
  destruct (run (to_xml _ b) (env_of w)) as [[e|x] v]; simpl.
  - intros ->. split; [intros [= <-]; by eauto | by intros (? & ? & [= <- <-] & ->)].
  - destruct (run (visit b) w) as [o w1]. cbn. intros [-> _].
    split; [done | by intros (? & ? & ? & _)].
Qed.

(** It raises what the specification raises. *)
Lemma visit_raises b w x :
  (run (visit b) w).1 = Raise x ↔
  (run (to_xml (bool_decide (elems w = [])) b) (env_of w)).1 = Raise x.
Proof.
  move: (visit_implements b w). rw /implements.
  destruct (run (to_xml _ b) (env_of w)) as [[e|x'] v]; simpl; [by intros ->|].
  intros [-> _]. split; by intros [= ->].
Qed.

(** Whatever the outcome, the store, the slots, the registry and the names
    are as the specification leaves them. *)
Lemma visit_env b w :
  env_of (run (visit b) w).2 =
    (run (to_xml (bool_decide (elems w = [])) b) (env_of w)).2.
Proof.
  move: (visit_implements b w). rw /implements.
  destruct (run (to_xml _ b) (env_of w)) as [[e|x] v]; simpl; [|by intros [_ ->]].
  intros ->. by rw /= env_of_set_elements env_of_with_env.
Qed.

Lemma run_visit_spec b w :
  run (visit_spec aw name_of b) w =
    let r := run (to_xml (bool_decide (elems w = [])) b) (env_of w) in
    match r.1 with
    | Return e => (Return tt, set_elements (elems w ++ [e]) (with_env r.2 w))
    | Raise x => (Raise x, with_env r.2 w)
    end.
Proof.
  rw /visit_spec run_bind run_gets run_bind run_lifted /=.
  by destruct (run (to_xml _ b) (env_of w)) as [[e|x] v].
Qed.

(** C1. The visitor implements its specification: from every state, a visit
    of a block and [visit_spec] of that block have the same outcome and
    leave the same store, slots, registry and names; when they return, they
    leave the same accumulator too: the one before with the element of the
    specification appended. *)
Theorem visit_refines b : refines (visit b) (visit_spec aw name_of b).
Proof.
  intros w. move: (visit_implements b w). rw run_visit_spec /implements /agree /=.
  destruct (run (to_xml _ b) (env_of w)) as [[e|x] v]; simpl.
  - by intros ->.
  - destruct (run (visit b) w) as [o w1]. cbn. intros [-> <-].
    by rw env_of_with_env.
Qed.
End refinement.

Infix "≈" := refines (at level 70) : py_scope.

(** [≈] is an equivalence, and sequencing respects it: a refinement may be
    used inside a larger computation. *)
Section refines.
Context `{FileStore St}.

#[export] Instance agree_equivalence {A} : Equivalence (agree (St := St) (A := A)).
Proof.
  split.
  - intros r. by split_and!.
  - intros r1 r2 (Ho & Hv & Hw). split_and!; [done..|]. rw -Ho. by intros ->%Hw.
  - intros r1 r2 r3 (Ho & Hv & Hw) (Ho' & Hv' & Hw'). split_and!; [congruence..|].
    intros Hr. rw (Hw Hr). apply Hw'. by rw -Ho.
Qed.

#[export] Instance refines_equivalence {A} : Equivalence (refines (St := St) (A := A)).
Proof.
  split; [intros m w | intros m1 m2 Hm w | intros m1 m2 m3 H1 H2 w].
  - reflexivity.
  - symmetry. apply Hm.
  - etrans; [apply H1 | apply H2].
Qed.

#[export] Instance bind_refines {A B} :
  Proper (pointwise_relation A refines ==> refines ==> refines)
    (mbind (M := M (World St)) (B := B)).
Proof.
  intros f g Hfg m1 m2 Hm w. move: (Hm w). rw !run_bind /agree.
  destruct (run m1 w) as [[a|x] w1], (run m2 w) as [[a'|x'] w2]; simpl;
    intros (Ho & Hv & Hw); try discriminate Ho; injection Ho as ->; [|done].
  rw -(Hw I). apply Hfg.
Qed.
End refines.
