(* ===== verification/Examples.v ===== *)
(** * Concrete stores, writers and trees

    The inputs the witnesses of the development evaluate the visitor on: a
    [ListStore] with one file on disk, a writer that accepts data frames and
    refuses every other type, and block trees that exercise each method.
    Names are the decimal numerals ([pretty]). *)

From S2P Require Import Prelude PyMonad PyDict Etree Blocks.
From S2P Require Import FileStore AssetWriters XMLBuilder.

(** A writer for data of type [DataFrame]: [multimethod] has no
    implementation of [get_meta] for another type. *)
Definition frame_writer : AssetWriterP :=
  mkAssetWriter
    (λ d, if decide (type_name d = "DataFrame")
          then Return (mkAssetMeta ".html" "text/html")
          else Raise DispatchError)
    (λ d, Return (payload_bytes d)).

Definition ex_writers : AssetWriters :=
  mkAssetWriters frame_writer frame_writer frame_writer frame_writer.

Definition ex_store : ListStore.t :=
  ListStore.mk "B64FileEntry" [] {["logo.png" := "PNG"]}
    (λ _, (".png", "image/png")).

Definition ex_world : World ListStore.t := new_world ex_store.

(** [Table(df, caption="cap", label="x")] *)
Definition ex_table : AssetBlock :=
  mkAssetBlock 7 Table "Table" [("label", "x")] []
    (Some (mkPayload "DataFrame" "<table/>")) None (Some "cap").

(** An attachment of a file on disk. *)
Definition ex_file : AssetBlock :=
  mkAssetBlock 8 Attachment "Attachment" [] [("filename", "logo.png")]
    None (Some "logo.png") None.

(** An asset block with nothing to store. *)
Definition ex_empty : AssetBlock :=
  mkAssetBlock 9 Plot "Plot" [] [] None None None.

(** Data of a type the writer has no method for. *)
Definition ex_unsupported : AssetBlock :=
  mkAssetBlock 10 Plot "Plot" [] [] (Some (mkPayload "complex" "1j")) None None.

(** A block of a class [get_writer] does not register. *)
Definition ex_media : AssetBlock :=
  mkAssetBlock 11 (OtherAsset "Media") "Media" [] []
    (Some (mkPayload "DataFrame" "x")) None None.

(** A block that declares an attribute named [type]. *)
Definition ex_clash : AssetBlock :=
  mkAssetBlock 12 Table "Table" [("type", "mine")] []
    (Some (mkPayload "DataFrame" "<table/>")) None None.

Definition ex_controls : Element := E "Controls" [E "Range" [] [("name", "n")]] [].

(** The view of the specification's example: a group with one text. *)
Definition ex_minimal : Block :=
  View false [ContainerBlock "Group" [] [EmbeddedTextBlock "Text" [] "hi"]].

(** A view with every kind of block; the table occurs twice. *)
Definition ex_view : Block :=
  View true
    [ContainerBlock "Group" [("columns", "2")]
       [EmbeddedTextBlock "Text" [] "a < b && c";
        Asset ex_table;
        Interactive [("function_id", "f")] ex_controls SIDE;
        BaseElement "Divider" [];
        Asset ex_table];
     Interactive [] ex_controls SELF;
     Asset ex_file].

Definition ex_build (b : Block) : Outcome unit * World ListStore.t :=
  build ex_writers pretty ex_store b.
