(* ===== verification/Evolution.v ===== *)
(** * How a visit changes the store, the slots, the registry and the names

    [evolves v v'] relates the state outside the accumulator before an
    operation to the state after it: the class of the store is the same, no
    file has left the store, a block that had an entry of the class of the
    store still has that entry, the registry is the same or has been
    filled, and no name has been taken back.  It is a preorder, and every
    visit, whether it returns or raises, is a step of it
    ([to_xml_preserves], [to_xml_evolves]).

    [memo_ok v] is the invariant that ties the slots to the store: the entry
    a block would reuse is registered in the store.  It holds of a fresh
    builder and every visit keeps it; with it and a store that deduplicates,
    reusing an entry changes nothing at all. *)

From S2P Require Import Prelude PyMonad PyDict Etree Blocks.
From S2P Require Import FileStore AssetWriters XMLBuilder Spec Refinement Examples.

Section evolution.
Context `{FileStore St} (aw : AssetWriters) (name_of : nat → string).
Implicit Types (w : World St) (v : Env St) (b : Block) (x y : AssetBlock).
Implicit Types (fe : FileEntry).

Notation to_xml := (to_xml aw name_of).
Notation visit := (visit aw name_of).

Record evolves (v v' : Env St) : Prop := mkEvolves {
  evolves_klass : fw_klass (env_store v') = fw_klass (env_store v);
  evolves_files : files (env_store v) ⊆ files (env_store v');
  evolves_memo x fe : memo_hit x v = Some fe → memo_hit x v' = Some fe;
  evolves_mapping :
    env_mapping v' = env_mapping v ∨ env_mapping v' = filled aw (env_mapping v);
  evolves_names : env_names v ≤ env_names v'
}.

(** The entry a block would reuse is registered in the store. *)
Definition memo_ok (v : Env St) : Prop :=
  ∀ x fe, memo_hit x v = Some fe → hash fe ∈ hash <$> files (env_store v).

(** ** The slot of a block *)

Lemma memo_hit_Some x v fe :
  memo_hit x v = Some fe ↔
  env_prev v !! oid x = Some fe ∧ entry_klass fe = fw_klass (env_store v).
Proof.
  rw /memo_hit. destruct (env_prev v !! oid x) as [pe|]; [|naive_solver].
  case_decide; naive_solver.
Qed.

Lemma memo_hit_ext x y v v' :
  env_prev v' !! oid y = env_prev v !! oid x →
  fw_klass (env_store v') = fw_klass (env_store v) →
  memo_hit y v' = memo_hit x v.
Proof. rw /memo_hit. by intros -> ->. Qed.

(** A slot that is written keeps the other slots. *)
Lemma memo_hit_insert x y fe v s' m' n' :
  fw_klass s' = fw_klass (env_store v) → oid y ≠ oid x →
  memo_hit y (mkEnv s' (<[oid x := fe]> (env_prev v)) m' n') = memo_hit y v.
Proof. intros Hk Hne. apply memo_hit_ext; [|done]. by rw /= lookup_insert_ne. Qed.

Lemma memo_hit_insert_eq x y fe v s' m' n' fe' :
  oid y = oid x →
  memo_hit y (mkEnv s' (<[oid x := fe]> (env_prev v)) m' n') = Some fe' → fe' = fe.
Proof.
  intros Ho [Hl _]%memo_hit_Some. move: Hl. rw /= Ho lookup_insert_eq. by intros [= ->].
Qed.

(** ** The registry *)

Lemma filled_idem m : filled aw (filled aw m) = filled aw m.
Proof.
  rw /filled. by destruct (decide (m = ∅)) as [->|Hm]; simpl; case_decide.
Qed.

Lemma filled_nonempty m : filled aw m ≠ ∅.
Proof. rw /filled. case_decide; [apply default_mapping_nonempty | done]. Qed.

(** ** [evolves] is a preorder *)

#[export] Instance evolves_preorder : PreOrder evolves.
Proof.
  split; [intros v; split; eauto|].
  intros v1 v2 v3 [Hk1 Hf1 Hm1 Hr1 Hn1] [Hk2 Hf2 Hm2 Hr2 Hn2].
  split; [congruence | by etrans | eauto | | lia].
  destruct Hr1 as [Hr1|Hr1], Hr2 as [Hr2|Hr2]; rw Hr2 Hr1 ?filled_idem; eauto.
Qed.

(** The two ways an operation on an asset leaves the state: the slots as
    they were, or the slot of the block written when it could not be
    reused. *)
Lemma evolves_keep v s' m' :
  fw_klass s' = fw_klass (env_store v) → files (env_store v) ⊆ files s' →
  m' = env_mapping v ∨ m' = filled aw (env_mapping v) →
  evolves v (mkEnv s' (env_prev v) m' (env_names v)).
Proof.
  intros Hk Hf Hm. split; [done..| |done|done].
  intros x fe <-. by apply memo_hit_ext.
Qed.

Lemma evolves_write x fe v s' m' :
  memo_hit x v = None →
  fw_klass s' = fw_klass (env_store v) → files (env_store v) ⊆ files s' →
  m' = env_mapping v ∨ m' = filled aw (env_mapping v) →
  evolves v (mkEnv s' (<[oid x := fe]> (env_prev v)) m' (env_names v)).
Proof.
  intros Hx Hk Hf Hm. split; [done..| |done|done].
  intros y fe' Hy. destruct (decide (oid y = oid x)) as [Ho|Hne].
  - assert (memo_hit y v = memo_hit x v) by (apply memo_hit_ext; by rw ?Ho).
    congruence.
  - by rw memo_hit_insert.
Qed.

Lemma memo_ok_keep v s' m' n' :
  fw_klass s' = fw_klass (env_store v) → files (env_store v) ⊆ files s' →
  memo_ok v → memo_ok (mkEnv s' (env_prev v) m' n').
Proof.
  intros Hk Hf Hok x fe Hx. rw (memo_hit_ext x x v) // in Hx.
  by eapply elem_of_fmap_subseteq, Hok.
Qed.

Lemma memo_ok_write x fe v s' m' n' :
  fw_klass s' = fw_klass (env_store v) → files (env_store v) ⊆ files s' →
  hash fe ∈ hash <$> files s' →
  memo_ok v → memo_ok (mkEnv s' (<[oid x := fe]> (env_prev v)) m' n').
Proof.
  intros Hk Hf Hfe Hok y fe' Hy. destruct (decide (oid y = oid x)) as [Ho|Hne].
  - by rw (memo_hit_insert_eq _ _ _ _ _ _ _ _ Ho Hy).
  - rw memo_hit_insert // in Hy. by eapply elem_of_fmap_subseteq, Hok.
Qed.

(** ** The steps of the specification *)

Lemma run_interactive_xml a c m v :
  run (interactive_xml name_of a c m) v =
    if wants_name m
    then (Return (interactive_element a c m (name_of (env_names v))),
          mkEnv (env_store v) (env_prev v) (env_mapping v) (S (env_names v)))
    else (Return (interactive_element a c m ""), v).
Proof. rw /interactive_xml. by destruct (wants_name m); rw ?run_fmap. Qed.

Lemma run_to_xml_asset at_start x v :
  run (to_xml at_start (Asset x)) v =
    match run (store_asset aw x) v with
    | (Return fe, v') => (asset_xml x fe, v')
    | (Raise e, v') => (Raise e, v')
    end.
Proof. rw /= run_bind. by destruct (run (store_asset aw x) v) as [[fe|e] v']. Qed.

(** A preorder on states that storing an asset and taking a name are steps
    of has every [to_xml] as a step, whatever its outcome. *)
Lemma to_xml_preserves (P : relation (Env St)) `{!PreOrder P} :
  (∀ x v, P v (run (store_asset aw x) v).2) →
  (∀ v, P v (run (fresh_name name_of) v).2) →
  ∀ b at_start v, P v (run (to_xml at_start b) v).2.
Proof.
  intros Hasset Hname.
  induction b as [t a|t a bs IH|f bs IH|t a c|a c m|x]; intros at_start v.
  - done.
  - rw run_to_xml_container. generalize (collect_preserves to_xml P bs IH true v).
    by destruct (run (collect to_xml true bs) v) as [[es|e] v'].
  - rw run_to_xml_view. destruct at_start; [|done].
    generalize (collect_preserves to_xml P bs IH true v).
    by destruct (run (collect to_xml true bs) v) as [[es|e] v'].
  - done.
  - rw run_interactive_xml. destruct (wants_name m); [apply Hname | done].
  - rw run_to_xml_asset. move: (Hasset x v).
    by destruct (run (store_asset aw x) v) as [[fe|e] v'].
Qed.

Lemma fresh_name_evolves v : evolves v (run (fresh_name name_of) v).2.
Proof. split; simpl; eauto. Qed.

Lemma store_asset_evolves x v : evolves v (run (store_asset aw x) v).2.
Proof.
  rw /run /store_asset. destruct (memo_hit x v) as [pe|] eqn:Hm; simpl.
  { apply evolves_keep; eauto using add_file_klass, add_file_mono. }
  destruct (data x) as [d|]; [|destruct (file x) as [p|]]; simpl; [| |done].
  - destruct (filled aw (env_mapping v) !! kind x) as [wr|]; simpl;
      [destruct (get_meta wr d), (write_file wr d)|]; simpl;
      (apply evolves_write || apply evolves_keep);
      eauto using add_file_klass, add_file_mono.
  - apply evolves_write; eauto using load_file_klass, load_file_mono.
Qed.

Lemma store_asset_memo_ok x v : keeps memo_ok v (run (store_asset aw x) v).2.
Proof.
  rw /run /store_asset. intros Hok. destruct (memo_hit x v) as [pe|] eqn:Hm; simpl.
  { apply memo_ok_keep; eauto using add_file_klass, add_file_mono. }
  destruct (data x) as [d|]; [|destruct (file x) as [p|]]; simpl; [| |done].
  - destruct (filled aw (env_mapping v) !! kind x) as [wr|]; simpl;
      [destruct (get_meta wr d), (write_file wr d)|]; simpl;
      (apply memo_ok_write || apply memo_ok_keep);
      eauto using add_file_klass, add_file_mono, add_file_registers.
  - apply memo_ok_write;
      eauto using load_file_klass, load_file_mono, load_file_registers.
Qed.

Lemma to_xml_evolves b at_start v : evolves v (run (to_xml at_start b) v).2.
Proof.
  apply to_xml_preserves;
    [apply _ | apply store_asset_evolves | apply fresh_name_evolves].
Qed.

Lemma to_xml_memo_ok b at_start v : keeps memo_ok v (run (to_xml at_start b) v).2.
Proof.
  apply to_xml_preserves; [apply _ | apply store_asset_memo_ok |].
  intros v' Hok. by eapply memo_ok_keep.
Qed.

Lemma new_world_memo_ok (s : St) : memo_ok (env_of (new_world s)).
Proof. by intros x fe [? _]%memo_hit_Some. Qed.

(** The names taken: one for every [Interactive] of the tree that wants
    one. *)
Lemma to_xml_names b at_start v e v' :
  run (to_xml at_start b) v = (Return e, v') →
  env_names v' = env_names v + names_used b.
Proof.
  revert at_start v e v'.
  induction b as [t a|t a bs IH|f bs IH|t a c|a c m|x]; intros at_start v e v'.
  - intros [= _ <-]. simpl. lia.
  - rw run_to_xml_container.
    destruct (run (collect _ _ _) v) as [[es|?] v1] eqn:Hbs; intros; simplify_eq.
    by eapply (collect_sum to_xml env_names names_used).
  - rw run_to_xml_view. destruct at_start; [|done].
    destruct (run (collect _ _ _) v) as [[es|?] v1] eqn:Hbs; intros; simplify_eq.
    by eapply (collect_sum to_xml env_names names_used).
  - intros [= _ <-]. simpl. lia.
  - rw run_interactive_xml /=. destruct (wants_name m); intros [= _ <-]; simpl; lia.
  - rw run_to_xml_asset. move: (store_asset_evolves x v).
    destruct (run (store_asset aw x) v) as [[fe|?] v1] eqn:Hx; intros ??; simplify_eq.
    move: Hx. rw /run /store_asset /=. repeat case_match; intros; simplify_eq/=; lia.
Qed.

(** The entry an asset block is given is the entry it would reuse next. *)
Lemma store_asset_memoises x v fe v' :
  run (store_asset aw x) v = (Return fe, v') → memo_hit x v' = Some fe.
Proof.
  rw /run /store_asset. destruct (memo_hit x v) as [pe|] eqn:Hm; simpl.
  { intros [= <- <-]. rw -Hm. apply memo_hit_ext; [done | apply add_file_klass]. }
  intros Hrun. apply memo_hit_Some. move: Hrun.
  repeat case_match; intros; simplify_eq/=;
    by rw lookup_insert_eq ?add_file_klass ?load_file_klass ?load_file_entry_klass.
Qed.

(** In a store that deduplicates, reusing a registered entry changes
    nothing. *)
Lemma store_asset_hit `{!DedupStore St} x v pe :
  memo_ok v → memo_hit x v = Some pe → run (store_asset aw x) v = (Return pe, v).
Proof.
  intros Hok Hm. rw /run /store_asset Hm add_file_dedup; [|by eapply Hok].
  by destruct v.
Qed.
End evolution.

(** ** The theorems on visits *)

Section visits.
Context `{FileStore St} (aw : AssetWriters) (name_of : nat → string).
Implicit Types (w : World St) (b : Block) (x : AssetBlock).

Notation visit := (visit aw name_of).

(** Whatever its outcome, a visit leaves the class of the store as it
    was, removes no file from the store, leaves every block that had an
    entry of the class of the store with that entry, changes the registry
    at most by filling it, and takes no name back. *)
Theorem visit_evolves b w : evolves aw (env_of w) (env_of (run (visit b) w).2).
Proof. rw visit_env. apply to_xml_evolves. Qed.

(** Every visit, returning or raising, keeps the invariant that the
    entry an asset block would reuse is registered in the store. *)
Theorem visit_memo_ok b w :
  memo_ok (env_of w) → memo_ok (env_of (run (visit b) w).2).
Proof. rw visit_env. apply to_xml_memo_ok. Qed.

(** With a store that deduplicates, a second visit of an asset block
    right after a visit that returned appends the same element again and
    changes nothing else: no writer is called, no file is added and no slot
    is written. *)
Theorem visit_asset_again `{!DedupStore St} x w w' :
  memo_ok (env_of w) → run (visit (Asset x)) w = (Return tt, w') →
  ∃ e, elements (self w') = elements (self w) ++ [e] ∧
       run (visit (Asset x)) w' =
         (Return tt, set_elements (elements (self w') ++ [e]) w').
Proof.
  intros Hok. rw visit_returns run_to_xml_asset. intros (e & v & Hx & ->).
  pose proof (store_asset_memo_ok aw x (env_of w) Hok) as Hok1.
  destruct (run (store_asset aw x) _) as [[fe|?] v1] eqn:Hfe; simplify_eq.
  exists e. split; [done|].
  apply visit_returns. exists e, v. split; [|by rw with_env_set_elements with_env_twice].
  rw env_of_set_elements env_of_with_env run_to_xml_asset.
  rw (store_asset_hit aw x v fe);
    [congruence | done | by eapply store_asset_memoises].
Qed.

(** A visit that returns has taken one name for every [Interactive]
    of the tree whose target is [SELF], [BELOW] or [SIDE], and no other. *)
Theorem visit_names b w w' :
  run (visit b) w = (Return tt, w') → names w' = names w + names_used b.
Proof.
  intros (e & v & Hrun & ->)%visit_returns.
  by apply to_xml_names in Hrun.
Qed.
End visits.

Lemma visit_memo_ok_witness :
  memo_ok (env_of (run (visit ex_writers pretty ex_view) ex_world).2).
Proof. apply (visit_memo_ok ex_writers pretty ex_view ex_world), new_world_memo_ok. Defined.

Lemma visit_asset_again_witness :
  ∃ e, elements (self (ex_build (Asset ex_table)).2) = [] ++ [e] ∧
       run (visit ex_writers pretty (Asset ex_table)) (ex_build (Asset ex_table)).2 =
         (Return tt, set_elements (elements (self (ex_build (Asset ex_table)).2) ++ [e])
                       (ex_build (Asset ex_table)).2).
Proof.
  apply (visit_asset_again ex_writers pretty ex_table ex_world);
    [apply new_world_memo_ok | by vm_compute].
Defined.

Lemma visit_names_witness : names (ex_build ex_view).2 = 0 + names_used ex_view.
Proof. apply (visit_names ex_writers pretty ex_view ex_world). by vm_compute. Defined.
