(* ===== verification/Assets.v ===== *)
(** * Asset extraction, branch by branch

    What [_add_asset_to_store] and the visit of an asset block do in each
    case of the code: the entry is reused, the data is written, the file is
    loaded, or an error is raised (nothing to store, data no writer
    supports, a class without a writer, any other exception of a writer, a
    keyword given twice); and what the attributes of the element are.  Every theorem is an equation or an implication on the
    methods of [XMLBuilder] themselves, with the state the method leaves. *)

From S2P Require Import Prelude PyMonad PyDict Etree Blocks.
From S2P Require Import FileStore AssetWriters XMLBuilder Spec Refinement Examples.
From S2P Require Import Evolution.

Section assets.
Context `{FileStore St} (aw : AssetWriters) (name_of : nat → string).
Implicit Types (w : World St) (x : AssetBlock) (fe pe : FileEntry) (d : Payload).
Implicit Types (wr : AssetWriterP) (e : Element).

Notation visit := (visit aw name_of).
Notation elems w := (elements (self w)).

(** The keyword arguments of the element of an asset block, when no keyword
    is given twice: [type], the attributes of the block overridden by its
    file attributes, [src]. *)
Definition asset_attrib (x : AssetBlock) (fe : FileEntry) : dict :=
  ("type", fe_mime fe) :: {** asset_attributes x, ** file_attribs x } ++
  [("src", "ref://" +:+ hash fe)].

(** The state a write leaves: the registry filled, the entry in the store
    and in the slot of the block. *)
Definition written (x : AssetBlock) (fe : FileEntry) (w : World St) : World St :=
  set_prev_entry (<[oid x := fe]> (prev_entry w))
    (set_asset_mapping (filled aw (asset_mapping w))
       (set_store (add_file (store (self w)) fe) w)).

(** ** [_add_asset_to_store] is [store_asset] *)

Lemma run_add_asset x w :
  run (_add_asset_to_store aw x) w =
    ((run (store_asset aw x) (env_of w)).1,
     with_env (run (store_asset aw x) (env_of w)).2 w).
Proof. by rw (add_asset_lifted aw x w) run_lifted. Qed.

(** ** The attributes *)

Lemma asset_kwargs_inr x fe :
  kwargs_from [] [[("type", fe_mime fe)];
                  {** asset_attributes x, ** file_attribs x };
                  [("src", "ref://" +:+ hash fe)]] = inr (asset_attrib x fe) ↔
  dict_wf (asset_attrib x fe).
Proof.
  rw kwargs_from_inr; [|apply NoDup_nil_2].
  rw /asset_attrib /= ?app_nil_r. naive_solver.
Qed.

Lemma asset_kwargs_inl x fe k :
  kwargs_from [] [[("type", fe_mime fe)];
                  {** asset_attributes x, ** file_attribs x };
                  [("src", "ref://" +:+ hash fe)]] = inl k →
  ¬ dict_wf (asset_attrib x fe).
Proof. intros Hk Hwf%asset_kwargs_inr. congruence. Qed.

Lemma asset_xml_Return x fe e :
  asset_xml x fe = Return e ↔
  dict_wf (asset_attrib x fe) ∧
  e = set_caption x (E (asset_tag x) [] (asset_attrib x fe)).
Proof.
  rw /asset_xml. destruct (kwargs_from _ _) as [k|kw] eqn:Hkw.
  - apply asset_kwargs_inl in Hkw. naive_solver.
  - pose proof Hkw as [-> Hwf]%kwargs_from_inr; [|apply NoDup_nil_2].
    rw /asset_attrib /= ?app_nil_r in Hwf |- *. naive_solver.
Qed.

Lemma tag_set_caption x e : tag (set_caption x e) = tag e.
Proof. rw /set_caption. by repeat case_match. Qed.

Lemma children_set_caption x e : children (set_caption x e) = children e.
Proof. rw /set_caption. by repeat case_match. Qed.

Lemma text_set_caption x e : text (set_caption x e) = text e.
Proof. rw /set_caption. by repeat case_match. Qed.

Lemma get_attr_set_caption x e k :
  get_attr (set_caption x e) k =
    if truthy (caption x) && bool_decide (k = "caption") then caption x
    else get_attr e k.
Proof.
  rw /set_caption. destruct (caption x) as [c|]; [|done].
  destruct (truthy (Some c)); [|done]. rw get_set /=.
  by case_decide; case_bool_decide.
Qed.

(** ** The visit of an asset block is [store_asset], then the element *)

Lemma run_visit_asset x w :
  run (visit (Asset x)) w =
    match run (_add_asset_to_store aw x) w with
    | (Return fe, w1) =>
        if decide (dict_wf (asset_attrib x fe))
        then (Return tt, set_elements
                (elems w1 ++ [set_caption x (E (asset_tag x) [] (asset_attrib x fe))]) w1)
        else match run (asset_kwargs x fe) w1 with
             | (Raise err, _) => (Raise err, w1)
             | (Return _, _) => (Raise AssertionError, w1)
             end
    | (Raise err, w1) => (Raise err, w1)
    end.
Proof.
  rw /= /visit_AssetBlock run_bind.
  destruct (run (_add_asset_to_store aw x) w) as [[fe|err] w1]; [|done].
  rw run_bind asset_kwargs_call. case_decide as Hwf.
  - by rw (proj2 (asset_kwargs_inr x fe) Hwf).
  - destruct (kwargs_from _ _) as [k|kw] eqn:Hkw; [done|].
    pose proof Hkw as [-> ?]%kwargs_from_inr; [|apply NoDup_nil_2].
    by apply asset_kwargs_inr in Hkw.
Qed.
End assets.

(** ** The theorems *)

Section branches.
Context `{FileStore St} (aw : AssetWriters) (name_of : nat → string).
Implicit Types (w : World St) (x : AssetBlock) (fe pe : FileEntry) (d : Payload).
Implicit Types (wr : AssetWriterP) (e : Element).

Notation visit := (visit aw name_of).
Notation elems w := (elements (self w)).

(** C27. A block that has an entry of the class of the store from an
    earlier visit gets that entry again: it is added to the store, and
    neither the writers, the registry nor the slot are touched. *)
Theorem add_asset_reuses x w pe :
  prev_entry w !! oid x = Some pe → entry_klass pe = fw_klass (store (self w)) →
  run (_add_asset_to_store aw x) w =
    (Return pe, set_store (add_file (store (self w)) pe) w).
Proof.
  intros Hp Hk. rw run_add_asset /run /store_asset.
  by rw (proj2 (memo_hit_Some x (env_of w) pe)).
Qed.

(** C28. A block with data and no entry to reuse: the writer registered
    for its class gives the extension, the mime type and the bytes; the
    entry made of them is returned, added to the store and put in the slot
    of the block, and the registry is filled. *)
Theorem add_asset_writes x w d wr meta bytes :
  memo_hit x (env_of w) = None → data x = Some d →
  filled aw (asset_mapping w) !! kind x = Some wr →
  get_meta wr d = Return meta → write_file wr d = Return bytes →
  run (_add_asset_to_store aw x) w =
    (Return (mkFileEntry (fw_klass (store (self w))) (ext meta) (mime meta) bytes),
     written aw x (mkFileEntry (fw_klass (store (self w))) (ext meta) (mime meta) bytes) w).
Proof.
  intros Hm Hd Hwr Hmeta Hbytes.
  by rw run_add_asset /run /store_asset Hm Hd /= Hwr Hmeta Hbytes.
Qed.

(** C29. A block without data and with a file: the store loads the file,
    the entry it returns goes in the slot of the block, and the registry is
    not consulted. *)
Theorem add_asset_loads x w p :
  memo_hit x (env_of w) = None → data x = None → file x = Some p →
  run (_add_asset_to_store aw x) w =
    (Return (load_file (store (self w)) p).1,
     set_prev_entry (<[oid x := (load_file (store (self w)) p).1]> (prev_entry w))
       (set_store (load_file (store (self w)) p).2 w)).
Proof.
  intros Hm Hd Hf. by rw run_add_asset /run /store_asset Hm Hd Hf.
Qed.

(** C30. A block with neither data nor file and no entry to reuse: the
    client error "No asset to add", and nothing has changed. *)
Theorem add_asset_nothing x w :
  memo_hit x (env_of w) = None → data x = None → file x = None →
  run (_add_asset_to_store aw x) w = (Raise (DPClientError "No asset to add"), w).
Proof.
  intros Hm Hd Hf. rw run_add_asset /run /store_asset Hm Hd Hf /=.
  by rw with_env_env_of.
Qed.

(** C31. Data of a type the writer has no method for, in [get_meta] or in
    [write_file]: the dispatch error becomes the client error that names
    the type; the registry has been filled, the store and the slot are as
    they were. *)
Theorem add_asset_unsupported x w d wr :
  memo_hit x (env_of w) = None → data x = Some d →
  filled aw (asset_mapping w) !! kind x = Some wr →
  get_meta wr d = Raise DispatchError ∨
    (is_Return (get_meta wr d) = true ∧ write_file wr d = Raise DispatchError) →
  run (_add_asset_to_store aw x) w =
    (Raise (DPClientError (type_name d +:+ " not supported for XMLBuilder")),
     set_asset_mapping (filled aw (asset_mapping w)) w).
Proof.
  intros Hm Hd Hwr Herr. rw run_add_asset /run /store_asset Hm Hd /= Hwr.
  destruct w as [[]].
  by destruct Herr as [->|[? ->]]; [|destruct (get_meta wr d)].
Qed.

(** C32. A block of a class without a writer in the registry: the
    [KeyError] of the lookup leaves [_add_asset_to_store] as it is; it is
    not turned into the client error. *)
Theorem add_asset_unregistered x w d :
  memo_hit x (env_of w) = None → data x = Some d →
  filled aw (asset_mapping w) !! kind x = None →
  run (_add_asset_to_store aw x) w =
    (Raise (KeyError (kind_name (kind x))),
     set_asset_mapping (filled aw (asset_mapping w)) w).
Proof.
  intros Hm Hd Hwr. rw run_add_asset /run /store_asset Hm Hd /= Hwr.
  by destruct w as [[]].
Qed.

(** The element of an asset block: a visit that returns has appended
    the element with the tag of the block and the attributes [type], then
    those of the block, then [src], no keyword twice, the caption set last;
    the entry whose mime type and hash they carry is in the slot of the
    block. *)
Lemma visit_asset_shape x w w' :
  run (visit (Asset x)) w = (Return tt, w') →
  ∃ fe, dict_wf (asset_attrib x fe) ∧ prev_entry w' !! oid x = Some fe ∧
        elems w' = elems w ++ [set_caption x (E (asset_tag x) [] (asset_attrib x fe))].
Proof.
  intros (e & v & Hrun & ->)%visit_returns. move: Hrun. rw run_to_xml_asset.
  destruct (run (store_asset aw x) _) as [[fe|?] v1] eqn:Hx; intros; simplify_eq.
  exists fe. apply store_asset_memoises, memo_hit_Some in Hx as [Hp _].
  by assert (asset_xml x fe = Return e) as [? ->]%asset_xml_Return.
Qed.

(** C34. An attribute of the block named like a keyword of the call, [type]
    or [src], makes the call of the element factory a [TypeError]; the
    entry has been stored by then and stays stored. *)
Theorem visit_asset_clash x w fe w1 :
  run (_add_asset_to_store aw x) w = (Return fe, w1) →
  ¬ dict_wf (asset_attrib x fe) →
  ∃ k, run (visit (Asset x)) w = (Raise (TypeError k), w1).
Proof.
  intros Hfe Hwf. rw run_visit_asset Hfe decide_False // asset_kwargs_call.
  destruct (kwargs_from _ _) as [k|kw] eqn:Hkw; [by exists k|].
  pose proof Hkw as [-> ?]%kwargs_from_inr; [|apply NoDup_nil_2].
  by apply asset_kwargs_inr in Hkw.
Qed.

(** The attributes of the element of an entry, key by key, when no keyword
    of the factory call is given twice. *)
Lemma asset_attrib_get x fe k :
  dict_wf (file_attribs x) → dict_wf (asset_attrib x fe) →
  dict_get k (asset_attrib x fe) =
    if decide (k = "type") then Some (fe_mime fe)
    else if decide (k = "src") then Some ("ref://" +:+ hash fe)
    else match dict_get k (file_attribs x) with
         | Some v => Some v
         | None => dict_get k (asset_attributes x)
         end.
Proof.
  intros Hf [_ Hwf]%NoDup_cons.
  apply (dict_wf_snoc _ "src") in Hwf as [_ Hsrc%dict_get_None].
  rw /asset_attrib /= dict_get_app /=. case_decide as Ht; [done|].
  case_decide as Hs; [by subst k; rw Hsrc|]. rw dict_get_update //.
  by destruct (dict_get k (file_attribs x)), (dict_get k (asset_attributes x)).
Qed.

(** C26. The element a visit of an asset block appends, attribute by
    attribute.  When the visit returns it has appended one element, with
    the tag of the block, no child and no text, and the block has an entry
    in its slot.  The [caption] of the element is the caption of the block
    when that is neither [None] nor the empty string, whatever the
    attributes say.  Otherwise [type] is the mime type of the entry and
    [src] the reference [ref://] to its hash; for any other key a file
    attribute of the block wins over an attribute of the block.  (The file
    attributes are a dictionary: no key twice.) *)
Theorem visit_asset_attributes x w w' k :
  dict_wf (file_attribs x) → run (visit (Asset x)) w = (Return tt, w') →
  ∃ e fe, elems w' = elems w ++ [e] ∧ prev_entry w' !! oid x = Some fe ∧
    tag e = asset_tag x ∧ children e = [] ∧ text e = None ∧
    get_attr e k =
      if decide (k = "caption" ∧ caption x ≠ None ∧ caption x ≠ Some "") then caption x
      else if decide (k = "type") then Some (fe_mime fe)
      else if decide (k = "src") then Some ("ref://" +:+ hash fe)
      else match dict_get k (file_attribs x) with
           | Some v => Some v
           | None => dict_get k (asset_attributes x)
           end.
Proof.
  intros Hf (fe & Hwf & Hp & He)%visit_asset_shape.
  eexists _, fe. split; [exact He|]. split; [done|].
  rw tag_set_caption children_set_caption text_set_caption.
  split_and!; [done..|]. rw get_attr_set_caption get_E (asset_attrib_get x fe k) //.
  destruct (caption x) as [[|c s]|]; rw /=; repeat (case_bool_decide || case_decide);
    naive_solver.
Qed.

(** C33. An exception of a writer that is not a dispatch error.  When
    [get_meta] or [write_file] of the writer registered for the class of
    the block raises anything but [DispatchError], that exception leaves
    [_add_asset_to_store] as it is: no clause catches it.  The registry has
    been filled; the store and the slot of the block are as they were, so
    the entry [get_file] made for a [write_file] that failed is never
    added. *)
Theorem add_asset_writer_raises x w d wr err :
  memo_hit x (env_of w) = None → data x = Some d →
  filled aw (asset_mapping w) !! kind x = Some wr →
  get_meta wr d = Raise err ∨
    (is_Return (get_meta wr d) = true ∧ write_file wr d = Raise err) →
  is_DispatchError err = false →
  run (_add_asset_to_store aw x) w =
    (Raise err, set_asset_mapping (filled aw (asset_mapping w)) w).
Proof.
  intros Hm Hd Hwr Herr Hde. rw run_add_asset /run /store_asset Hm Hd /= Hwr.
  destruct w as [[]].
  destruct Herr as [->|[? ->]]; [|destruct (get_meta wr d); [|done]];
    by rw /= /writer_error Hde.
Qed.
End branches.

(** With a store that appends, a block that is visited again is
    counted again: reusing its entry adds one more file to the store. *)
Theorem append_store_revisit (aw : AssetWriters) (x : AssetBlock)
    (w : World AppendStore.t) (pe : FileEntry) :
  prev_entry w !! oid x = Some pe → entry_klass pe = fw_klass (store (self w)) →
  store_count (run (_add_asset_to_store aw x) w).2 = S (store_count w).
Proof.
  intros Hp Hk. rw run_add_asset /run /store_asset.
  rw (proj2 (memo_hit_Some x (env_of w) pe)) //. apply AppendStore.append_length.
Qed.

(** ** The branches on the example store *)

Definition ex_table_entry : FileEntry :=
  mkFileEntry "B64FileEntry" ".html" "text/html" "<table/>".

Definition ex_stored : World ListStore.t := (ex_build (Asset ex_table)).2.

Lemma add_asset_reuses_witness :
  run (_add_asset_to_store ex_writers ex_table) ex_stored =
    (Return ex_table_entry,
     set_store (add_file (store (self ex_stored)) ex_table_entry) ex_stored).
Proof. by apply (add_asset_reuses ex_writers ex_table ex_stored ex_table_entry). Defined.

Lemma add_asset_writes_witness :
  run (_add_asset_to_store ex_writers ex_table) ex_world =
    (Return ex_table_entry, written ex_writers ex_table ex_table_entry ex_world).
Proof.
  by refine (add_asset_writes ex_writers ex_table ex_world
               (mkPayload "DataFrame" "<table/>") frame_writer
               (mkAssetMeta ".html" "text/html") "<table/>" _ _ _ _ _).
Defined.

Lemma add_asset_loads_witness :
  run (_add_asset_to_store ex_writers ex_file) ex_world =
    (Return (load_file ex_store "logo.png").1,
     set_prev_entry (<[oid ex_file := (load_file ex_store "logo.png").1]> ∅)
       (set_store (load_file ex_store "logo.png").2 ex_world)).
Proof. by apply (add_asset_loads ex_writers ex_file ex_world "logo.png"). Defined.

Lemma add_asset_nothing_witness :
  run (_add_asset_to_store ex_writers ex_empty) ex_world =
    (Raise (DPClientError "No asset to add"), ex_world).
Proof. by apply (add_asset_nothing ex_writers ex_empty ex_world). Defined.

Lemma add_asset_unsupported_witness :
  run (_add_asset_to_store ex_writers ex_unsupported) ex_world =
    (Raise (DPClientError "complex not supported for XMLBuilder"),
     set_asset_mapping (default_mapping ex_writers) ex_world).
Proof.
  apply (add_asset_unsupported ex_writers ex_unsupported ex_world
           (mkPayload "complex" "1j") frame_writer); try done. by left.
Defined.

Lemma add_asset_unregistered_witness :
  run (_add_asset_to_store ex_writers ex_media) ex_world =
    (Raise (KeyError "Media"), set_asset_mapping (default_mapping ex_writers) ex_world).
Proof.
  by apply (add_asset_unregistered ex_writers ex_media ex_world
              (mkPayload "DataFrame" "x")).
Defined.

Lemma visit_asset_clash_witness :
  ∃ k, run (visit ex_writers pretty (Asset ex_clash)) ex_world =
         (Raise (TypeError k), (run (_add_asset_to_store ex_writers ex_clash) ex_world).2).
Proof.
  apply (visit_asset_clash ex_writers pretty ex_clash ex_world ex_table_entry);
    [by vm_compute | intros Hwf%(bool_decide_pack _); by vm_compute in Hwf].
Defined.

Lemma visit_asset_attributes_witness :
  ∃ e fe, elements (self ex_stored) = elements (self ex_world) ++ [e] ∧
    prev_entry ex_stored !! oid ex_table = Some fe ∧
    tag e = asset_tag ex_table ∧ children e = [] ∧ text e = None ∧
    get_attr e "caption" =
      if decide ("caption" = "caption" ∧ caption ex_table ≠ None ∧ caption ex_table ≠ Some "")
      then caption ex_table
      else if decide ("caption" = "type") then Some (fe_mime fe)
      else if decide ("caption" = "src") then Some ("ref://" +:+ hash (St:=ListStore.t) fe)
      else match dict_get "caption" (file_attribs ex_table) with
           | Some v => Some v
           | None => dict_get "caption" (asset_attributes ex_table)
           end.
Proof.
  apply (visit_asset_attributes ex_writers pretty ex_table ex_world ex_stored "caption");
    [apply NoDup_nil_2 | by vm_compute].
Defined.

(** A writer that fails on its own: [write_file] raises a [ValueError]. *)
Definition failing_writer : AssetWriterP :=
  mkAssetWriter (λ _, Return (mkAssetMeta ".html" "text/html"))
                (λ _, Raise (OtherException "ValueError")).

Definition ex_failing_writers : AssetWriters :=
  mkAssetWriters failing_writer failing_writer failing_writer failing_writer.

Lemma add_asset_writer_raises_witness :
  run (_add_asset_to_store ex_failing_writers ex_table) ex_world =
    (Raise (OtherException "ValueError"),
     set_asset_mapping (default_mapping ex_failing_writers) ex_world).
Proof.
  apply (add_asset_writer_raises ex_failing_writers ex_table ex_world
           (mkPayload "DataFrame" "<table/>") failing_writer); try done. by right.
Defined.

Definition ex_appended : World AppendStore.t :=
  (build ex_writers pretty (AppendStore.mk "B64FileEntry" [] ∅) (Asset ex_table)).2.

Lemma append_store_revisit_witness :
  store_count (run (_add_asset_to_store ex_writers ex_table) ex_appended).2 =
    S (store_count ex_appended).
Proof. by apply (append_store_revisit ex_writers ex_table ex_appended ex_table_entry). Defined.
