(* ===== verification/Structure.v ===== *)
(** * The shape of the document

    [mirrors v b e]: the element [e] is the image of the block [b] in the
    state [v]: the same tree, block for element and in the same order, with
    the tag and the attributes of each block; every [Interactive] in the
    shape of its target with a name that has been handed out; every asset
    block as the element of the entry its slot holds in [v].

    The theorems: a visit that returns has appended one element, which
    mirrors the block in the state the visit leaves ([visit_mirrors]); the
    consequences for tags, for the order of the children and for the entries
    of the asset blocks; which trees without assets a visit returns for; the
    assertion of [View]; and the visit of an [Interactive] for each of its
    targets ([visit_Interactive_self], [visit_Interactive_group],
    [visit_Interactive_default]): the test of the target, the name taken
    and the element appended, attribute by attribute. *)

From S2P Require Import Prelude PyMonad PyDict Etree Blocks.
From S2P Require Import FileStore AssetWriters XMLBuilder Spec Refinement Examples.
From S2P Require Import Evolution Assets.

Section structure.
Context `{FileStore St} (aw : AssetWriters) (name_of : nat → string).
Implicit Types (w : World St) (v : Env St) (b : Block) (e : Element).
Implicit Types (x : AssetBlock).

Notation to_xml := (to_xml aw name_of).
Notation visit := (visit aw name_of).
Notation elems w := (elements (self w)).

Inductive mirrors (v : Env St) : Block → Element → Prop :=
| mirrors_base t a : mirrors v (BaseElement t a) (E t [] a)
| mirrors_container t a bs es :
    Forall2 (mirrors v) bs es → mirrors v (ContainerBlock t a bs) (E t es a)
| mirrors_view f bs es :
    Forall2 (mirrors v) bs es → mirrors v (View f bs) (E "View" es (mk_attribs f))
| mirrors_text t a c : mirrors v (EmbeddedTextBlock t a c) (E_text t (CDATA c) a)
| mirrors_named a c m :
    wants_name m = false →
    mirrors v (Interactive a c m) (interactive_element a c m "")
| mirrors_target a c m n :
    wants_name m = true → n < env_names v →
    mirrors v (Interactive a c m) (interactive_element a c m (name_of n))
| mirrors_asset x fe e :
    memo_hit x v = Some fe → asset_xml x fe = Return e → mirrors v (Asset x) e.

(** Every asset block of the tree has an entry it would reuse, and the
    element of that entry can be built. *)
Definition settled (b : Block) (v : Env St) : Prop :=
  ∀ x, x ∈ assets b → ∃ fe, memo_hit x v = Some fe ∧ dict_wf (asset_attrib x fe).

(** ** [mirrors] in later states *)

Lemma mirrors_mono v v' b e : evolves aw v v' → mirrors v b e → mirrors v' b e.
Proof.
  intros Hv. revert e.
  induction b as [t a|t a bs IH|f bs IH|t a c|a c m|x]; intros e;
    inversion 1; simplify_eq; try by constructor.
  - constructor. by eapply Forall2_impl_Forall.
  - constructor. by eapply Forall2_impl_Forall.
  - constructor; [done|]. pose proof (evolves_names _ _ _ Hv). lia.
  - econstructor; [|done]. by eapply evolves_memo.
Qed.

(** ** The element of the specification mirrors the block *)

Lemma to_xml_mirrors b at_start v e v' :
  run (to_xml at_start b) v = (Return e, v') → mirrors v' b e.
Proof.
  revert at_start v e v'.
  induction b as [t a|t a bs IH|f bs IH|t a c|a c m|x]; intros at_start v e v'.
  - intros [= <- <-]. constructor.
  - rw run_to_xml_container.
    destruct (run (collect _ _ _) v) as [[es|?] v1] eqn:Hbs; intros; simplify_eq.
    constructor. eapply (collect_Forall2_mono to_xml (evolves aw));
      eauto using mirrors_mono, to_xml_evolves.
  - rw run_to_xml_view. destruct at_start; [|done].
    destruct (run (collect _ _ _) v) as [[es|?] v1] eqn:Hbs; intros; simplify_eq.
    constructor. eapply (collect_Forall2_mono to_xml (evolves aw));
      eauto using mirrors_mono, to_xml_evolves.
  - intros [= <- <-]. constructor.
  - rw run_interactive_xml. destruct (wants_name m) eqn:Hm; intros [= <- <-].
    + constructor; simpl; [done | lia].
    + by constructor.
  - rw run_to_xml_asset.
    destruct (run (store_asset aw x) v) as [[fe|?] v1] eqn:Hx; intros; simplify_eq.
    econstructor; [|done]. by eapply store_asset_memoises.
Qed.

(** ** What [mirrors] says of tags and entries *)

Lemma tag_interactive_element a c m name :
  tag (interactive_element a c m name) = out_tag (Interactive a c m).
Proof. by destruct m. Qed.

Lemma mirrors_tag v b e : mirrors v b e → tag e = out_tag b.
Proof.
  destruct 1 as [| | | | | |x fe e _ He]; rw ?tag_interactive_element //.
  move: He. rw /asset_xml. case_match; intros; simplify_eq.
  by rw tag_set_caption.
Qed.

Lemma mirrors_settled v b e : mirrors v b e → settled b v.
Proof.
  revert e. induction b as [t a|t a bs IH|f bs IH|t a c|a c m|y]; intros e;
    inversion 1 as [| ? ? ? es Hes | ? ? es Hes | | | |]; simplify_eq/=; intros x;
    try (by intros ?%elem_of_nil).
  - intros (b & Hb & Hx)%elem_of_assets_join.
    destruct (Forall2_elem_of_l _ _ _ _ Hes Hb) as (e' & _ & He').
    rw Forall_forall in IH. by eapply IH.
  - intros (b & Hb & Hx)%elem_of_assets_join.
    destruct (Forall2_elem_of_l _ _ _ _ Hes Hb) as (e' & _ & He').
    rw Forall_forall in IH. by eapply IH.
  - intros ->%list_elem_of_singleton. eexists. split; [done|].
    by eapply asset_xml_Return.
Qed.

(** ** Trees without assets *)

(** Whether the specification has an element for a tree without assets does
    not depend on the state: it is whether the assertions pass. *)
Lemma to_xml_static b at_start v :
  assets b = [] → is_Return (run (to_xml at_start b) v).1 = asserts_ok at_start b.
Proof.
  revert at_start v.
  induction b as [t a|t a bs IH|f bs IH|t a c|a c m|x]; intros at_start v Hb;
    [done| | |done| |done].
  - rw run_to_xml_container /= -(collect_is_Return to_xml asserts_ok bs _ true v).
    { by destruct (run (collect _ _ _) v) as [[]]. }
    eapply Forall_impl2; [apply assets_join_nil, Hb | apply IH | auto].
  - rw run_to_xml_view /=. destruct at_start; [|done].
    rw /= -(collect_is_Return to_xml asserts_ok bs _ true v).
    { by destruct (run (collect _ _ _) v) as [[]]. }
    eapply Forall_impl2; [apply assets_join_nil, Hb | apply IH | auto].
  - rw run_interactive_xml. by destruct (wants_name m).
Qed.
End structure.

(** ** The theorems on visits *)

Section visits.
Context `{FileStore St} (aw : AssetWriters) (name_of : nat → string).
Implicit Types (w : World St) (b : Block) (e : Element) (x : AssetBlock).

Notation visit := (visit aw name_of).
Notation elems w := (elements (self w)).

(** C6. A visit that returns has appended exactly one element to the
    accumulator and left the elements before it as they were; the element
    mirrors the block in the state the visit leaves: the same tree in the
    same order, with the tags and attributes of the blocks, and for every
    asset block the element of the entry its slot holds. *)
Theorem visit_mirrors b w w' :
  run (visit b) w = (Return tt, w') →
  ∃ e, elems w' = elems w ++ [e] ∧ mirrors name_of (env_of w') b e.
Proof.
  intros (e & v & Hrun%to_xml_mirrors & ->)%visit_returns. exists e.
  by rw env_of_set_elements env_of_with_env.
Qed.

(** A corollary of [visit_mirrors] for containers: the element of a
    container has the tag and the attributes of the block and one child for
    every block of it, in the order of the blocks, each with the tag of its
    block. *)
Theorem visit_container_children t a bs w w' :
  run (visit (ContainerBlock t a bs)) w = (Return tt, w') →
  ∃ es, elems w' = elems w ++ [E t es a] ∧ tag <$> es = out_tag <$> bs.
Proof.
  intros (e & v & Hrun%to_xml_mirrors & ->)%visit_returns.
  inversion Hrun as [| ? ? ? es Hes | | | | |]; simplify_eq. exists es.
  split; [done|]. symmetry. eapply Forall2_fmap_eq, Hes.
  intros b e' ?. symmetry. by eapply mirrors_tag.
Qed.

(** C14. The document: a visit of a view by a fresh builder that returns
    leaves one element, with tag [View], the attributes [version="1"] and
    [fragment], and the mirrors of the blocks of the view as its children. *)
Theorem build_document s f bs w' :
  build aw name_of s (View f bs) = (Return tt, w') →
  ∃ es, document w' = Some (E "View" es (mk_attribs f)) ∧
        Forall2 (mirrors name_of (env_of w')) bs es.
Proof.
  rw /build. intros (e & v & Hrun%to_xml_mirrors & ->)%visit_returns.
  inversion Hrun as [| | ? ? es Hes | | | |]; simplify_eq. exists es.
  by rw env_of_set_elements env_of_with_env.
Qed.

(** C10. After a visit that returns, every asset block of the tree has an
    entry in its slot, and that entry is registered in the store, provided
    the slots and the store agreed before. *)
Theorem visit_assets_stored b w w' x :
  memo_ok (env_of w) → run (visit b) w = (Return tt, w') → x ∈ assets b →
  ∃ fe, prev_entry w' !! oid x = Some fe ∧
        hash fe ∈ hash <$> files (store (self w')).
Proof.
  intros Hok (e & v & Hrun & ->)%visit_returns Hx.
  pose proof (to_xml_memo_ok aw name_of b (bool_decide (elems w = [])) _ Hok) as Hok'.
  rw Hrun in Hok'.
  destruct (mirrors_settled name_of v b e) with x as (fe & Hfe & _);
    [by eapply to_xml_mirrors | done |].
  exists fe. split; [by apply memo_hit_Some in Hfe as [??] | by eapply Hok'].
Qed.

(** C24. A visit of a tree without asset blocks returns exactly when every
    [View] of the tree is the first block of its parent, and the root, if
    it is a [View], is visited with an empty accumulator. *)
Theorem visit_static b w :
  assets b = [] →
  is_Return (run (visit b) w).1 = asserts_ok (bool_decide (elems w = [])) b.
Proof.
  intros Hb. rw -(to_xml_static aw name_of b _ (env_of w) Hb).
  destruct (run (to_xml _ _ _ b) (env_of w)) as [[e|err] v] eqn:Hrun.
  - by rw (proj2 (visit_returns aw name_of b w _) (ex_intro _ e (ex_intro _ v (conj Hrun eq_refl)))).
  - by rw (proj2 (visit_raises aw name_of b w err)); [|rw Hrun].
Qed.

(** A view visited with an accumulator that is not empty fails its
    assertion before any of its blocks is visited: the state is as it was. *)
Theorem visit_View_asserts f bs w :
  elems w ≠ [] → run (visit (View f bs)) w = (Raise AssertionError, w).
Proof. intros Hw. by rw /= run_visit_View bool_decide_eq_false_2. Qed.

(** An [Interactive] never raises.  Its element is the one of its
    target, with the next name of the enumeration where the target is
    [SELF], [BELOW] or [SIDE], and then that name is taken. *)
Lemma visit_Interactive_run a c m w :
  run (visit (Interactive a c m)) w =
    (Return tt,
     set_elements (elems w ++ [interactive_element a c m (name_of (names w))])
       (if wants_name m then set_names (S (names w)) w else w)).
Proof. destruct w as [[]]. by destruct m. Qed.

(** C25. A container whose blocks return up to a block that raises: the
    exception leaves the container at once.  The blocks after it are not
    visited, and the accumulator is the one the failed block left: the
    elements of the blocks before it, not the elements the builder held
    when the container was entered. *)
Theorem visit_container_raises t a bs1 b bs2 w w1 err w2 :
  run (traverse visit bs1) (set_elements [] w) = (Return tt, w1) →
  run (visit b) w1 = (Raise err, w2) →
  run (visit (ContainerBlock t a (bs1 ++ b :: bs2))) w = (Raise err, w2).
Proof.
  intros H1 H2.
  by rw /= run_visit_ContainerBlock (traverse_raises _ _ _ _ _ _ _ _ H1 H2).
Qed.

(** C36. The visit of an [Interactive] whose target is [SELF].  It never
    raises; it takes the next name of [gen_name] and appends one element
    to the accumulator: tag [Interactive], no text, the controls as its one
    child, and the name taken as both [target] and [name], whatever the
    attributes of the block say for these two keys; every other attribute
    is the one of the block.  Nothing else of the state changes. *)
Theorem visit_Interactive_self a c w :
  ∃ e, run (visit (Interactive a c SELF)) w =
         (Return tt, set_elements (elems w ++ [e]) (set_names (S (names w)) w)) ∧
       tag e = "Interactive" ∧ text e = None ∧ children e = [c] ∧
       ∀ k, get_attr e k =
              if decide (k = "target" ∨ k = "name") then Some (name_of (names w))
              else dict_get k a.
Proof.
  rw visit_Interactive_run. eexists. split; [done|]. split_and!; [done..|].
  intros k. rw get_E dict_get_update /=; [|by apply (bool_decide_unpack _)].
  repeat case_decide; naive_solver.
Qed.

(** C37. The visit of an [Interactive] whose target is [BELOW] or [SIDE].
    It never raises; it takes the next name of [gen_name] and appends one
    element: a [Group] with [columns] 1 for [BELOW] and 2 for [SIDE] and
    two children.  The first is the control: tag [Interactive], the
    controls as its one child, the name taken as [target] whatever the
    block says for that key, every other attribute as the block has it (a
    [name] only if the block has one).  The second is a [Group] of one
    column that holds the placeholder, an [Empty] whose [name] is the name
    taken.  Nothing else of the state changes. *)
Theorem visit_Interactive_group a c m w :
  m = BELOW ∨ m = SIDE →
  ∃ i, run (visit (Interactive a c m)) w =
         (Return tt,
          set_elements
            (elems w ++
               [E "Group"
                  [i; E "Group" [E "Empty" [] [("name", name_of (names w))]]
                        [("columns", "1")]]
                  [("columns", if decide (m = BELOW) then "1" else "2")]])
            (set_names (S (names w)) w)) ∧
       tag i = "Interactive" ∧ text i = None ∧ children i = [c] ∧
       ∀ k, get_attr i k =
              if decide (k = "target") then Some (name_of (names w)) else dict_get k a.
Proof.
  intros Hm. rw visit_Interactive_run. eexists. split.
  { by destruct Hm as [->| ->]. }
  split_and!; [done..|]. intros k.
  rw get_E dict_get_update /=; [|by apply (bool_decide_unpack _)].
  repeat case_decide; naive_solver.
Qed.

(** C38. The visit of an [Interactive] with any other target.  It never
    raises and takes no name: it appends the element with tag
    [Interactive], the controls as its one child and the attributes of the
    block as they are, and changes nothing else. *)
Theorem visit_Interactive_default a c m w :
  m ≠ SELF → m ≠ BELOW → m ≠ SIDE →
  run (visit (Interactive a c m)) w =
    (Return tt, set_elements (elems w ++ [E "Interactive" [c] a]) w).
Proof. intros ???. rw visit_Interactive_run. by destruct m. Qed.
End visits.

Lemma visit_mirrors_witness :
  ∃ e, elements (self (ex_build ex_view).2) = [] ++ [e] ∧
       mirrors pretty (env_of (ex_build ex_view).2) ex_view e.
Proof. apply (visit_mirrors ex_writers pretty ex_view ex_world). by vm_compute. Defined.

Lemma visit_container_children_witness :
  ∃ es, elements (self (ex_build (ContainerBlock "Group" [] [Asset ex_table; Asset ex_file])).2) =
          [] ++ [E "Group" es []] ∧
        tag <$> es = out_tag <$> [Asset ex_table; Asset ex_file].
Proof.
  apply (visit_container_children ex_writers pretty "Group" [] _ ex_world).
  by vm_compute.
Defined.

Lemma build_document_witness :
  ∃ es, document (ex_build ex_view).2 = Some (E "View" es (mk_attribs true)) ∧
        Forall2 (mirrors pretty (env_of (ex_build ex_view).2))
          match ex_view with View _ bs => bs | _ => [] end es.
Proof. apply (build_document ex_writers pretty ex_store). by vm_compute. Defined.

Lemma visit_assets_stored_witness :
  ∃ fe, prev_entry (ex_build ex_view).2 !! oid ex_file = Some fe ∧
        hash (St:=ListStore.t) fe ∈
          hash (St:=ListStore.t) <$> files (store (self (ex_build ex_view).2)).
Proof.
  apply (visit_assets_stored ex_writers pretty ex_view ex_world);
    [apply new_world_memo_ok | by vm_compute | by vm_compute; repeat constructor].
Defined.

Lemma visit_static_witness :
  is_Return (run (visit ex_writers pretty ex_minimal) ex_world).1 =
    asserts_ok (bool_decide (elements (self ex_world) = [])) ex_minimal.
Proof. by apply (visit_static ex_writers pretty ex_minimal ex_world). Defined.

Lemma visit_View_asserts_witness :
  run (visit ex_writers pretty (View false []))
      (set_elements [E "Divider" [] []] ex_world) =
    (Raise AssertionError, set_elements [E "Divider" [] []] ex_world).
Proof. by apply (visit_View_asserts ex_writers pretty). Defined.

Lemma visit_container_raises_witness :
  run (visit ex_writers pretty
         (ContainerBlock "Group" []
            ([BaseElement "Divider" []] ++ Asset ex_empty :: [BaseElement "Divider" []])))
      (set_elements [E "Text" [] []] ex_world) =
    (Raise (DPClientError "No asset to add"),
     set_elements [E "Divider" [] []] ex_world).
Proof.
  by apply (visit_container_raises ex_writers pretty "Group" [] _ _ _ _
              (set_elements [E "Divider" [] []] ex_world)).
Defined.

(** An [Interactive] that names a target of its own, with each of the
    three kinds of target. *)
Definition ex_attrs : dict := [("target", "mine"); ("function_id", "f")].

Lemma visit_Interactive_self_witness :
  ∃ e, run (visit ex_writers pretty (Interactive ex_attrs ex_controls SELF)) ex_world =
         (Return tt,
          set_elements (elements (self ex_world) ++ [e])
            (set_names (S (names ex_world)) ex_world)) ∧
       tag e = "Interactive" ∧ text e = None ∧ children e = [ex_controls] ∧
       ∀ k, get_attr e k =
              if decide (k = "target" ∨ k = "name") then Some (pretty (names ex_world))
              else dict_get k ex_attrs.
Proof. apply (visit_Interactive_self ex_writers pretty ex_attrs ex_controls ex_world). Defined.

Lemma visit_Interactive_group_witness :
  ∃ i, run (visit ex_writers pretty (Interactive ex_attrs ex_controls SIDE)) ex_world =
         (Return tt,
          set_elements
            (elements (self ex_world) ++
               [E "Group"
                  [i; E "Group" [E "Empty" [] [("name", pretty (names ex_world))]]
                        [("columns", "1")]]
                  [("columns", if decide (SIDE = BELOW) then "1" else "2")]])
            (set_names (S (names ex_world)) ex_world)) ∧
       tag i = "Interactive" ∧ text i = None ∧ children i = [ex_controls] ∧
       ∀ k, get_attr i k =
              if decide (k = "target") then Some (pretty (names ex_world))
              else dict_get k ex_attrs.
Proof.
  apply (visit_Interactive_group ex_writers pretty ex_attrs ex_controls SIDE ex_world).
  by right.
Defined.

Lemma visit_Interactive_default_witness :
  run (visit ex_writers pretty (Interactive ex_attrs ex_controls (NAMED "plot"))) ex_world =
    (Return tt,
     set_elements (elements (self ex_world) ++ [E "Interactive" [ex_controls] ex_attrs])
       ex_world).
Proof.
  by apply (visit_Interactive_default ex_writers pretty ex_attrs ex_controls (NAMED "plot")).
Defined.

(** A view that is the first block of a group is taken as any container:
    the document holds a [View] inside the [Group]. *)
Example ex_nested_view :
  (ex_build (View false [ContainerBlock "Group" [] [View true []]])).1 = Return tt ∧
  document (ex_build (View false [ContainerBlock "Group" [] [View true []]])).2 =
    Some (E "View" [E "Group" [E "View" [] (mk_attribs true)] []] (mk_attribs false)).
Proof. by vm_compute. Qed.
