(* ===== verification/Render.v ===== *)
(** * The document as a function of the tree

    [render v n b] is the element of the block [b] computed without a
    builder: the names are the ones of the enumeration from [n] on, one for
    every [Interactive] that wants one, in document order; the element of an
    asset block is the one of the entry its slot holds in [v].

    [visit_renders]: the element a visit appends is [render] of the block,
    with the names from the counter before the visit and the slots after
    it.  [visit_rerun]: with a store that deduplicates, a second traversal
    of the tree by a new builder on the same store returns the document
    again, with later names, and changes neither the store nor the slots
    nor the registry. *)

From S2P Require Import Prelude PyMonad PyDict Etree Blocks.
From S2P Require Import FileStore AssetWriters XMLBuilder Spec Refinement Examples.
From S2P Require Import Evolution Assets Structure.

Section render.
Context `{FileStore St} (aw : AssetWriters) (name_of : nat → string).
Implicit Types (w : World St) (v : Env St) (b : Block) (e : Element).
Implicit Types (x : AssetBlock) (n k : nat).

Notation to_xml := (to_xml aw name_of).
Notation visit := (visit aw name_of).
Notation elems w := (elements (self w)).

(** The element of an asset block whose slot holds an entry of the class of
    the store. *)
Definition render_asset (v : Env St) (x : AssetBlock) : Element :=
  match memo_hit x v with
  | Some fe => set_caption x (E (asset_tag x) [] (asset_attrib x fe))
  | None => E (asset_tag x) [] []
  end.

Fixpoint render (v : Env St) (n : nat) (b : Block) : Element :=
  match b with
  | BaseElement t a => E t [] a
  | ContainerBlock t a bs => E t (thread (render v) names_used n bs) a
  | View f bs => E "View" (thread (render v) names_used n bs) (mk_attribs f)
  | EmbeddedTextBlock t a c => E_text t (CDATA c) a
  | Interactive a c m => interactive_element a c m (name_of n)
  | Asset x => render_asset v x
  end.

(** The state with [k] more names taken. *)
Definition advance (k : nat) (v : Env St) : Env St :=
  mkEnv (env_store v) (env_prev v) (env_mapping v) (env_names v + k).

(** ** [render] *)

Lemma interactive_element_named a c m name name' :
  wants_name m = false →
  interactive_element a c m name = interactive_element a c m name'.
Proof. by destruct m. Qed.

(** [render] reads the state only at the slots of the asset blocks of the
    tree. *)
Lemma render_ext v v' n b :
  (∀ x, x ∈ assets b → memo_hit x v' = memo_hit x v) →
  render v' n b = render v n b.
Proof.
  revert n. induction b as [t a|t a bs IH|f bs IH|t a c|a c m|x]; intros n Hx;
    simpl; try done.
  - f_equal. apply thread_ext. rw !Forall_forall in IH |- *. intros b Hb k.
    apply IH; [done|]. intros x ?. apply Hx, elem_of_assets_join. eauto.
  - f_equal. apply thread_ext. rw !Forall_forall in IH |- *. intros b Hb k.
    apply IH; [done|]. intros x ?. apply Hx, elem_of_assets_join. eauto.
  - rw /render_asset Hx //. by left.
Qed.

(** A tree that takes no name has the same element from every counter. *)
Lemma render_names_free v n n' b : names_used b = 0 → render v n b = render v n' b.
Proof.
  revert n n'. induction b as [t a|t a bs IH|f bs IH|t a c|a c m|x]; intros n n';
    simpl; try done.
  - intros H0%sum_list_fmap_0. f_equal. rw !thread_free //.
    apply Forall_fmap_ext_1. eapply Forall_impl2; [apply IH | apply H0 | auto].
  - intros H0%sum_list_fmap_0. f_equal. rw !thread_free //.
    apply Forall_fmap_ext_1. eapply Forall_impl2; [apply IH | apply H0 | auto].
  - destruct (wants_name m) eqn:Hm; [done|]. intros _.
    by apply interactive_element_named.
Qed.

(** ** The element of the specification is [render] *)

Lemma to_xml_render b at_start v0 e v :
  run (to_xml at_start b) v0 = (Return e, v) →
  ∀ v', evolves aw v v' → e = render v' (env_names v0) b.
Proof.
  revert at_start v0 e v.
  induction b as [t a|t a bs IH|f bs IH|t a c|a c m|x]; intros at_start v0 e v.
  - by intros [= <- <-].
  - rw run_to_xml_container.
    destruct (run (collect _ _ _) v0) as [[es|?] v1] eqn:Hbs; intros ? v' ?; simplify_eq/=.
    f_equal. eapply (collect_thread to_xml (evolves aw) env_names names_used render);
      eauto using to_xml_evolves, to_xml_names.
  - rw run_to_xml_view. destruct at_start; [|done].
    destruct (run (collect _ _ _) v0) as [[es|?] v1] eqn:Hbs; intros ? v' ?; simplify_eq/=.
    f_equal. eapply (collect_thread to_xml (evolves aw) env_names names_used render);
      eauto using to_xml_evolves, to_xml_names.
  - by intros [= <- <-].
  - rw run_interactive_xml. destruct (wants_name m) eqn:Hm; intros [= <- <-] v' _;
      [done | by apply interactive_element_named].
  - rw run_to_xml_asset.
    destruct (run (store_asset aw x) v0) as [[fe|?] v1] eqn:Hx; intros He v' Hv'; simplify_eq.
    rw /= /render_asset (evolves_memo _ _ _ Hv' x fe (store_asset_memoises _ _ _ _ _ Hx)).
    by assert (asset_xml x fe = Return e) as [_ ->]%asset_xml_Return.
Qed.

(** The specification has an element only for a tree whose views pass
    their assertions. *)
Lemma to_xml_returns_asserts b at_start v e v' :
  run (to_xml at_start b) v = (Return e, v') → asserts_ok at_start b = true.
Proof.
  revert at_start v e v'.
  induction b as [t a|t a bs IH|f bs IH|t a c|a c m|x]; intros at_start v e v';
    try done.
  - rw run_to_xml_container.
    destruct (run (collect _ _ _) v) as [[es|?] v1] eqn:Hbs; [|done]. intros _.
    by eapply (collect_returns_all_first to_xml asserts_ok).
  - rw run_to_xml_view. destruct at_start; [|done].
    destruct (run (collect _ _ _) v) as [[es|?] v1] eqn:Hbs; [|done]. intros _.
    by eapply (collect_returns_all_first to_xml asserts_ok).
Qed.

(** ** A tree whose assets are stored *)

Lemma advance_0 v : advance 0 v = v.
Proof. destruct v. by rw /advance /= Nat.add_0_r. Qed.

Lemma advance_add j k v : advance k (advance j v) = advance (j + k) v.
Proof. by rw /advance /= Nat.add_assoc. Qed.

Lemma render_advance k v n b : render (advance k v) n b = render v n b.
Proof. by apply render_ext. Qed.

Lemma settled_cons b bs v :
  (∀ b', b' ∈ b :: bs → settled b' v) ↔ settled b v ∧ ∀ b', b' ∈ bs → settled b' v.
Proof. setoid_rewrite elem_of_cons. naive_solver. Qed.

Lemma settled_blocks bs v :
  (∀ x, x ∈ mjoin (assets <$> bs) → ∃ fe, memo_hit x v = Some fe ∧
                                          dict_wf (asset_attrib x fe)) →
  ∀ b, b ∈ bs → settled b v.
Proof. intros Hbs b Hb x Hx. apply Hbs, elem_of_assets_join. eauto. Qed.

(** A list of blocks whose assets are stored, in a store that
    deduplicates: every block returns its [render] and only takes names. *)
Lemma collect_complete bs :
  Forall (λ b, ∀ at_start v, asserts_ok at_start b = true → memo_ok v → settled b v →
    run (to_xml at_start b) v =
      (Return (render v (env_names v) b), advance (names_used b) v)) bs →
  ∀ first v, all_first asserts_ok first bs = true → memo_ok v →
    (∀ b, b ∈ bs → settled b v) →
    run (collect to_xml first bs) v =
      (Return (thread (render v) names_used (env_names v) bs),
       advance (sum_list (names_used <$> bs)) v).
Proof.
  induction 1 as [|b bs Hb _ IH]; intros first v.
  { intros _ _ _. by rw run_collect_nil /= advance_0. }
  rw /= andb_true_iff settled_cons. intros [Hfirst Hrest] Hok [Hsb Hsbs].
  rw run_collect_cons Hb // IH //= ?advance_add //. do 3 f_equal.
  apply thread_ext, Forall_true. intros b' k. apply render_advance.
Qed.

Lemma to_xml_complete `{!DedupStore St} b at_start v :
  asserts_ok at_start b = true → memo_ok v → settled b v →
  run (to_xml at_start b) v =
    (Return (render v (env_names v) b), advance (names_used b) v).
Proof.
  revert at_start v.
  induction b as [t a|t a bs IH|f bs IH|t a c|a c m|x]; intros at_start v Ha Hok Hs.
  - by rw /= advance_0.
  - rw run_to_xml_container (collect_complete bs IH) //. by apply settled_blocks.
  - move: Ha. rw /= andb_true_iff. intros [-> Ha].
    rw run_to_xml_view (collect_complete bs IH) //. by apply settled_blocks.
  - by rw /= advance_0.
  - rw run_interactive_xml /=. destruct (wants_name m) eqn:Hm.
    + by rw /advance Nat.add_1_r.
    + by rw advance_0 (interactive_element_named a c m "" (name_of (env_names v))).
  - destruct (Hs x) as (fe & Hfe & Hwf); [by left|].
    rw run_to_xml_asset (store_asset_hit aw x v fe) // advance_0 /= /render_asset Hfe.
    by rw (proj2 (asset_xml_Return x fe _) (conj Hwf eq_refl)).
Qed.

(** A visit of a tree whose assets are stored: it returns, appends the
    [render] of the tree, takes its names and changes nothing else. *)
Lemma visit_settled `{!DedupStore St} b w :
  asserts_ok (bool_decide (elems w = [])) b = true →
  memo_ok (env_of w) → settled b (env_of w) →
  run (visit b) w =
    (Return tt, set_elements (elems w ++ [render (env_of w) (names w) b])
                  (set_names (names w + names_used b) w)).
Proof.
  intros Ha Hok Hs. apply visit_returns. do 2 eexists.
  split; [by apply to_xml_complete|]. by destruct w as [[]].
Qed.

(** What a visit that returned leaves: the assertions passed, the slots
    agree with the store, and every asset of the tree is stored. *)
Lemma visit_settles b w w' :
  memo_ok (env_of w) → run (visit b) w = (Return tt, w') →
  asserts_ok (bool_decide (elems w = [])) b = true ∧
  memo_ok (env_of w') ∧ settled b (env_of w').
Proof.
  intros Hok (e & v & Hrun & ->)%visit_returns.
  rw env_of_set_elements env_of_with_env. split_and!.
  - by eapply to_xml_returns_asserts.
  - pose proof (to_xml_memo_ok aw name_of b (bool_decide (elems w = [])) _ Hok) as Hv.
    by rw Hrun in Hv.
  - eapply mirrors_settled, to_xml_mirrors, Hrun.
Qed.
End render.

(** ** The theorems *)

Section reruns.
Context `{FileStore St} (aw : AssetWriters) (name_of : nat → string).
Implicit Types (w : World St) (b : Block) (e : Element).

Notation visit := (visit aw name_of).
Notation elems w := (elements (self w)).

(** C2. The document a visit builds is a function of the tree: the element
    a visit appends is [render] of the block, with the names of the
    enumeration from the counter before the visit on, in document order,
    and for every asset block the element of the entry its slot holds
    after the visit. *)
Theorem visit_renders b w w' :
  run (visit b) w = (Return tt, w') →
  elems w' = elems w ++ [render name_of (env_of w') (names w) b].
Proof.
  intros (e & v & Hrun & ->)%visit_returns.
  rw env_of_set_elements env_of_with_env /=. do 2 f_equal.
  by apply (to_xml_render aw name_of b _ (env_of w) e v Hrun v).
Qed.

(** A second traversal.  With a store that deduplicates, after a visit
    that returned, a visit of the same tree by a new builder on the same
    store (an accumulator that is empty if the first one was) returns; it
    appends the document again, with the names that follow; the store, the
    slots and the registry are as the first visit left them: nothing is
    written twice. *)
Theorem visit_rerun `{!DedupStore St} b w w1 acc :
  memo_ok (env_of w) → run (visit b) w = (Return tt, w1) →
  (acc = [] ↔ elems w = []) →
  run (visit b) (set_elements acc w1) =
    (Return tt, set_elements (acc ++ [render name_of (env_of w1) (names w1) b])
                  (set_names (names w1 + names_used b) w1)).
Proof.
  intros Hok Hrun Hacc. destruct (visit_settles aw name_of b w w1) as (Ha & Hok1 & Hs);
    [done..|].
  rw (visit_settled aw name_of b (set_elements acc w1)) //.
  by rw /= (bool_decide_ext _ _ Hacc).
Qed.

(** C13. The same document.  With a store that deduplicates, from a state
    in which the entries the blocks would reuse are registered in the store
    ([memo_ok], which holds in a new program): if the tree takes no name
    and a visit of it has returned, a visit of it by a new builder on the
    store (with the accumulator the first one started with) returns and
    appends the very element the first one appended, every [src] and every
    attribute the same, and leaves the state as the first visit left it. *)
Theorem visit_rerun_same `{!DedupStore St} b w w1 :
  memo_ok (env_of w) → names_used b = 0 → run (visit b) w = (Return tt, w1) →
  ∃ e, elems w1 = elems w ++ [e] ∧
       run (visit b) (set_elements (elems w) w1) =
         (Return tt, set_elements (elems w ++ [e]) w1).
Proof.
  intros Hok Hn Hrun. destruct (visit_settles aw name_of b w w1) as (Ha & Hok1 & Hs);
    [done..|].
  exists (render name_of (env_of w1) (names w1) b). split.
  - apply visit_returns in Hrun as (e & v & Hrun & ->).
    rw env_of_set_elements env_of_with_env /=. do 2 f_equal.
    rw (render_names_free name_of v _ (env_names (env_of w))) //.
    by apply (to_xml_render aw name_of b _ (env_of w) e v Hrun v).
  - rw (visit_settled aw name_of b (set_elements (elems w) w1)) // Hn Nat.add_0_r.
    by destruct w1 as [[]].
Qed.
End reruns.

Lemma visit_renders_witness :
  elements (self (ex_build ex_view).2) =
    [] ++ [render pretty (env_of (ex_build ex_view).2) 0 ex_view].
Proof. apply (visit_renders ex_writers pretty ex_view ex_world). by vm_compute. Defined.

Lemma visit_rerun_witness :
  run (visit ex_writers pretty ex_view) (set_elements [] (ex_build ex_view).2) =
    (Return tt,
     set_elements ([] ++ [render pretty (env_of (ex_build ex_view).2)
                            (names (ex_build ex_view).2) ex_view])
       (set_names (names (ex_build ex_view).2 + names_used ex_view) (ex_build ex_view).2)).
Proof.
  apply (visit_rerun ex_writers pretty ex_view ex_world);
    [apply new_world_memo_ok | by vm_compute | done].
Defined.

(** A view with three asset blocks, the table twice, that takes no name. *)
Definition ex_report : Block :=
  View false
    [ContainerBlock "Group" [] [Asset ex_table; Asset ex_file];
     Asset ex_table].

Lemma visit_rerun_same_witness :
  ∃ e, elements (self (ex_build ex_report).2) = [] ++ [e] ∧
       run (visit ex_writers pretty ex_report) (set_elements [] (ex_build ex_report).2) =
         (Return tt, set_elements ([] ++ [e]) (ex_build ex_report).2).
Proof.
  apply (visit_rerun_same ex_writers pretty ex_report ex_world);
    [apply new_world_memo_ok | done | by vm_compute].
Defined.
