(* ===== verification/Registry.v ===== *)
(** * The registry of writers, as its callers see it

    [get_writer] on the module-level dictionary [asset_mapping]: the first
    call fills an empty registry with the four writers, a registry that
    holds anything is left as it is, and a class without a writer is a
    [KeyError]. *)

From S2P Require Import Prelude PyMonad PyDict Etree Blocks.
From S2P Require Import FileStore AssetWriters XMLBuilder Spec Refinement Examples.

Section registry.
Context (aw : AssetWriters).
Implicit Types (m : gmap AssetKind AssetWriterP) (b : AssetBlock).

(** A call in full: the outcome and the registry. *)
Lemma run_get_writer b m :
  run (get_writer aw b) m =
    (match (if decide (m = ∅) then default_mapping aw else m) !! kind b with
     | Some wr => Return wr
     | None => Raise (KeyError (kind_name (kind b)))
     end,
     if decide (m = ∅) then default_mapping aw else m).
Proof.
  rw -get_writer_result -(get_writer_mapping aw b). by destruct (run _ m).
Qed.

(** A program that only calls [get_writer] keeps the registry empty or
    filled with the four writers. *)
Lemma get_writer_ok b m : mapping_ok aw m → mapping_ok aw (run (get_writer aw b) m).2.
Proof.
  rw get_writer_mapping. intros Hok. case_decide; [by right | done].
Qed.

(** The first call, on the empty registry of a fresh program, fills
    the registry with the writers of [Plot], [Table], [DataTable] and
    [Attachment], and returns the writer of the class of the block; a block
    of another class is a [KeyError] that names the class. *)
Theorem get_writer_fills b :
  run (get_writer aw b) asset_mapping_init =
    (match kind b with
     | Plot => Return (PlotWriter aw)
     | Table => Return (HTMLTableWriter aw)
     | DataTable => Return (DataTableWriter aw)
     | Attachment => Return (AttachmentWriter aw)
     | OtherAsset cls => Raise (KeyError cls)
     end, default_mapping aw).
Proof. rw run_get_writer /= default_mapping_lookup. by destruct (kind b). Qed.

(** C35. A registry that is not empty is never filled: a writer
    registered before the first call keeps the four writers out, and a
    block of one of the four classes is then a [KeyError]. *)
Theorem get_writer_custom b m :
  m ≠ ∅ →
  run (get_writer aw b) m =
    (match m !! kind b with
     | Some wr => Return wr
     | None => Raise (KeyError (kind_name (kind b)))
     end, m).
Proof. intros Hm. by rw run_get_writer decide_False. Qed.

(** After one call the registry does not change again, whatever the
    blocks of the calls are and whether the calls return. *)
Theorem get_writer_idem b b' m :
  (run (get_writer aw b') (run (get_writer aw b) m).2).2 = (run (get_writer aw b) m).2.
Proof.
  rw !get_writer_mapping.
  by destruct (decide (m = ∅)) as [->|Hm]; simpl; case_decide.
Qed.
End registry.

Lemma get_writer_custom_witness :
  run (get_writer ex_writers ex_table) {[OtherAsset "Media" := frame_writer]} =
    (Raise (KeyError "Table"), {[OtherAsset "Media" := frame_writer]}).
Proof.
  refine (get_writer_custom ex_writers ex_table {[OtherAsset "Media" := frame_writer]} _).
  apply insert_non_empty.
Defined.
