(* ===== verification/Machine.v ===== *)
(** * The visitor as a machine with a stack

    [visit] is recursive: the method of a container or of a view calls
    [visit] for each of its blocks and goes on after the last of them has
    returned.  This file spells the recursion out as a machine that makes
    one move at a time: it enters a method, hands the next block of the
    activation on top of the stack to [visit], or leaves a method.  An
    activation holds what the method keeps in its local variables while its
    blocks are visited ([cur_elemnts] and the block), and the blocks
    [traverse] has not reached yet.  An exception ends the run with the
    stack as it is: no method of the class catches anything a visit of a
    block raises.

    - [exec_visit]: run to the end of a call, the machine does what
      [visit] does.
    - [machine_terminates]: from a call of [visit b] with no caller the
      machine halts after at most [S (cost b)] moves with the result of
      [visit b].
    - [machine_depth]: the stack never holds more than [depth b] activations
      of [visit], and holds that many at some point when the visit
      returns. *)

From S2P Require Import Prelude PyMonad PyDict Etree Blocks.
From S2P Require Import FileStore AssetWriters XMLBuilder Refinement Examples.

Section machine.
Context `{FileStore St} (aw : AssetWriters) (name_of : nat → string).

Notation elems w := (elements (self w)).
Notation visit := (visit aw name_of).

(** The local variables of a method that is waiting for its blocks. *)
Inductive Frame : Type :=
| ContainerFrame (cur_elemnts : list Element) (_tag : string) (_attributes : dict)
| ViewFrame (fragment : bool).

(** An activation: the frame, and the blocks still to visit. *)
Record Activation : Type := mkActivation { frame : Frame; todo : list Block }.

Inductive Machine : Type :=
| Call (b : Block) (k : list Activation) (w : World St)
| Resume (k : list Activation) (w : World St)
| Done (r : Outcome unit * World St).

(** The machine after a method without blocks has run. *)
Definition after (r : Outcome unit * World St) (k : list Activation) : Machine :=
  match r with
  | (Return _, w') => Resume k w'
  | (Raise e, w') => Done (Raise e, w')
  end.

(** A call of [visit]: the method of the class of the block, up to its call
    of [traverse]. *)
Definition enter (b : Block) (k : list Activation) (w : World St) : Machine :=
  match b with
  | BaseElement t a => after (run (visit_BaseElement t a) w) k
  | ContainerBlock t a bs =>
      Resume (mkActivation (ContainerFrame (elems w) t a) bs :: k) (set_elements [] w)
  | View f bs =>
      if bool_decide (length (elems w) = 0)
      then Resume (mkActivation (ViewFrame f) bs :: k) w
      else Done (Raise AssertionError, w)
  | EmbeddedTextBlock t a c => after (run (visit_EmbeddedTextBlock t a c) w) k
  | Interactive a c m => after (run (visit_Interactive name_of a c m) w) k
  | Asset x => after (run (visit_AssetBlock aw x) w) k
  end.

(** The rest of a method, after [traverse] has returned. *)
Definition leave (fr : Frame) (w : World St) : World St :=
  match fr with
  | ContainerFrame cur_elemnts t a =>
      let element := E t (elems w) a in
      set_elements (cur_elemnts ++ [element]) w
  | ViewFrame f =>
      let view_doc := E "View" (elems w) (mk_attribs f) in
      set_elements [view_doc] w
  end.

(** One move. *)
Definition step (m : Machine) : Machine :=
  match m with
  | Call b k w => enter b k w
  | Resume [] w => Done (Return tt, w)
  | Resume (mkActivation fr [] :: k) w => Resume k (leave fr w)
  | Resume (mkActivation fr (b :: bs) :: k) w => Call b (mkActivation fr bs :: k) w
  | Done r => Done r
  end.

Fixpoint exec (n : nat) (m : Machine) : Machine :=
  match n with
  | 0 => m
  | S n => exec n (step m)
  end.

(** The activations of [visit] on the stack: the callers and, at a call,
    the callee. *)
Definition height (m : Machine) : nat :=
  match m with
  | Call _ k _ => S (length k)
  | Resume k _ => length k
  | Done _ => 0
  end.

(** The greatest height in the first [n] moves. *)
Fixpoint peak (n : nat) (m : Machine) : nat :=
  match n with
  | 0 => height m
  | S n => height m `max` peak n (step m)
  end.

(** The moves of a visit that returns: one for a method without blocks;
    for a container or a view one to enter, one to leave, and one for every
    block to call it. *)
Fixpoint cost (b : Block) : nat :=
  match b with
  | ContainerBlock _ _ bs | View _ bs => 2 + length bs + sum_list (cost <$> bs)
  | _ => 1
  end.

(** The depth of a tree: the blocks on its longest path. *)
Fixpoint depth (b : Block) : nat :=
  match b with
  | ContainerBlock _ _ bs | View _ bs => S (max_list (depth <$> bs))
  | _ => 1
  end.

(** ** Runs *)

Lemma exec_add n k m : exec (n + k) m = exec k (exec n m).
Proof. revert m. induction n as [|n IH]; intros m; [done|]. apply IH. Qed.

Lemma exec_Done n r : exec n (Done r) = Done r.
Proof. by induction n. Qed.

Lemma peak_add n k m : peak (n + k) m = peak n m `max` peak k (exec n m).
Proof.
  revert m. induction n as [|n IH]; intros m; simpl.
  - destruct k; simpl; lia.
  - rw IH. lia.
Qed.

Lemma peak_Done n r : peak n (Done r) = 0.
Proof. induction n as [|n IH]; [done|]. by rw /= IH. Qed.

Lemma depth_pos b : 0 < depth b.
Proof. destruct b; simpl; lia. Qed.

(** The blocks of an activation, one after the other. *)
Lemma exec_todo fr bs k :
  Forall (λ b, ∀ k w, exec (cost b) (Call b k w) = after (run (visit b) w) k) bs →
  ∀ w, exec (length bs + sum_list (cost <$> bs)) (Resume (mkActivation fr bs :: k) w) =
         after (run (traverse visit bs) w) (mkActivation fr [] :: k).
Proof.
  induction 1 as [|b bs Hb _ IH]; intros w; [done|].
  replace (length (b :: bs) + sum_list (cost <$> b :: bs))
    with (1 + (cost b + (length bs + sum_list (cost <$> bs)))) by (csimpl; lia).
  rw 2!exec_add /= Hb run_traverse_cons.
  destruct (run (visit b) w) as [[[]|e] w1]; [apply IH | apply exec_Done].
Qed.

(** A call, run to its end, is the method. *)
Lemma exec_visit b k w : exec (cost b) (Call b k w) = after (run (visit b) w) k.
Proof.
  revert k w. induction b as [t a|t a bs IH|f bs IH|t a c|a c m|x]; intros k w;
    try done.
  - replace (cost (ContainerBlock t a bs))
      with (1 + (length bs + sum_list (cost <$> bs) + 1)) by (simpl; lia).
    rw 2!exec_add /= (exec_todo _ bs k IH) run_visit_ContainerBlock.
    by destruct (run (traverse visit bs) _) as [[[]|e] w1].
  - replace (cost (View f bs))
      with (1 + (length bs + sum_list (cost <$> bs) + 1)) by (simpl; lia).
    rw 2!exec_add /= run_visit_View bool_decide_length_0.
    case_bool_decide; [|by rw exec_Done].
    rw (exec_todo _ bs k IH). by destruct (run (traverse visit bs) _) as [[[]|e] w1].
Qed.

Lemma exec_blocks fr bs k w :
  exec (length bs + sum_list (cost <$> bs)) (Resume (mkActivation fr bs :: k) w) =
    after (run (traverse visit bs) w) (mkActivation fr [] :: k).
Proof. apply exec_todo, Forall_true. intros b. apply exec_visit. Qed.

(** ** The height of the stack *)

(** In its first [n] moves the machine stays below [h], and gets to [h] if
    [returns] holds. *)
Definition reaches (n : nat) (m : Machine) (h : nat) (returns : bool) : Prop :=
  peak n m ≤ h ∧ (returns = true → h ≤ peak n m).

Lemma peak_todo fr bs k :
  Forall (λ b, ∀ k w, reaches (cost b) (Call b k w) (length k + depth b)
                        (is_Return (run (visit b) w).1)) bs →
  ∀ w, reaches (length bs + sum_list (cost <$> bs)) (Resume (mkActivation fr bs :: k) w)
         (S (length k) + max_list (depth <$> bs))
         (is_Return (run (traverse visit bs) w).1).
Proof.
  induction 1 as [|b bs Hb _ IH]; intros w; [rw /reaches /=; lia|].
  replace (length (b :: bs) + sum_list (cost <$> b :: bs))
    with (1 + (cost b + (length bs + sum_list (cost <$> bs)))) by (csimpl; lia).
  rw /reaches 2!peak_add exec_visit run_traverse_cons. csimpl.
  destruct (Hb (mkActivation fr bs :: k) w) as [Hle Hge]. pose proof (depth_pos b).
  destruct (run (visit b) w) as [[[]|e] w1]; simpl in *.
  - destruct (IH w1) as [Hle' Hge']. split; [lia|].
    intros Hr. specialize (Hge eq_refl). specialize (Hge' Hr). lia.
  - rw peak_Done. split; [lia|done].
Qed.

Lemma peak_visit b k w :
  reaches (cost b) (Call b k w) (length k + depth b) (is_Return (run (visit b) w).1).
Proof.
  revert k w. induction b as [t a|t a bs IH|f bs IH|t a c|a c m|x]; intros k w.
  1, 4: rw /reaches /=; lia.
  3, 4: rw /reaches /=; destruct (run (A := unit) _ w) as [[[]|e] w1]; simpl; lia.
  - replace (cost (ContainerBlock t a bs))
      with (1 + (length bs + sum_list (cost <$> bs) + 1)) by (simpl; lia).
    rw /reaches 2!peak_add /= exec_blocks run_visit_ContainerBlock.
    destruct (peak_todo (ContainerFrame (elems w) t a) bs k IH (set_elements [] w))
      as [Hle Hge].
    destruct (run (traverse visit bs) _) as [[[]|e] w1]; simpl in *.
    + specialize (Hge eq_refl). split; lia.
    + split; [lia|done].
  - replace (cost (View f bs))
      with (1 + (length bs + sum_list (cost <$> bs) + 1)) by (simpl; lia).
    rw /reaches 2!peak_add /= run_visit_View bool_decide_length_0.
    case_bool_decide; [|rw exec_Done !peak_Done /=; split; [lia|done] ].
    rw exec_blocks.
    destruct (peak_todo (ViewFrame f) bs k IH w) as [Hle Hge].
    destruct (run (traverse visit bs) _) as [[[]|e] w1]; simpl in *.
    + specialize (Hge eq_refl). split; lia.
    + split; [lia|done].
Qed.
End machine.

(** ** The theorems *)

Section theorems.
Context `{FileStore St} (aw : AssetWriters) (name_of : nat → string).
Implicit Types (w : World St) (b : Block).

Notation visit := (visit aw name_of).

(** C7. The machine terminates with the result of the method: from a call
    of [visit] on a block [b] with no caller, after [S (cost b)] moves (or
    any greater number) the machine has halted, with the outcome and the
    state of [visit b].  Stepping through the methods, frames and all, is
    the recursive definition. *)
Theorem machine_terminates b w n :
  exec aw name_of (S (cost b) + n) (Call b [] w) = Done (run (visit b) w).
Proof.
  rw -Nat.add_1_r -Nat.add_assoc exec_add exec_visit.
  destruct (run (visit b) w) as [[[]|e] w']; apply exec_Done.
Qed.

(** C17. The depth of the recursion is the depth of the tree: during a visit
    of a tree [b] there are never more than [depth b] activations of
    [visit], and when the visit returns there were that many at some
    point. *)
Theorem machine_depth b w :
  peak aw name_of (S (cost b)) (Call b [] w) ≤ depth b ∧
  (is_Return (run (visit b) w).1 = true →
   peak aw name_of (S (cost b)) (Call b [] w) = depth b).
Proof.
  destruct (peak_visit aw name_of b [] w) as [Hle Hge].
  rw -Nat.add_1_r peak_add exec_visit.
  destruct (run (visit b) w) as [[[]|e] w']; simpl in *; [|lia].
  split; [lia|]. intros _. specialize (Hge eq_refl). lia.
Qed.
End theorems.

Lemma machine_terminates_witness :
  exec ex_writers pretty (S (cost ex_view) + 0) (Call ex_view [] ex_world) =
    Done (run (visit ex_writers pretty ex_view) ex_world).
Proof. apply (machine_terminates ex_writers pretty ex_view ex_world 0). Defined.

Lemma machine_depth_witness :
  peak ex_writers pretty (S (cost ex_view)) (Call ex_view [] ex_world) ≤ depth ex_view ∧
  (is_Return (run (visit ex_writers pretty ex_view) ex_world).1 = true →
   peak ex_writers pretty (S (cost ex_view)) (Call ex_view [] ex_world) = depth ex_view).
Proof. apply (machine_depth ex_writers pretty ex_view ex_world). Defined.
