(* ===== verification/Success.v ===== *)
(** * When a visit returns

    A visit of a tree can fail in three places: the assertion of a [View],
    the storing of an asset, and the keyword arguments of the element of an
    asset.  None of them depends on what the store holds, so whether a visit
    returns can be read off the tree and the registry of writers before the
    visit starts:

    - [asserts_ok]: every [View] of the tree is the first block of its
      parent;
    - [storable]: an asset block has data its writer accepts, or a file,
      and its attributes do not clash with [type] and [src].

    [visit_succeeds]: a visit of such a tree returns, from any state of the
    store, the slots and the names.  An asset block whose slot holds an
    entry of the class of the store needs less (the entry is reused), so in
    general the condition is sufficient only.  [visit_returned_storable] is
    the converse for a first visit: when no asset block of the tree has an
    entry to reuse (and no two of them share an identity), a visit that
    returned was given a tree with the condition.  The proof follows the
    slots through the visit: a slot the visit finds filled was filled by an
    earlier occurrence of the same block ([written_ok]). *)

From S2P Require Import Prelude PyMonad PyDict Etree Blocks.
From S2P Require Import FileStore AssetWriters XMLBuilder Spec Refinement Examples.
From S2P Require Import Evolution Assets Structure Render.

Section success.
Context `{FileStore St} (aw : AssetWriters) (name_of : nat → string).
Implicit Types (w : World St) (v : Env St) (b : Block) (x : AssetBlock).
Implicit Types (reg : gmap AssetKind AssetWriterP).

Notation to_xml := (to_xml aw name_of).
Notation visit := (visit aw name_of).
Notation elems w := (elements (self w)).

(** The keywords of the element of an asset block are distinct: the block
    has no attribute and no file attribute named [type] or [src]. *)
Definition attrib_ok (x : AssetBlock) : bool :=
  bool_decide (NoDup ("type" :: keys {** asset_attributes x, ** file_attribs x } ++ ["src"])).

(** An asset block that has something to write with the registry [reg]:
    data that the writer of its class takes, or no data and a file. *)
Definition writable (reg : gmap AssetKind AssetWriterP) (x : AssetBlock) : bool :=
  match data x, file x with
  | Some d, _ =>
      match filled aw reg !! kind x with
      | Some wr => is_Return (get_meta wr d) && is_Return (write_file wr d)
      | None => false
      end
  | None, Some _ => true
  | None, None => false
  end.

(** An asset block that can be stored: the keywords are distinct and there
    is something to write. *)
Definition storable (reg : gmap AssetKind AssetWriterP) (x : AssetBlock) : bool :=
  attrib_ok x && writable reg x.

(** One block object per identity: two asset blocks of the list with the
    same [oid] are the same block. *)
Definition consistent (A : list AssetBlock) : bool :=
  forallb (λ x, forallb (λ y, bool_decide (oid x = oid y → x = y)) A) A.

Lemma consistent_eq A x y :
  consistent A = true → x ∈ A → y ∈ A → oid x = oid y → x = y.
Proof.
  rw /consistent forallb_Forall Forall_forall. intros HA Hx Hy.
  move: (HA x Hx). rw forallb_Forall Forall_forall. intros Hxy.
  exact (proj1 (bool_decide_eq_true _) (Hxy y Hy)).
Qed.

Lemma attrib_ok_wf x fe : attrib_ok x = true ↔ dict_wf (asset_attrib x fe).
Proof.
  by rw /attrib_ok bool_decide_eq_true /dict_wf /keys /asset_attrib fmap_cons fmap_app.
Qed.

Lemma storable_filled reg x : storable (filled aw reg) x = storable reg x.
Proof. by rw /storable /writable filled_idem. Qed.

(** What can be stored stays so: a visit only ever fills the registry. *)
Lemma storable_evolves v v' x :
  evolves aw v v' → storable (env_mapping v) x = true → storable (env_mapping v') x = true.
Proof. intros [_ _ _ [-> | ->] _]; by rw ?storable_filled. Qed.

Lemma store_asset_succeeds x v :
  storable (env_mapping v) x = true → ∃ fe, (run (store_asset aw x) v).1 = Return fe.
Proof.
  rw /storable /writable /store_asset /run andb_true_iff. intros [_ Hx].
  destruct (memo_hit x v); [by eauto|].
  destruct (data x) as [d|]; [|destruct (file x); by eauto].
  destruct (filled aw (env_mapping v) !! kind x) as [wr|]; [|done].
  move: Hx. rw andb_true_iff. intros [??].
  destruct (get_meta wr d), (write_file wr d); by eauto.
Qed.

Lemma asset_succeeds x at_start v :
  storable (env_mapping v) x = true → is_Return (run (to_xml at_start (Asset x)) v).1 = true.
Proof.
  intros Hx. destruct (store_asset_succeeds x v Hx) as [fe Hfe].
  rw run_to_xml_asset. destruct (run (store_asset aw x) v) as [o v']. simplify_eq/=.
  apply andb_true_iff in Hx as [Hok%(attrib_ok_wf x fe) _].
  by rw (proj2 (asset_xml_Return x fe _) (conj Hok eq_refl)).
Qed.

Notation succeeds b := (∀ at_start v,
  asserts_ok at_start b = true →
  (∀ x, x ∈ assets b → storable (env_mapping v) x = true) →
  is_Return (run (to_xml at_start b) v).1 = true).

Lemma collect_succeeds bs first v :
  Forall (λ b, succeeds b) bs →
  all_first asserts_ok first bs = true →
  (∀ x, x ∈ mjoin (assets <$> bs) → storable (env_mapping v) x = true) →
  is_Return (run (collect to_xml first bs) v).1 = true.
Proof.
  intros IH Ha Hx.
  apply (collect_returns to_xml (evolves aw)
           (λ v b, ∀ x, x ∈ assets b → storable (env_mapping v) x = true) asserts_ok);
    [|intros; apply to_xml_evolves|done..|].
  - intros s s' b Hs Hb x ?. eapply storable_evolves; eauto.
  - apply Forall_forall. intros b Hb x ?. apply Hx, elem_of_assets_join. eauto.
Qed.

Lemma to_xml_succeeds b : succeeds b.
Proof.
  induction b as [t a|t a bs IH|f bs IH|t a c|a c m|x]; intros at_start v Ha Hx;
    try done.
  - rw run_to_xml_container. move: (collect_succeeds bs true v IH Ha Hx).
    by destruct (run (collect _ _ _) v) as [[]].
  - move: Ha. rw /= andb_true_iff. intros [-> Ha].
    rw run_to_xml_view. move: (collect_succeeds bs true v IH Ha Hx).
    by destruct (run (collect _ _ _) v) as [[]].
  - rw run_interactive_xml. by destruct (wants_name m).
  - apply asset_succeeds, Hx. by left.
Qed.

(** ** The converse, for blocks with nothing to reuse *)

(** The registry of [v] fills to what [reg] fills to, and the blocks of
    [A] that have an entry to reuse had something to write. *)
Definition written_ok reg (A : list AssetBlock) v : Prop :=
  filled aw (env_mapping v) = filled aw reg ∧
  ∀ y, y ∈ A → is_Some (memo_hit y v) → writable reg y = true.

(** Writing the slot of [x] keeps [written_ok] when [x] had something to
    write. *)
Lemma written_ok_write reg A x fe v s' m' :
  consistent A = true → x ∈ A → written_ok reg A v → writable reg x = true →
  fw_klass s' = fw_klass (env_store v) → filled aw m' = filled aw reg →
  written_ok reg A (mkEnv s' (<[oid x := fe]> (env_prev v)) m' (env_names v)).
Proof.
  intros HA Hx [_ Hv] Hw Hk Hm. split; [done|]. intros y Hy.
  destruct (decide (oid y = oid x)) as [Ho|Ho].
  - by rw (consistent_eq A y x HA Hy Hx Ho).
  - rw memo_hit_insert //. by apply Hv.
Qed.

Lemma store_asset_writable reg A x v fe v' :
  consistent A = true → x ∈ A → written_ok reg A v →
  run (store_asset aw x) v = (Return fe, v') →
  writable reg x = true ∧ written_ok reg A v'.
Proof.
  intros HA Hx Hv. pose proof Hv as [Hreg Hhit]. rw /run /store_asset.
  destruct (memo_hit x v) as [pe|] eqn:Hm; simpl.
  { intros [= <- <-]. split; [by apply Hhit|]. split; [done|]. intros y Hy.
    rw (memo_hit_ext y y v) /= ?add_file_klass //. by apply Hhit. }
  assert (writable reg x = true → ∀ s' m', fw_klass s' = fw_klass (env_store v) →
    filled aw m' = filled aw reg →
    writable reg x = true ∧
    written_ok reg A (mkEnv s' (<[oid x := fe]> (env_prev v)) m' (env_names v))) as Hnew.
  { intros Hw s' m' ??. split; [done|]. by apply written_ok_write. }
  move: Hnew. rw /writable -Hreg.
  destruct (data x) as [d|]; [|destruct (file x) as [p|]; [|done]].
  - destruct (filled aw (env_mapping v) !! kind x) as [wr|]; [|done].
    destruct (get_meta wr d) as [meta|], (write_file wr d) as [bytes|]; try done.
    intros Hnew [= <- <-]. apply Hnew; by rw ?add_file_klass ?filled_idem.
  - intros Hnew [= <- <-]. apply Hnew; by rw ?load_file_klass.
Qed.

Notation needs reg A b := (∀ at_start v e v',
  (∀ x, x ∈ assets b → x ∈ A) → written_ok reg A v →
  run (to_xml at_start b) v = (Return e, v') →
  (∀ x, x ∈ assets b → storable reg x = true) ∧ written_ok reg A v').

Lemma collect_needs reg A bs first v es v' :
  Forall (λ b, needs reg A b) bs →
  (∀ x, x ∈ mjoin (assets <$> bs) → x ∈ A) → written_ok reg A v →
  run (collect to_xml first bs) v = (Return es, v') →
  (∀ x, x ∈ mjoin (assets <$> bs) → storable reg x = true) ∧ written_ok reg A v'.
Proof.
  intros IH HA Hv Hrun.
  destruct (collect_invariant to_xml (written_ok reg A)
              (λ b, ∀ x, x ∈ assets b → storable reg x = true) bs)
    with first v es v' as [Hq Hv']; [|done..|].
  - apply Forall_forall. intros b Hb at_start s y s' Hs Hy.
    eapply (proj1 (Forall_forall _ _) IH b Hb); [|done..].
    intros x ?. apply HA, elem_of_assets_join. eauto.
  - split; [|done]. intros x (b & Hb & Hx)%elem_of_assets_join.
    by apply (proj1 (Forall_forall _ _) Hq b Hb).
Qed.

Lemma to_xml_needs reg A b : consistent A = true → needs reg A b.
Proof.
  intros HA.
  induction b as [t a|t a bs IH|f bs IH|t a c|a c m|x]; intros at_start v e v' Hsub Hv.
  - intros [= <- <-]. by split; [intros ? ?%elem_of_nil|].
  - rw run_to_xml_container.
    destruct (run (collect _ _ _) v) as [[es|?] v1] eqn:Hbs; [|done].
    intros [= <- <-]. by eapply collect_needs.
  - rw run_to_xml_view. destruct at_start; [|done].
    destruct (run (collect _ _ _) v) as [[es|?] v1] eqn:Hbs; [|done].
    intros [= <- <-]. by eapply collect_needs.
  - intros [= <- <-]. by split; [intros ? ?%elem_of_nil|].
  - rw run_interactive_xml. destruct Hv.
    by destruct (wants_name m); intros [= <- <-]; (split; [intros ? ?%elem_of_nil|]).
  - rw run_to_xml_asset.
    destruct (run (store_asset aw x) v) as [[fe|?] v1] eqn:Hx; [|done]. intros [= He <-].
    destruct (store_asset_writable reg A x v fe v1) as [Hw Hv1]; [done|apply Hsub; by left|done..|].
    split; [|done]. intros y ->%list_elem_of_singleton. rw /storable Hw andb_true_r.
    apply (attrib_ok_wf x fe). by apply asset_xml_Return in He as [? _].
Qed.
End success.

Section theorems.
Context `{FileStore St} (aw : AssetWriters) (name_of : nat → string).
Implicit Types (w : World St) (b : Block).

(** C4. A visit returns.  If every [View] of the tree is the first block of
    its parent (and the accumulator is empty when the root is a [View]), and
    every asset block of the tree can be stored with the registry as it is
    (data that the writer of its class takes, or a file, and no attribute
    named [type] or [src]), the visit returns: whatever the store holds,
    whatever the slots of the blocks hold and however many names were
    taken. *)
Theorem visit_succeeds b w :
  asserts_ok (bool_decide (elements (self w) = [])) b = true →
  forallb (storable aw (asset_mapping w)) (assets b) = true →
  ∃ w', run (visit aw name_of b) w = (Return tt, w').
Proof.
  intros Ha Hx%forallb_Forall.
  pose proof (to_xml_succeeds aw name_of b _ (env_of w) Ha (proj1 (Forall_forall _ _) Hx))
    as Hr.
  pose proof (visit_implements aw name_of b w) as Hv. rw /implements in Hv.
  destruct (run (to_xml _ _ _ _) (env_of w)) as [[e|?] v]; simpl in *; [by eauto | done].
Qed.

(** C15. A visit returns only then.  If no asset block of the tree has an
    entry it would reuse, and no two asset blocks of the tree share an
    identity, a visit that returned was given a tree in which every [View]
    is the first block of its parent and every asset block can be stored:
    with [visit_succeeds], the condition is exact, and whether a first visit
    of a tree returns is decided by the tree and the registry. *)
Theorem visit_returned_storable b w w' :
  consistent (assets b) = true →
  (∀ x, x ∈ assets b → memo_hit x (env_of w) = None) →
  run (visit aw name_of b) w = (Return tt, w') →
  asserts_ok (bool_decide (elements (self w) = [])) b = true ∧
  forallb (storable aw (asset_mapping w)) (assets b) = true.
Proof.
  intros HA Hfresh (e & v & Hrun & ->)%visit_returns.
  split; [by eapply to_xml_returns_asserts|]. apply forallb_Forall, Forall_forall.
  eapply (to_xml_needs aw name_of (asset_mapping w) (assets b) b HA); [done| |exact Hrun].
  split; [done|]. intros y Hy [fe Hfe]. by rw (Hfresh y Hy) in Hfe.
Qed.
End theorems.

Lemma visit_succeeds_witness :
  ∃ w', run (visit ex_writers pretty ex_view) ex_world = (Return tt, w').
Proof. apply visit_succeeds; by vm_compute. Defined.

Lemma visit_returned_storable_witness :
  asserts_ok (bool_decide (elements (self ex_world) = [])) ex_view = true ∧
  forallb (storable ex_writers (asset_mapping ex_world)) (assets ex_view) = true.
Proof.
  apply (visit_returned_storable ex_writers pretty ex_view ex_world (ex_build ex_view).2);
    [by vm_compute | by intros x _ | by vm_compute].
Defined.
