(* ===== verification/Stores.v ===== *)
(** * The visitor and its store

    What a visit does to the store, for the contracts a store may have
    beyond [FileStore].

    - A visit calls [add_file] or [load_file] at most once per asset block
      it meets ([store_asset_store]).  With a store that registers one
      entry at a time ([CountedStore]), [store_count] grows by at most the
      number of asset blocks of the tree, repeats counted
      ([visit_store_bound]); [AppendStore] attains the bound.
    - With [ListStore], a visit keeps the entries of the store free of
      repeated hashes, so that the [src] of every asset element of the
      document names exactly one file of the store ([visit_refs_resolve]). *)

From S2P Require Import Prelude PyMonad PyDict Etree Blocks.
From S2P Require Import FileStore AssetWriters XMLBuilder Spec Refinement Examples.
From S2P Require Import Evolution Assets Structure Render.

Section stores.
Context `{FileStore St} (aw : AssetWriters) (name_of : nat → string).
Implicit Types (w : World St) (v : Env St) (b : Block) (x : AssetBlock) (s : St).

Notation to_xml := (to_xml aw name_of).
Notation visit := (visit aw name_of).

(** The store after [store_asset]: as it was, or after one call of
    [add_file] or of [load_file]. *)
Inductive store_step (s : St) : St → Prop :=
| store_same : store_step s s
| store_added fe : store_step s (add_file s fe)
| store_loaded p : store_step s (load_file s p).2.

Lemma store_asset_store x v :
  store_step (env_store v) (env_store (run (store_asset aw x) v).2).
Proof.
  rw /run /store_asset. destruct (memo_hit x v) as [pe|]; simpl; [constructor|].
  destruct (data x) as [d|]; [|destruct (file x) as [p|]]; simpl; try constructor.
  destruct (filled aw (env_mapping v) !! kind x) as [wr|]; simpl; [|constructor].
  destruct (get_meta wr d), (write_file wr d); constructor.
Qed.

(** An invariant of the store that [add_file] and [load_file] keep is kept
    by [to_xml], whatever its outcome. *)
Lemma to_xml_store_invariant (I : St → Prop) b at_start v :
  (∀ s fe, I s → I (add_file s fe)) → (∀ s p, I s → I (load_file s p).2) →
  I (env_store v) → I (env_store (run (to_xml at_start b) v).2).
Proof.
  intros Hadd Hload.
  change (keeps (I ∘ env_store) v (run (to_xml at_start b) v).2).
  apply to_xml_preserves; [apply _| |by intros v' ?].
  intros x v' Hv'. cbn. destruct (store_asset_store x v'); auto.
Qed.

Lemma store_asset_count `{!CountedStore St} x v :
  file_count (env_store (run (store_asset aw x) v).2) ≤ S (file_count (env_store v)).
Proof.
  rw /file_count. destruct (store_asset_store x v);
    [lia | apply add_file_length | apply load_file_length].
Qed.

Lemma to_xml_count `{!CountedStore St} b at_start v :
  file_count (env_store (run (to_xml at_start b) v).2) ≤
    file_count (env_store v) + length (assets b).
Proof.
  revert at_start v.
  induction b as [t a|t a bs IH|f bs IH|t a c|a c m|x]; intros at_start v.
  1, 4: rw /=; lia.
  - rw run_to_xml_container /= length_join_fmap.
    generalize (collect_bound to_xml (file_count ∘ env_store) (length ∘ assets) bs IH true v).
    by destruct (run (collect _ _ _) v) as [[]].
  - rw run_to_xml_view /= length_join_fmap. destruct at_start; [|rw /=; lia].
    generalize (collect_bound to_xml (file_count ∘ env_store) (length ∘ assets) bs IH true v).
    by destruct (run (collect _ _ _) v) as [[]].
  - rw run_interactive_xml. destruct (wants_name m); rw /=; lia.
  - rw run_to_xml_asset /=. generalize (store_asset_count x v).
    destruct (run (store_asset aw x) v) as [[]]; rw /=; lia.
Qed.
End stores.

Section theorems.
Context (aw : AssetWriters) (name_of : nat → string).

Notation visit := (visit aw name_of).

(** C22. The store grows by at most one file per asset block: with a store
    that registers one entry at a time, after a visit of a tree, returning
    or raising, [store_count] is at most what it was plus the number of
    asset blocks of the tree, a block that occurs twice counted twice. *)
Theorem visit_store_bound `{CountedStore St} (b : Block) (w : World St) :
  store_count (run (visit b) w).2 ≤ store_count w + length (assets b).
Proof.
  change (file_count (env_store (env_of (run (visit b) w).2)) ≤
          file_count (env_store (env_of w)) + length (assets b)).
  rw visit_env. by apply to_xml_count.
Qed.

(** C21. Every reference resolves to one file.  With a [ListStore] whose
    entries have distinct hashes and agree with the slots of the blocks,
    after a visit that returns the entries still have distinct hashes, and
    for every asset block of the tree the hash of its entry, which is what
    the [src] of its element names, is the hash of exactly one entry of the
    store. *)
Theorem visit_refs_resolve (b : Block) (w w' : World ListStore.t) (x : AssetBlock) :
  ListStore.wf (store (self w)) → memo_ok (env_of w) →
  run (visit b) w = (Return tt, w') → x ∈ assets b →
  ListStore.wf (store (self w')) ∧
  ∃ fe pe, prev_entry w' !! oid x = Some fe ∧
           pe ∈ files (store (self w')) ∧
           hash (St := ListStore.t) pe = hash (St := ListStore.t) fe ∧
           ∀ pe', pe' ∈ files (store (self w')) →
                  hash (St := ListStore.t) pe' = hash (St := ListStore.t) fe → pe' = pe.
Proof.
  intros Hwf Hok Hrun Hx.
  assert (ListStore.wf (store (self w'))) as Hwf'.
  { replace w' with (run (visit b) w).2 by by rw Hrun.
    change (ListStore.wf (env_store (env_of (run (visit b) w).2))). rw visit_env.
    apply to_xml_store_invariant; [exact ListStore.add_wf| |done].
    intros s p. apply ListStore.add_wf. }
  split; [done|].
  destruct (visit_settles aw name_of b w w' Hok Hrun) as (_ & Hok' & Hs).
  destruct (Hs x Hx) as (fe & Hfe & _).
  destruct (proj1 (list_elem_of_fmap _ _ _) (Hok' x fe Hfe)) as (pe & Hpe & Hin).
  exists fe, pe. split_and!; [by apply memo_hit_Some in Hfe as [??] | done..|].
  intros pe' Hin' Hpe'. eapply NoDup_fmap_unique; [exact Hwf'|done..|].
  exact (eq_trans Hpe' Hpe).
Qed.
End theorems.

Definition ex_twice : Block :=
  ContainerBlock "Group" [] [Asset ex_table; Asset ex_table].

(** A builder on an empty store that appends, where the bound is attained. *)
Definition ex_appending : World AppendStore.t :=
  new_world (AppendStore.mk "B64FileEntry" [] ∅).

Lemma visit_store_bound_witness :
  store_count (run (visit ex_writers pretty ex_twice) ex_appending).2 ≤
    store_count ex_appending + length (assets ex_twice).
Proof. apply (visit_store_bound ex_writers pretty ex_twice ex_appending). Defined.

Lemma visit_refs_resolve_witness :
  ListStore.wf (store (self (ex_build ex_view).2)) ∧
  ∃ fe pe, prev_entry (ex_build ex_view).2 !! oid ex_table = Some fe ∧
           pe ∈ files (store (self (ex_build ex_view).2)) ∧
           hash (St := ListStore.t) pe = hash (St := ListStore.t) fe ∧
           ∀ pe', pe' ∈ files (store (self (ex_build ex_view).2)) →
                  hash (St := ListStore.t) pe' = hash (St := ListStore.t) fe → pe' = pe.
Proof.
  apply (visit_refs_resolve ex_writers pretty ex_view ex_world);
    [apply NoDup_nil_2 | apply new_world_memo_ok | by vm_compute | vm_compute; by left].
Defined.
