(* ===== verification/Congruence.v ===== *)
(** * Dictionaries as lists: the order of the attributes

    The development holds a dictionary as the list of its items in the
    order of insertion, as Python keeps them and as the element factory
    sets them.  XML gives the order of attributes no meaning, and nothing
    the visitor does depends on it.  This file is the setoid library for
    that: the equivalences and the [Proper] instances, up to the one of
    [visit], so that a tree may be replaced by one that differs only in the
    order of the attributes of its blocks (and of their controls).  It
    states no property of the code of its own.

    - [block_equiv], written [b1 ≡ b2]: the same tree up to attribute order.
      Asset blocks are compared by equality: they are the same objects.
    - [world_equiv], written [w1 ≡ w2]: the same state, with accumulators
      equal up to attribute order.
    - [to_xml_equiv]: the specification respects [≡]; [visit_equiv] and
      the [Proper] instance of [visit] transfer that to the visitor. *)

From S2P Require Import Prelude PyMonad PyDict Etree Blocks.
From S2P Require Import FileStore AssetWriters XMLBuilder Spec Refinement Examples.
From S2P Require Import Evolution.

Inductive block_equiv : Equiv Block :=
| base_equiv t a1 a2 : a1 ≡ a2 → block_equiv (BaseElement t a1) (BaseElement t a2)
| container_equiv t a1 a2 bs1 bs2 :
    a1 ≡ a2 → Forall2 block_equiv bs1 bs2 →
    block_equiv (ContainerBlock t a1 bs1) (ContainerBlock t a2 bs2)
| view_equiv f bs1 bs2 :
    Forall2 block_equiv bs1 bs2 → block_equiv (View f bs1) (View f bs2)
| text_equiv t a1 a2 c :
    a1 ≡ a2 → block_equiv (EmbeddedTextBlock t a1 c) (EmbeddedTextBlock t a2 c)
| interactive_equiv a1 a2 c1 c2 m :
    a1 ≡ a2 → c1 ≡ c2 → block_equiv (Interactive a1 c1 m) (Interactive a2 c2 m)
| asset_equiv x : block_equiv (Asset x) (Asset x).
#[export] Existing Instance block_equiv.

(** A relation that is reflexive, symmetric or transitive at the elements
    of a list is so at the list. *)
Section Forall2_pointwise.
Context {A : Type} (R : relation A).

Lemma Forall2_refl_Forall l : Forall (λ x, R x x) l → Forall2 R l l.
Proof. induction 1; by constructor. Qed.

Lemma Forall2_sym_Forall l k :
  Forall (λ x, ∀ y, R x y → R y x) l → Forall2 R l k → Forall2 R k l.
Proof.
  intros Hl HR. induction HR as [|x y l k Hxy _ IH]; [constructor|].
  apply Forall_cons in Hl as [Hx Hl]. constructor; auto.
Qed.

Lemma Forall2_trans_Forall l k j :
  Forall (λ x, ∀ y z, R x y → R y z → R x z) l →
  Forall2 R l k → Forall2 R k j → Forall2 R l j.
Proof.
  intros Hl HR. revert j. induction HR as [|x y l k Hxy _ IH]; intros j Hkj.
  { inversion Hkj. constructor. }
  apply Forall_cons in Hl as [Hx Hl]. inversion Hkj; subst. constructor; eauto.
Qed.
End Forall2_pointwise.

#[export] Instance block_equivalence : Equivalence (≡@{Block}).
Proof.
  split.
  - intros b. induction b; constructor; by try apply Forall2_refl_Forall.
  - intros b1. induction b1; intros b2; inversion 1; subst; constructor;
      by try eapply Forall2_sym_Forall.
  - intros b1. induction b1; intros b2 b3; inversion 1; subst; inversion 1; subst;
      constructor; try (by etrans); by eapply Forall2_trans_Forall.
Qed.

#[export] Instance E_text_proper t x : Proper ((≡) ==> (≡)) (E_text t x).
Proof. intros a1 a2 Ha. by constructor. Qed.

#[export] Instance interactive_element_proper :
  Proper ((≡) ==> (≡) ==> (=) ==> (=) ==> (≡)) interactive_element.
Proof.
  intros a1 a2 Ha c1 c2 Hc m ? <- name ? <-.
  assert (∀ d, E "Interactive" [c1] {** a1, ** d } ≡ E "Interactive" [c2] {** a2, ** d })
    as Hcontrol.
  { intros d. apply E_proper; [by constructor | by apply dict_update_proper]. }
  assert (∀ cols d,
    E "Group" [E "Interactive" [c1] {** a1, ** d };
               E "Group" [E "Empty" [] [("name", name)]] [("columns", "1")]] cols ≡
    E "Group" [E "Interactive" [c2] {** a2, ** d };
               E "Group" [E "Empty" [] [("name", name)]] [("columns", "1")]] cols)
    as Hgroup.
  { intros cols d. apply E_proper; [|done]. constructor; [apply Hcontrol|].
    by constructor. }
  destruct m; [apply Hcontrol | apply Hgroup | apply Hgroup |].
  apply E_proper; [by constructor | done].
Qed.

Section congruence.
Context `{FileStore St} (aw : AssetWriters) (name_of : nat → string).
Implicit Types (w : World St) (v : Env St) (b : Block) (e : Element).

Notation to_xml := (to_xml aw name_of).
Notation visit := (visit aw name_of).
Notation elems w := (elements (self w)).

(** The same state, with accumulators equal up to attribute order. *)
#[export] Instance world_equiv : Equiv (World St) := λ w1 w2,
  env_of w1 = env_of w2 ∧ Forall2 (≡) (elems w1) (elems w2).

#[export] Instance world_equivalence : Equivalence (≡@{World St}).
Proof.
  split.
  - intros w. by split.
  - intros w1 w2 [??]. by split.
  - intros w1 w2 w3 [??] [??]. split; by etrans.
Qed.

(** Lists of blocks, from the statement for the blocks. *)
Lemma collect_to_xml_equiv bs1 bs2 first v :
  Forall (λ b1, ∀ b2 at_start v, b1 ≡ b2 →
    run (to_xml at_start b1) v ≃ run (to_xml at_start b2) v) bs1 →
  Forall2 (≡) bs1 bs2 →
  run (collect to_xml first bs1) v ≃ run (collect to_xml first bs2) v.
Proof.
  intros IH Hbs. apply collect_equiv.
  eapply Forall2_impl_Forall, Hbs. eapply Forall_impl; [exact IH|].
  intros b1 Hb1 b2 Hb at_start v'. by apply Hb1.
Qed.

(** The element of a container or of a view, from the elements of its
    blocks. *)
Lemma wrap_equiv (r1 r2 : Outcome (list Element) * Env St) t a1 a2 :
  a1 ≡ a2 → r1 ≃ r2 →
  match r1 with
  | (Return es, v') => (Return (E t es a1), v')
  | (Raise x, v') => (Raise x, v')
  end ≃
  match r2 with
  | (Return es, v') => (Return (E t es a2), v')
  | (Raise x, v') => (Raise x, v')
  end.
Proof.
  intros Ha [Ho Hv]. destruct r1 as [o1 v1], r2 as [o2 v2]. simpl in *. subst v2.
  destruct Ho as [es1 es2 Hes|x]; split; constructor; try done.
  apply E_proper; [by apply list_equiv_Forall2 | done].
Qed.

(** The specification respects the equivalence of trees. *)
Lemma to_xml_equiv b1 b2 at_start v :
  b1 ≡ b2 → run (to_xml at_start b1) v ≃ run (to_xml at_start b2) v.
Proof.
  revert b2 at_start v.
  induction b1 as [t a|t a bs IH|f bs IH|t a c|a c m|x]; intros b2 at_start v;
    inversion 1; subst.
  - split; [constructor|done]. by apply E_proper.
  - rw !run_to_xml_container. apply wrap_equiv; [done | by apply collect_to_xml_equiv].
  - rw !run_to_xml_view. destruct at_start; [|done].
    apply wrap_equiv; [done | by apply collect_to_xml_equiv].
  - split; [constructor|done]. by apply E_text_proper.
  - rw !run_interactive_xml.
    destruct (wants_name m); (split; [constructor|done]);
      by apply interactive_element_proper.
  - done.
Qed.

(** The visitor does: equivalent trees, from equivalent states, have the
    same outcome and leave the same store, slots, registry and names; when
    they return they leave equivalent accumulators. *)
Definition visits_equiv (r1 r2 : Outcome unit * World St) : Prop :=
  r1.1 = r2.1 ∧ env_of r1.2 = env_of r2.2 ∧ (is_Return r1.1 = true → r1.2 ≡ r2.2).

Lemma visit_equiv b1 b2 w1 w2 :
  b1 ≡ b2 → w1 ≡ w2 → visits_equiv (run (visit b1) w1) (run (visit b2) w2).
Proof.
  intros Hb [Hv Hacc].
  pose proof (visit_implements aw name_of b1 w1) as H1.
  pose proof (visit_implements aw name_of b2 w2) as H2.
  rw /implements -Hv in H1 H2.
  rw -(bool_decide_ext (elems w1 = []) (elems w2 = [])) in H2;
    [|split; intros Hnil; rw Hnil in Hacc; by inversion Hacc].
  destruct (to_xml_equiv b1 b2 (bool_decide (elems w1 = [])) (env_of w1) Hb) as [Ho Hs].
  destruct (run (to_xml _ b1) _) as [o1 v1], (run (to_xml _ b2) _) as [o2 v2].
  simpl in *. subst v2. destruct Ho as [e1 e2 He|x]; simplify_eq/=.
  - rw H1 H2. split_and!; [done..|]. intros _. split; [done|]. rw /=.
    apply Forall2_app; [done | by constructor].
  - destruct H1 as [Ho1 Hv1], H2 as [Ho2 Hv2].
    rw /visits_equiv Ho1 Ho2 Hv1 Hv2. by split_and!.
Qed.

#[export] Instance visit_proper :
  Proper ((≡) ==> (≡) ==> visits_equiv) (λ b w, run (visit b) w).
Proof. intros b1 b2 Hb w1 w2 Hw. by apply visit_equiv. Qed.
End congruence.

(** The group of [ex_view] with its attributes the other way round. *)
Definition ex_group : Block :=
  ContainerBlock "Group" [("columns", "2"); ("label", "g")]
    [Interactive [("function_id", "f"); ("swap", "true")] ex_controls SIDE;
     Asset ex_table].

Definition ex_group_swapped : Block :=
  ContainerBlock "Group" [("label", "g"); ("columns", "2")]
    [Interactive [("swap", "true"); ("function_id", "f")] ex_controls SIDE;
     Asset ex_table].

Lemma ex_group_equiv : ex_group ≡ ex_group_swapped.
Proof.
  repeat first [done | constructor | by apply dict_equiv_to_map; vm_compute].
Qed.

(** The two groups give the same outcome and the same store, slots,
    registry and names, and accumulators equal up to attribute order. *)
Example ex_group_visits :
  visits_equiv (run (visit ex_writers pretty ex_group) ex_world)
               (run (visit ex_writers pretty ex_group_swapped) ex_world).
Proof. by apply visit_proper; [apply ex_group_equiv|]. Qed.
