(* ===== verification/Names.v ===== *)
(** * The names of the placeholders

    An [Interactive] with target [BELOW] or [SIDE] becomes a group of the
    control and an [Empty] element, the placeholder its result goes to; the
    control finds the placeholder by its name.  Two placeholders of one name
    would send a result to the wrong place.

    [placeholders e] lists the names of the [Empty] elements of a document
    in document order.  [visit_placeholders_distinct]: when [gen_name] never
    gives a name twice ([name_of] is injective) and the tree brings no
    [Empty] element of its own ([plain]), the placeholders of the element a
    visit appends have pairwise distinct names, none of which was handed out
    before the visit. *)

From S2P Require Import Prelude PyMonad PyDict Etree Blocks.
From S2P Require Import FileStore AssetWriters XMLBuilder Spec Refinement Examples.
From S2P Require Import Evolution Assets Structure Render.

(** The names of the placeholders of a document. *)
Fixpoint placeholders (e : Element) : list string :=
  (if decide (tag e = "Empty") then option_list (get_attr e "name") else []) ++
  mjoin (placeholders <$> children e).

(** A tree that brings no placeholder of its own: no block has the tag
    [Empty], and no control holds an [Empty] element. *)
Fixpoint plain (b : Block) : bool :=
  match b with
  | BaseElement t _ | EmbeddedTextBlock t _ _ => bool_decide (t ≠ "Empty")
  | ContainerBlock t _ bs => bool_decide (t ≠ "Empty") && forallb plain bs
  | View _ bs => forallb plain bs
  | Interactive _ c _ => bool_decide (placeholders c = [])
  | Asset x => bool_decide (asset_tag x ≠ "Empty")
  end.

Section names.
Context `{FileStore St} (name_of : nat → string).
Implicit Types (v : Env St) (b : Block) (e : Element) (x : AssetBlock) (n k : nat).

Notation render := (render name_of).

Lemma placeholders_E t es a :
  t ≠ "Empty" → placeholders (E t es a) = mjoin (placeholders <$> es).
Proof. intros Ht. by rw /= decide_False. Qed.

Lemma placeholders_asset v x :
  asset_tag x ≠ "Empty" → placeholders (render_asset v x) = [].
Proof.
  intros Ht. rw /render_asset. destruct (memo_hit x v) as [fe|]; [|by rw placeholders_E].
  destruct (set_caption x _) as [t a y cs] eqn:He.
  apply (f_equal tag) in He as Htag. apply (f_equal children) in He.
  rw tag_set_caption in Htag. rw children_set_caption in He. simpl in *. subst.
  by rw decide_False.
Qed.

Lemma placeholders_interactive a c m name :
  placeholders c = [] →
  placeholders (interactive_element a c m name) =
    match m with BELOW | SIDE => [name] | _ => [] end.
Proof. intros Hc. by destruct m; rw /= Hc. Qed.

(** The placeholders of the element of a tree have names of the counters
    the tree takes, in order. *)
Lemma placeholders_render v n b :
  plain b = true →
  placeholders (render v n b) `sublist_of` (name_of <$> seq n (names_used b)).
Proof.
  revert n. induction b as [t a|t a bs IH|f bs IH|t a c|a c m|x]; intros n; simpl.
  - intros Ht%bool_decide_eq_true. rw decide_False //=.
  - rw andb_true_iff bool_decide_eq_true forallb_Forall. intros [Ht Hbs].
    rw decide_False //=. apply thread_join_sublist.
    eapply Forall_impl2; [exact IH | exact Hbs | auto].
  - rw forallb_Forall. intros Hbs. apply thread_join_sublist.
    eapply Forall_impl2; [exact IH | exact Hbs | auto].
  - intros Ht%bool_decide_eq_true. rw decide_False //=.
  - intros Hc%bool_decide_eq_true. rw placeholders_interactive //.
    destruct m; by try apply sublist_nil_l.
  - intros Ht%bool_decide_eq_true. rw placeholders_asset //.
Qed.

Lemma placeholders_fresh `{!Inj (=) (=) name_of} v n b :
  plain b = true →
  NoDup (placeholders (render v n b)) ∧
  ∀ k, k < n → name_of k ∉ placeholders (render v n b).
Proof.
  intros Hb. pose proof (placeholders_render v n b Hb) as Hsub. split.
  - eapply sublist_NoDup; [|exact Hsub]. apply (NoDup_fmap_2 _), NoDup_seq.
  - intros k Hk Hin%(sublist_subseteq _ _ Hsub).
    apply list_elem_of_fmap in Hin as (j & ->%(inj _) & Hj).
    apply elem_of_seq in Hj. lia.
Qed.
End names.

Section theorems.
Context `{FileStore St} (aw : AssetWriters) (name_of : nat → string).
Context `{!Inj (=) (=) name_of}.

(** C23. Placeholders have names of their own.  If [gen_name] never gives a
    name twice and the tree holds no [Empty] element of its own, the names
    of the placeholders in the element a visit appends are pairwise
    distinct, and none of them is a name that was handed out before the
    visit: no control of the document, and none of an earlier document of
    the program, targets two placeholders. *)
Theorem visit_placeholders_distinct (b : Block) (w w' : World St) :
  plain b = true → run (visit aw name_of b) w = (Return tt, w') →
  ∃ e, elements (self w') = elements (self w) ++ [e] ∧
       NoDup (placeholders e) ∧
       ∀ k, k < names w → name_of k ∉ placeholders e.
Proof.
  intros Hb (e & v & Hrun & ->)%visit_returns. exists e. split; [done|].
  rw (to_xml_render aw name_of b _ (env_of w) e v Hrun v) //.
  by apply placeholders_fresh.
Qed.
End theorems.

Lemma visit_placeholders_distinct_witness :
  ∃ e, elements (self (ex_build ex_view).2) = elements (self ex_world) ++ [e] ∧
       NoDup (placeholders e) ∧
       ∀ k, k < names ex_world → pretty k ∉ placeholders e.
Proof.
  apply (visit_placeholders_distinct ex_writers pretty ex_view ex_world); by vm_compute.
Defined.
