(* ===== verification/Errors.v ===== *)
(** * The exceptions of a visit

    Every exception that leaves a visit is traced to a block of the tree.
    [escapes m at_start b e], for the registry [m] the visit looks writers
    up in: [e] is the [AssertionError] of a [View] that is not the first
    block of its parent, or an error of an asset block of the tree
    ([asset_error]): the [KeyError] of a class [m] has no writer for, the
    [TypeError] of a repeated keyword, the client error of a block with
    nothing to store, the client error for data on which the writer [m] has
    for the class raises [DispatchError], or what that writer raises on the
    data otherwise.

    [visit_raises_classified]: a visit raises nothing else.  In particular
    the [DispatchError] of [multimethod] never reaches the caller: the
    [except] clause of [_add_asset_to_store] turns it into the client
    error. *)

From S2P Require Import Prelude PyMonad PyDict Etree Blocks.
From S2P Require Import FileStore AssetWriters XMLBuilder Spec Refinement Examples.
From S2P Require Import Evolution Assets Success.

(** The errors of an asset block, with the registry [m]. *)
Inductive asset_error (m : gmap AssetKind AssetWriterP) (x : AssetBlock) : PyExc → Prop :=
| error_key d :
    data x = Some d → m !! kind x = None →
    asset_error m x (KeyError (kind_name (kind x)))
| error_type k : attrib_ok x = false → asset_error m x (TypeError k)
| error_nothing :
    data x = None → file x = None → asset_error m x (DPClientError "No asset to add")
| error_unsupported d wr :
    data x = Some d → m !! kind x = Some wr →
    get_meta wr d = Raise DispatchError ∨ write_file wr d = Raise DispatchError →
    asset_error m x (DPClientError (type_name d +:+ " not supported for XMLBuilder"))
| error_writer d wr e :
    data x = Some d → m !! kind x = Some wr →
    get_meta wr d = Raise e ∨ write_file wr d = Raise e →
    is_DispatchError e = false → asset_error m x e.

(** The exceptions of a tree. *)
Inductive escapes (m : gmap AssetKind AssetWriterP) (at_start : bool) (b : Block) :
    PyExc → Prop :=
| escapes_assert : asserts_ok at_start b = false → escapes m at_start b AssertionError
| escapes_asset x e : x ∈ assets b → asset_error m x e → escapes m at_start b e.

Section errors.
Context `{FileStore St} (aw : AssetWriters) (name_of : nat → string).
Implicit Types (w : World St) (v : Env St) (b : Block) (x : AssetBlock) (e : PyExc).
Implicit Types (m : gmap AssetKind AssetWriterP).

Notation to_xml := (to_xml aw name_of).
Notation visit := (visit aw name_of).

Lemma asset_error_not_DispatchError m x e : asset_error m x e → e ≠ DispatchError.
Proof. destruct 1; try done. by intros ->. Qed.

Lemma escapes_not_DispatchError m at_start b e : escapes m at_start b e → e ≠ DispatchError.
Proof. destruct 1; [done|]. by eapply asset_error_not_DispatchError. Qed.

(** What a writer raised, after the [except] clause. *)
Lemma writer_error_asset m x d wr e :
  data x = Some d → m !! kind x = Some wr →
  get_meta wr d = Raise e ∨ write_file wr d = Raise e →
  asset_error m x (writer_error d e).
Proof.
  intros Hd Hwr He. rw /writer_error. destruct (is_DispatchError e) eqn:Hde.
  - destruct e; try done. by eapply error_unsupported.
  - by eapply error_writer.
Qed.

Lemma store_asset_raises x v e :
  (run (store_asset aw x) v).1 = Raise e → asset_error (filled aw (env_mapping v)) x e.
Proof.
  rw /run /store_asset. destruct (memo_hit x v); [done|].
  destruct (data x) as [d|] eqn:Hd.
  - destruct (filled aw (env_mapping v) !! kind x) as [wr|] eqn:Hwr;
      [|intros [= <-]; by eapply error_key].
    destruct (get_meta wr d) as [meta|e1] eqn:Hg;
      [destruct (write_file wr d) as [bytes|e2] eqn:Hw; [done|]|];
      intros [= <-]; eapply writer_error_asset; eauto.
  - destruct (file x) eqn:Hf; [done|]. intros [= <-]. by constructor.
Qed.

Lemma asset_xml_raises m x fe e : asset_xml x fe = Raise e → asset_error m x e.
Proof.
  rw /asset_xml. destruct (kwargs_from _ _) as [k|attrib] eqn:Hk; [|done].
  intros [= <-]. apply error_type. apply asset_kwargs_inl in Hk.
  destruct (attrib_ok x) eqn:Hok; [|done]. by apply (attrib_ok_wf x fe) in Hok.
Qed.

(** The registry a visit looks writers up in is the same at every block:
    filling it is all a visit does to it. *)
Lemma to_xml_filled b at_start v :
  filled aw (env_mapping (run (to_xml at_start b) v).2) = filled aw (env_mapping v).
Proof.
  destruct (to_xml_evolves aw name_of b at_start v) as [_ _ _ [->| ->] _];
    [done | apply filled_idem].
Qed.

(** An exception of a block of a container or of a view is one of the
    container or of the view. *)
Lemma escapes_blocks m at_start (wrap : list Block → Block) l1 b l2 e :
  (∀ bs, assets (wrap bs) = mjoin (assets <$> bs)) →
  (∀ bs, all_first asserts_ok true bs = false → asserts_ok at_start (wrap bs) = false) →
  escapes m (bool_decide (l1 = [])) b e → escapes m at_start (wrap (l1 ++ b :: l2)) e.
Proof.
  intros Hassets Hasserts [Hb|x e' Hx He].
  - apply escapes_assert, Hasserts. by rw all_first_app /= Hb andb_false_r.
  - apply (escapes_asset _ _ _ x); [|done]. rw Hassets. apply elem_of_assets_join.
    exists b. split; [|done]. apply elem_of_app. right. by left.
Qed.

Lemma collect_escapes bs v e :
  Forall (λ b, ∀ at_start v e, (run (to_xml at_start b) v).1 = Raise e →
                escapes (filled aw (env_mapping v)) at_start b e) bs →
  (run (collect to_xml true bs) v).1 = Raise e →
  ∃ l1 b l2, bs = l1 ++ b :: l2 ∧
             escapes (filled aw (env_mapping v)) (bool_decide (l1 = [])) b e.
Proof.
  intros IH.
  apply (collect_raises to_xml (λ v, filled aw (env_mapping v))
           (λ m first b e, escapes m first b e)); [|done].
  apply Forall_forall. intros b _ first s. apply to_xml_filled.
Qed.

Lemma to_xml_raises b at_start v e :
  (run (to_xml at_start b) v).1 = Raise e →
  escapes (filled aw (env_mapping v)) at_start b e.
Proof.
  revert at_start v e.
  induction b as [t a|t a bs IH|f bs IH|t a c|a c m|x]; intros at_start v e; try done.
  - rw run_to_xml_container. move: (collect_escapes bs v e IH).
    destruct (run (collect _ _ _) v) as [[es|e'] v1]; [done|]. simpl.
    intros Hbs [= <-]. destruct Hbs as (l1 & b & l2 & -> & Hb); [done|].
    by apply (escapes_blocks _ at_start (ContainerBlock t a)).
  - rw run_to_xml_view. destruct at_start; [|intros [= <-]; by constructor].
    move: (collect_escapes bs v e IH).
    destruct (run (collect _ _ _) v) as [[es|e'] v1]; [done|]. simpl.
    intros Hbs [= <-]. destruct Hbs as (l1 & b & l2 & -> & Hb); [done|].
    by apply (escapes_blocks _ true (View f)).
  - rw run_interactive_xml. by destruct (wants_name m).
  - rw run_to_xml_asset. move: (store_asset_raises x v).
    destruct (run (store_asset aw x) v) as [[fe|e'] v1]; simpl.
    + intros _ He. apply (escapes_asset _ _ _ x); [by left|].
      by apply (asset_xml_raises _ x fe).
    + intros He [= <-]. apply (escapes_asset _ _ _ x); [by left | by apply He].
Qed.
End errors.

Section theorems.
Context `{FileStore St} (aw : AssetWriters) (name_of : nat → string).

(** C16. The exceptions of a visit.  An exception that leaves a visit of a
    tree is the [AssertionError] of a [View] of the tree that is not the
    first block of its parent, or comes from an asset block of the tree.
    With the registry as the visit uses it (the registry before the
    visit, filled if it was empty), that is: [KeyError] for the class of a
    block with data when the registry has no writer for it; [TypeError]
    for a repeated keyword; the client error for a block with neither data
    nor file; the client error for the type of the data when [get_meta] or
    [write_file] of the writer the registry has for the class raises
    [DispatchError] on the data of the block; or the exception that writer
    raises on the data, of any other class.  It is never
    [DispatchError]. *)
Theorem visit_raises_classified (b : Block) (w : World St) (e : PyExc) :
  (run (visit aw name_of b) w).1 = Raise e →
  escapes (filled aw (asset_mapping w)) (bool_decide (elements (self w) = [])) b e ∧
  e ≠ DispatchError.
Proof.
  intros He%visit_raises%to_xml_raises.
  split; [done | by eapply escapes_not_DispatchError].
Qed.
End theorems.

Lemma visit_raises_classified_witness :
  escapes (filled ex_writers (asset_mapping ex_world))
    (bool_decide (elements (self ex_world) = []))
    (ContainerBlock "Group" [] [Asset ex_table; Asset ex_unsupported])
    (DPClientError "complex not supported for XMLBuilder") ∧
  DPClientError "complex not supported for XMLBuilder" ≠ DispatchError.
Proof.
  apply (visit_raises_classified ex_writers pretty
           (ContainerBlock "Group" [] [Asset ex_table; Asset ex_unsupported]) ex_world).
  by vm_compute.
Defined.
