(* ===== verification/Objects.v ===== *)
(** * The accumulator as a list object

    In Python [self.elements] is a reference to a list object:
    [cur_elemnts = self.elements] copies the reference, [self.elements = []]
    binds the field to a new list, [self.elements.append(e)] changes the
    list in place, whoever else holds it.  [XMLBuilder] models the field as
    a value.  This file models it as the source has it: [Objects] holds the
    list objects by their identity ([lists]) and the reference the field
    holds ([elements_ref]); the [obj_] methods are the methods of
    [xml_visitor.py] on that state.

    - [obj_visit_refines]: the two models agree.  From a state of objects
      and the state of values it stands for ([abs]), a visit has the same
      outcome in both and leaves states that correspond again.
    - [obj_visit_appends]: a visit only appends to the lists that are
      there, and only to the accumulator: whoever holds a list loses no
      element of it.
    - [obj_visit_returns]: after a visit that returns the field holds the
      list it held before, with one element more, unless the block is a
      [View], which binds it to a new list.
    - [obj_visit_raises]: a container that raises leaves the list of its
      caller as it was, and the field bound to another list.
    - [obj_visit_allocates]: a visit makes one list per container and per
      view.

    Lists are never freed here: a list no reference reaches stays in
    [lists].  The identity of a list is a number; a new list takes a number
    that no list has ([fresh]). *)

From S2P Require Import Prelude PyMonad PyDict Etree Blocks.
From S2P Require Import FileStore AssetWriters XMLBuilder Spec Refinement Examples.

(** The identity of a list object. *)
Definition loc : Type := nat.

Section objects.
Context `{FileStore St} (aw : AssetWriters) (name_of : nat → string).

(** The builder and the lists it can reach: the list objects, the
    reference in [self.elements], and the rest of the state. *)
Record Objects : Type := mkObjects {
  lists : gmap loc (list Element);
  elements_ref : loc;
  outer : Env St
}.

Definition set_lists (ls : gmap loc (list Element)) (h : Objects) : Objects :=
  mkObjects ls (elements_ref h) (outer h).
Definition set_ref (l : loc) (h : Objects) : Objects :=
  mkObjects (lists h) l (outer h).
Definition set_outer (v : Env St) (h : Objects) : Objects :=
  mkObjects (lists h) (elements_ref h) v.

(** The list [self.elements] refers to. *)
Definition deref (h : Objects) : list Element :=
  default [] (lists h !! elements_ref h).

(** The state of values an object state stands for. *)
Definition abs (h : Objects) : World St :=
  mkWorld (mkXMLBuilder (env_store (outer h)) (deref h))
          (env_prev (outer h)) (env_mapping (outer h)) (env_names (outer h)).

(** A list display [[e1, ..., en]]: a new list object. *)
Definition new_list (es : list Element) : M Objects loc := λ h,
  let l := fresh (dom (lists h)) in
  (Return l, set_lists (<[l := es]> (lists h)) h).

(** [XMLBuilder(store)]: the field [elements] is bound to a new list. *)
Definition new_objects (s : St) : Objects :=
  mkObjects {[ 0 := [] ]} 0 (mkEnv s ∅ asset_mapping_init 0).

(** A method that does not use [self.elements], run on the objects. *)
Definition outside {A} (m : M (World St) A) : M Objects A :=
  zoom abs (λ w, set_outer (env_of w)) m.

(** [add_element(_, e)]: [self.elements.append(e)] *)
Definition obj_add_element (e : Element) : M Objects unit :=
  modify (λ h, set_lists (alter (.++ [e]) (elements_ref h) (lists h)) h).

(** [visit(self, b: ContainerBlock)] *)
Definition obj_visit_ContainerBlock (visit : Block → M Objects unit)
    (_tag : string) (_attributes : dict) (blocks : list Block) : M Objects unit :=
  cur_elemnts ← gets elements_ref;
  l ← new_list [];
  _ ← modify (set_ref l);
  _ ← traverse visit blocks;
  es ← gets deref;
  let element := E _tag es _attributes in
  _ ← modify (set_ref cur_elemnts);
  obj_add_element element.

(** [visit(self, b: View)] *)
Definition obj_visit_View (visit : Block → M Objects unit)
    (fragment : bool) (blocks : list Block) : M Objects unit :=
  es ← gets deref;
  _ ← py_assert (bool_decide (length es = 0));
  _ ← traverse visit blocks;
  es ← gets deref;
  let view_doc := E "View" es (mk_attribs fragment) in
  l ← new_list [view_doc];
  modify (set_ref l).

(** [visit(self, b: Interactive)] *)
Definition obj_visit_Interactive (_attributes : dict) (controls : Element)
    (target : TargetMode) : M Objects unit :=
  let c_e := controls in
  e ← outside (if decide (target = SELF) then interactive_self name_of _attributes c_e
               else if decide (target = BELOW ∨ target = SIDE)
                    then interactive_group name_of _attributes c_e target
                    else interactive_default _attributes c_e);
  obj_add_element e.

(** [visit(self, b: AssetBlock)] *)
Definition obj_visit_AssetBlock (b : AssetBlock) : M Objects unit :=
  fe ← outside (_add_asset_to_store aw b);
  attrib ← outside (asset_kwargs b fe);
  let e := E (asset_tag b) [] attrib in
  obj_add_element (set_caption b e).

(** [visit]: the method for the class of the block. *)
Fixpoint obj_visit (b : Block) : M Objects unit :=
  match b with
  | BaseElement t a => obj_add_element (E t [] a)
  | ContainerBlock t a bs => obj_visit_ContainerBlock obj_visit t a bs
  | View f bs => obj_visit_View obj_visit f bs
  | EmbeddedTextBlock t a c => obj_add_element (E_text t (CDATA c) a)
  | Interactive a c m => obj_visit_Interactive a c m
  | Asset x => obj_visit_AssetBlock x
  end.

(** The field refers to a list. *)
Definition obj_wf (h : Objects) : Prop := is_Some (lists h !! elements_ref h).

(** The state after [self.elements = [e1, ..., en]]. *)
Definition rebind (es : list Element) (h : Objects) : Objects :=
  set_ref (fresh (dom (lists h))) (set_lists (<[fresh (dom (lists h)) := es]> (lists h)) h).

(** What a method may do to the lists: none is deleted, the lists that were
    there are as they were but for the one the field referred to, and the
    field refers to that list or to one that was not there. *)
Record extends (h h' : Objects) : Prop := mkExtends {
  extends_wf : obj_wf h → obj_wf h';
  extends_dom : dom (lists h) ⊆ dom (lists h');
  extends_frame l :
    l ∈ dom (lists h) → l ≠ elements_ref h → lists h' !! l = lists h !! l;
  extends_ref : elements_ref h' = elements_ref h ∨ elements_ref h' ∉ dom (lists h)
}.

(** What a method may do to a list that is there: append to it. *)
Definition grows (h h' : Objects) : Prop :=
  ∀ l es, lists h !! l = Some es → ∃ es', lists h' !! l = Some (es ++ es').

(** The number of lists a visit of a block makes. *)
Fixpoint scopes (b : Block) : nat :=
  match b with
  | ContainerBlock _ _ bs | View _ bs => S (sum_list (scopes <$> bs))
  | _ => 0
  end.

Definition is_View (b : Block) : bool :=
  match b with View _ _ => true | _ => false end.

(** The objects [h] stand for the values [w]. *)
Definition stands_for (h : Objects) (w : World St) : Prop := obj_wf h ∧ abs h = w.

(** What a method that makes no list and binds no field may do. *)
Definition stays (h h' : Objects) : Prop :=
  elements_ref h' = elements_ref h ∧ dom (lists h') = dom (lists h).

(** The number of list objects. *)
Definition allocated (h : Objects) : nat := base.size (dom (lists h)).
End objects.

Arguments Objects St : clear implicits.

(** ** The equations of the methods *)

Section facts.
Context `{FileStore St} (aw : AssetWriters) (name_of : nat → string).
Implicit Types (h : Objects St) (w : World St) (e : Element) (es : list Element).
Implicit Types (l : loc) (b : Block).

Notation elems w := (elements (self w)).
Notation obj_visit := (obj_visit aw name_of).
Notation visit := (visit aw name_of).

Lemma run_new_list es h :
  run (new_list es) h =
    (Return (fresh (dom (lists h))), set_lists (<[fresh (dom (lists h)) := es]> (lists h)) h).
Proof. done. Qed.

Lemma run_obj_add_element e h :
  run (obj_add_element e) h =
    (Return tt, set_lists (alter (.++ [e]) (elements_ref h) (lists h)) h).
Proof. done. Qed.

Lemma run_outside {A} (m : M (World St) A) h :
  run (outside m) h = ((run m (abs h)).1, set_outer (env_of (run m (abs h)).2) h).
Proof. by rw /outside run_zoom. Qed.

Lemma run_obj_visit_ContainerBlock (vis : Block → M (Objects St) unit) t a bs h :
  run (obj_visit_ContainerBlock vis t a bs) h =
    match run (traverse vis bs) (rebind [] h) with
    | (Return _, h') =>
        (Return tt, mkObjects (alter (.++ [E t (deref h') a]) (elements_ref h) (lists h'))
                              (elements_ref h) (outer h'))
    | (Raise x, h') => (Raise x, h')
    end.
Proof.
  rw /obj_visit_ContainerBlock. py_simpl. rw -/(rebind [] h).
  destruct (run (traverse vis bs) _) as [[[]|x] h']; [|done]. by py_simpl.
Qed.

Lemma run_obj_visit_View (vis : Block → M (Objects St) unit) f bs h :
  run (obj_visit_View vis f bs) h =
    if bool_decide (deref h = []) then
      match run (traverse vis bs) h with
      | (Return _, h') => (Return tt, rebind [E "View" (deref h') (mk_attribs f)] h')
      | (Raise x, h') => (Raise x, h')
      end
    else (Raise AssertionError, h).
Proof.
  rw /obj_visit_View. py_simpl. rw bool_decide_length_0.
  case_bool_decide; [|done]. py_simpl.
  destruct (run (traverse vis bs) _) as [[[]|x] h']; [|done]. by py_simpl.
Qed.

(** ** Objects and the values they stand for *)

Lemma deref_wf h : obj_wf h → lists h !! elements_ref h = Some (deref h).
Proof. rw /deref. by intros [es ->]. Qed.

Lemma deref_rebind es h : deref (rebind es h) = es.
Proof. by rw /deref /= lookup_insert_eq. Qed.

Lemma wf_rebind es h : obj_wf (rebind es h).
Proof. rw /obj_wf /= lookup_insert_eq. by eexists. Qed.

Lemma abs_rebind es h : abs (rebind es h) = set_elements es (abs h).
Proof. by rw /abs deref_rebind. Qed.

Lemma deref_add e h :
  obj_wf h → deref (set_lists (alter (.++ [e]) (elements_ref h) (lists h)) h) = deref h ++ [e].
Proof. intros Hh. by rw /deref /= lookup_alter_eq (deref_wf h Hh). Qed.

Lemma abs_add e h :
  obj_wf h →
  abs (set_lists (alter (.++ [e]) (elements_ref h) (lists h)) h) =
    set_elements (elems (abs h) ++ [e]) (abs h).
Proof. intros Hh. by rw /abs deref_add. Qed.

Lemma abs_set_outer w h : elems w = deref h → abs (set_outer (env_of w) h) = w.
Proof. destruct w as [[]]. rw /abs /=. by intros ->. Qed.

Lemma abs_new_objects (s : St) : abs (new_objects s) = new_world s.
Proof. done. Qed.

Lemma wf_new_objects (s : St) : obj_wf (new_objects s).
Proof. by eexists. Qed.

(** ** The order of extension *)

Lemma fresh_list h l : l ∈ dom (lists h) → l ≠ fresh (dom (lists h)).
Proof. intros Hl ->. by apply (is_fresh (dom (lists h))). Qed.

#[export] Instance extends_preorder : PreOrder (extends (St := St)).
Proof.
  split; [by split; auto|]. intros h1 h2 h3 [Hw1 Hd1 Hf1 Hr1] [Hw2 Hd2 Hf2 Hr2].
  split; [auto | by etrans | |].
  - intros l Hl Hne. rw -(Hf1 l Hl Hne). apply Hf2; [by apply Hd1|].
    destruct Hr1 as [->|Hr1]; [done | by intros ->].
  - destruct Hr2 as [->|Hr2]; [done|]. right. intros Hin. by apply Hr2, Hd1.
Qed.

Lemma extends_rebind es h : extends h (rebind es h).
Proof.
  split; rw /=.
  - intros _. apply wf_rebind.
  - rw dom_insert. set_solver.
  - intros l Hl _. by rw lookup_insert_ne; [|apply not_eq_sym, fresh_list].
  - right. apply is_fresh.
Qed.

Lemma extends_add e h :
  extends h (set_lists (alter (.++ [e]) (elements_ref h) (lists h)) h).
Proof.
  split; rw /= ?dom_alter; [|done| |by left].
  - rw /obj_wf /= lookup_alter_eq. by intros [es ->].
  - intros l _ Hl. by rw lookup_alter_ne.
Qed.

Lemma extends_set_outer v h : extends h (set_outer v h).
Proof. by split; auto. Qed.

Lemma lookup_rebind es h l : l ∈ dom (lists h) → lists (rebind es h) !! l = lists h !! l.
Proof. intros Hl. apply lookup_insert_ne, not_eq_sym. by apply fresh_list. Qed.

Lemma dom_rebind es h : dom (lists h) ⊆ dom (lists (rebind es h)).
Proof. rw /= dom_insert. set_solver. Qed.

(** The list of the caller of a container, while the blocks of the
    container are visited. *)
Lemma extends_caller h h' :
  obj_wf h → extends (rebind [] h) h' →
  lists h' !! elements_ref h = lists h !! elements_ref h ∧
  elements_ref h' ≠ elements_ref h.
Proof.
  intros Hh%elem_of_dom [_ Hd Hf Hr]. split.
  - rw Hf; [by apply lookup_rebind | by apply dom_rebind | by apply fresh_list].
  - destruct Hr as [->|Hr]; [by apply not_eq_sym, fresh_list|].
    intros Heq. apply Hr. rw Heq. by apply dom_rebind.
Qed.

(** The state a container leaves when its blocks have returned. *)
Lemma extends_close h h' e :
  extends (rebind [] h) h' →
  extends h (mkObjects (alter (.++ [e]) (elements_ref h) (lists h'))
                       (elements_ref h) (outer h')).
Proof.
  intros Hh'. split; rw /= ?dom_alter.
  - intros Hh. destruct (extends_caller h h' Hh Hh') as [Hcur _].
    rw /obj_wf /= lookup_alter_eq Hcur. by destruct Hh as [es ->].
  - etrans; [apply (dom_rebind [])|]. by destruct Hh'.
  - destruct Hh' as [_ Hd Hf _].
    intros l Hl Hne. rw lookup_alter_ne // Hf;
      [by apply lookup_rebind | by apply dom_rebind | by apply fresh_list].
  - by left.
Qed.

(** ** What a visit does to the lists *)

Lemma outside_extends {A} (m : M (World St) A) h : extends h (run (outside m) h).2.
Proof. rw run_outside. apply extends_set_outer. Qed.

Lemma obj_add_element_extends e h : extends h (run (obj_add_element e) h).2.
Proof. apply extends_add. Qed.

Lemma obj_visit_extends b h : extends h (run (obj_visit b) h).2.
Proof.
  revert h. induction b as [t a|t a bs IH|f bs IH|t a c|a c m|x]; intros h.
  - apply extends_add.
  - rw /= run_obj_visit_ContainerBlock.
    pose proof (traverse_preserves obj_visit extends bs IH (rebind [] h)) as Hbs.
    destruct (run (traverse _ bs) _) as [[[]|e] h']; simpl in *.
    + by apply extends_close.
    + by etrans; [apply (extends_rebind [])|].
  - rw /= run_obj_visit_View. case_bool_decide; [|done].
    pose proof (traverse_preserves obj_visit extends bs IH h) as Hbs.
    destruct (run (traverse _ bs) _) as [[[]|e] h']; simpl in *; [|done].
    etrans; [done | apply extends_rebind].
  - apply extends_add.
  - apply (bind_preserves extends); intros; [apply outside_extends | apply extends_add].
  - apply (bind_preserves extends); [intros; apply outside_extends|]. intros fe h1.
    apply (bind_preserves extends); intros; [apply outside_extends | apply extends_add].
Qed.

(** ** Lists only grow *)

#[export] Instance grows_preorder : PreOrder (grows (St := St)).
Proof.
  split.
  - intros h l es Hl. exists []. by rw app_nil_r.
  - intros h1 h2 h3 H1 H2 l es Hl. destruct (H1 l es Hl) as [es1 Hl1].
    destruct (H2 l _ Hl1) as [es2 Hl2]. exists (es1 ++ es2). by rw app_assoc.
Qed.

Lemma grows_alter e l h l' (v : Env St) :
  grows h (mkObjects (alter (.++ [e]) l (lists h)) l' v).
Proof.
  intros k es Hk. destruct (decide (k = l)) as [->|Hne].
  - exists [e]. by rw /= lookup_alter_eq Hk.
  - exists []. by rw /= lookup_alter_ne // app_nil_r.
Qed.

Lemma grows_rebind es h : grows h (rebind es h).
Proof.
  intros l es' Hl. exists []. rw app_nil_r lookup_rebind //. by apply elem_of_dom.
Qed.

Lemma outside_grows {A} (m : M (World St) A) h : grows h (run (outside m) h).2.
Proof. rw run_outside. intros l es Hl. exists []. by rw app_nil_r. Qed.

Lemma obj_visit_grows b h : grows h (run (obj_visit b) h).2.
Proof.
  revert h. induction b as [t a|t a bs IH|f bs IH|t a c|a c m|x]; intros h.
  - apply grows_alter.
  - rw /= run_obj_visit_ContainerBlock.
    pose proof (traverse_preserves obj_visit grows bs IH (rebind [] h)) as Hbs.
    destruct (run (traverse _ bs) _) as [[[]|e] h']; simpl in *.
    + etrans; [apply (grows_rebind [])|]. etrans; [done | apply grows_alter].
    + by etrans; [apply (grows_rebind [])|].
  - rw /= run_obj_visit_View. case_bool_decide; [|done].
    pose proof (traverse_preserves obj_visit grows bs IH h) as Hbs.
    destruct (run (traverse _ bs) _) as [[[]|e] h']; simpl in *; [|done].
    etrans; [done | apply grows_rebind].
  - apply grows_alter.
  - apply (bind_preserves grows); intros; [apply outside_grows | apply grows_alter].
  - apply (bind_preserves grows); [intros; apply outside_grows|]. intros fe h1.
    apply (bind_preserves grows); intros; [apply outside_grows | apply grows_alter].
Qed.

(** ** The two models agree *)

Lemma outside_simulates {A} (m : M (World St) A) :
  (∀ w, elems (run m w).2 = elems w) → simulates (stands_for (St := St))(outside m) m.
Proof.
  intros Hm h w [Hh <-]. rw run_outside. split; [done|]. split; [done|].
  apply abs_set_outer, Hm.
Qed.

Lemma obj_add_element_simulates e :
  simulates (stands_for (St := St))(obj_add_element e) (add_element e).
Proof.
  intros h w [Hh <-]. rw run_obj_add_element run_add_element. split; [done|].
  split; [by apply (extends_add e h) | by apply abs_add].
Qed.

Lemma interactive_elements a c m w :
  elems (run (if decide (m = SELF) then interactive_self name_of a c
              else if decide (m = BELOW ∨ m = SIDE) then interactive_group name_of a c m
                   else interactive_default a c) w).2 = elems w.
Proof. by repeat case_decide. Qed.

Lemma add_asset_elements x w : elems (run (_add_asset_to_store aw x) w).2 = elems w.
Proof. by rw (add_asset_lifted aw x w) run_lifted. Qed.

Lemma asset_kwargs_elements x fe w : elems (run (asset_kwargs x fe) w).2 = elems w.
Proof. by rw asset_kwargs_call. Qed.

Lemma traverse_extends bs h : extends h (run (traverse obj_visit bs) h).2.
Proof.
  apply (traverse_preserves obj_visit extends), Forall_forall.
  intros b _. apply obj_visit_extends.
Qed.

Lemma obj_visit_simulates b : simulates (stands_for (St := St))(obj_visit b) (visit b).
Proof.
  induction b as [t a|t a bs IH|f bs IH|t a c|a c m|x].
  - apply obj_add_element_simulates.
  - intros h w [Hh <-]. rw /= run_obj_visit_ContainerBlock run_visit_ContainerBlock.
    destruct (simulates_traverse stands_for obj_visit visit bs IH (rebind [] h)
                (set_elements [] (abs h))) as [Ho [Hh' Habs]].
    { split; [apply wf_rebind | apply abs_rebind]. }
    pose proof (traverse_extends bs (rebind [] h)) as Hext.
    destruct (run (traverse obj_visit bs) _) as [[[]|e] h'],
      (run (traverse visit bs) _) as [[[]|e'] w']; simplify_eq/=; [|done].
    split; [done|]. split; [by apply (extends_close h h' _ Hext)|].
    destruct (extends_caller h h' Hh Hext) as [Hcur _].
    by rw /abs /deref /= lookup_alter_eq Hcur (deref_wf h Hh).
  - intros h w [Hh <-]. rw /= run_obj_visit_View run_visit_View.
    destruct (simulates_traverse stands_for obj_visit visit bs IH h (abs h))
      as [Ho [Hh' Habs]]; [done|].
    change (elems (abs h)) with (deref h). case_bool_decide; [|done].
    destruct (run (traverse obj_visit bs) _) as [[[]|e] h'],
      (run (traverse visit bs) _) as [[[]|e'] w']; simplify_eq/=; [|done].
    split; [done|]. split; [apply wf_rebind | apply abs_rebind].
  - apply obj_add_element_simulates.
  - apply simulates_bind; [|intros e; apply obj_add_element_simulates].
    apply outside_simulates, interactive_elements.
  - apply simulates_bind; [apply outside_simulates, add_asset_elements|]. intros fe.
    apply simulates_bind; [apply outside_simulates, asset_kwargs_elements|]. intros attrib.
    apply obj_add_element_simulates.
Qed.

(** ** The identity of the accumulator *)

#[export] Instance stays_preorder : PreOrder (stays (St := St)).
Proof.
  split; [done|]. intros h1 h2 h3 [Hr1 Hl1] [Hr2 Hl2]. split; by etrans.
Qed.

Lemma stays_add e h :
  stays h (set_lists (alter (.++ [e]) (elements_ref h) (lists h)) h).
Proof. split; [done|]. by rw /= dom_alter_L. Qed.

Lemma outside_stays {A} (m : M (World St) A) h : stays h (run (outside m) h).2.
Proof. by rw run_outside. Qed.

(** The blocks without blocks of their own. *)
Lemma obj_leaf_stays b h : scopes b = 0 → stays h (run (obj_visit b) h).2.
Proof.
  destruct b as [t a|t a bs|f bs|t a c|a c m|x]; try done; intros _.
  - apply stays_add.
  - apply stays_add.
  - apply (bind_preserves stays); intros; [apply outside_stays | apply stays_add].
  - apply (bind_preserves stays); [intros; apply outside_stays|]. intros fe h1.
    apply (bind_preserves stays); intros; [apply outside_stays | apply stays_add].
Qed.

Lemma obj_leaf_raises b h (err : PyExc) :
  scopes b = 0 → (run (obj_visit b) h).1 = Raise err →
  lists (run (obj_visit b) h).2 = lists h.
Proof.
  destruct b as [t a|t a bs|f bs|t a c|a c m|x]; try done; intros _.
  - rw /= /obj_visit_Interactive run_bind run_outside.
    by destruct (run _ (abs h)) as [[]].
  - rw /= /obj_visit_AssetBlock run_bind run_outside.
    destruct (run _ (abs h)) as [[fe|e1] w1]; [|done]. rw /= run_bind run_outside.
    by destruct (run _ (abs _)) as [[]].
Qed.

Lemma allocated_rebind es h : allocated (rebind es h) = S (allocated h).
Proof.
  rw /allocated /= dom_insert_L size_union; [by rw size_singleton|].
  apply disjoint_singleton_l, is_fresh.
Qed.

Lemma allocated_alter f l h l' (v : Env St) :
  allocated (mkObjects (alter f l (lists h)) l' v) = allocated h.
Proof. by rw /allocated /= dom_alter_L. Qed.

Lemma obj_leaf_allocated b h :
  scopes b = 0 → allocated (run (obj_visit b) h).2 = allocated h.
Proof. intros [_ Hd]%(obj_leaf_stays b h). by rw /allocated Hd. Qed.

Lemma obj_leaf_allocated_eq b h o h' :
  run (obj_visit b) h = (o, h') → scopes b = 0 → allocated h' = allocated h + scopes b.
Proof. intros Hr Hb. rw Hb -(obj_leaf_allocated b h Hb) Hr /=. lia. Qed.

Lemma obj_visit_allocated_le b h :
  allocated (run (obj_visit b) h).2 ≤ allocated h + scopes b.
Proof.
  revert h. induction b as [t a|t a bs IH|f bs IH|t a c|a c m|x]; intros h.
  1, 4-6: rw obj_leaf_allocated //=; lia.
  - csimpl. rw run_obj_visit_ContainerBlock.
    pose proof (traverse_bound obj_visit allocated scopes bs IH (rebind [] h)) as Hbs.
    rw allocated_rebind in Hbs.
    destruct (run (traverse _ bs) _) as [[[]|e] h']; csimpl in *; [|lia].
    rw allocated_alter. lia.
  - csimpl. rw run_obj_visit_View. case_bool_decide; [|csimpl; lia].
    pose proof (traverse_bound obj_visit allocated scopes bs IH h) as Hbs.
    destruct (run (traverse _ bs) _) as [[[]|e] h']; csimpl in *; [|lia].
    rw allocated_rebind. lia.
Qed.

Lemma obj_visit_allocated_eq b h h' :
  run (obj_visit b) h = (Return tt, h') → allocated h' = allocated h + scopes b.
Proof.
  revert h h'. induction b as [t a|t a bs IH|f bs IH|t a c|a c m|x]; intros h h' Hb.
  1, 4-6: exact (obj_leaf_allocated_eq _ _ _ _ Hb eq_refl).
  - move: Hb. csimpl. rw run_obj_visit_ContainerBlock.
    pose proof (traverse_sum obj_visit allocated scopes bs IH (rebind [] h)) as Hbs.
    destruct (run (traverse _ bs) _) as [[[]|e] h1]; [|done]. intros [= <-].
    rw allocated_alter (Hbs h1 eq_refl) allocated_rebind. lia.
  - move: Hb. csimpl. rw run_obj_visit_View. case_bool_decide; [|done].
    pose proof (traverse_sum obj_visit allocated scopes bs IH h) as Hbs.
    destruct (run (traverse _ bs) _) as [[[]|e] h1]; [|done]. intros [= <-].
    rw allocated_rebind (Hbs h1 eq_refl). lia.
Qed.

(** A view that returns binds the field to a new list, which holds the
    document and nothing else. *)
Lemma obj_visit_View_rebinds f bs h h' :
  run (obj_visit (View f bs)) h = (Return tt, h') →
  elements_ref h' ∉ dom (lists h) ∧
  ∃ doc, lists h' !! elements_ref h' = Some [doc] ∧ tag doc = "View".
Proof.
  rw /= run_obj_visit_View. case_bool_decide; [|done].
  pose proof (traverse_extends bs h) as [_ Hd _ _].
  destruct (run (traverse _ bs) _) as [[[]|e] h1]; [|done]. intros [= <-]. split.
  - intros Hin%Hd. by apply (is_fresh (dom (lists h1))).
  - eexists. by rw /= lookup_insert_eq.
Qed.
End facts.

Section theorems.
Context `{FileStore St} (aw : AssetWriters) (name_of : nat → string).
Implicit Types (h : Objects St) (b : Block).

Notation elems w := (elements (self w)).
Notation obj_visit := (obj_visit aw name_of).
Notation visit := (visit aw name_of).

(** C3. The visitor on list objects and the visitor on values agree.  From
    a state of objects in which [self.elements] refers to a list, a visit
    has the outcome it has in the state of values the objects stand for,
    and leaves objects that stand for the state of values it leaves there,
    after a return and after an exception alike. *)
Theorem obj_visit_refines b h :
  obj_wf h →
  (run (obj_visit b) h).1 = (run (visit b) (abs h)).1 ∧
  abs (run (obj_visit b) h).2 = (run (visit b) (abs h)).2 ∧
  obj_wf (run (obj_visit b) h).2.
Proof.
  intros Hh. by destruct (obj_visit_simulates aw name_of b h (abs h)) as (? & ? & ?).
Qed.

(** C12. A visit only appends, and only to the accumulator.  Whatever the
    block and whatever the outcome, every list object that is there when
    the visit starts is there afterwards and begins with the elements it
    held, in their order: nothing is removed from it, replaced in it or put
    before them.  If it is not the list [self.elements] referred to at the
    start, it holds nothing more.  So whoever holds a list (an enclosing
    container in [cur_elemnts], the caller that gave it to the
    constructor) loses no element of it through a visit. *)
Theorem obj_visit_appends b h l es :
  lists h !! l = Some es →
  ∃ es', lists (run (obj_visit b) h).2 !! l = Some (es ++ es') ∧
         (l ≠ elements_ref h → es' = []).
Proof.
  intros Hl. destruct (obj_visit_grows aw name_of b h l es Hl) as [es' Hl'].
  exists es'. split; [done|]. intros Hne.
  destruct (obj_visit_extends aw name_of b h) as [_ _ Hf _].
  assert (l ∈ dom (lists h)) as Hd by (by apply elem_of_dom).
  pose proof (Hf l Hd Hne) as Heq. rw Hl' Hl in Heq.
  apply (app_inv_head es). rw app_nil_r. congruence.
Qed.

(** C18. The list a visit that returns leaves in the field.  After a visit
    of a block that is not a [View], [self.elements] refers to the list it
    referred to before, and that list is as it was with one element more:
    the element the visitor on values appends.  After a visit of a [View]
    it refers to a list made during the visit, which holds the document
    and nothing else; the list the builder had is not the one that holds
    the document. *)
Theorem obj_visit_returns b h h' :
  obj_wf h → run (obj_visit b) h = (Return tt, h') →
  if is_View b
  then elements_ref h' ∉ dom (lists h) ∧
       ∃ doc, lists h' !! elements_ref h' = Some [doc] ∧ tag doc = "View"
  else elements_ref h' = elements_ref h ∧
       ∃ e, lists h' !! elements_ref h = Some (deref h ++ [e]) ∧
            elems (run (visit b) (abs h)).2 = deref h ++ [e].
Proof.
  intros Hh Hr. destruct (is_View b) eqn:Hb.
  { destruct b; try done. by eapply obj_visit_View_rebinds. }
  destruct (obj_visit_simulates aw name_of b h (abs h)) as (Ho & Hh' & Habs); [done|].
  assert (elements_ref h' = elements_ref h) as Href.
  { destruct (decide (scopes b = 0)) as [Hl|Hc].
    - destruct (obj_leaf_stays aw name_of b h Hl) as [Href _]. by rw Hr in Href.
    - destruct b; try done. move: Hr. rw /= run_obj_visit_ContainerBlock.
      destruct (run (traverse _ _) _) as [[[]|e] h1]; [|done]. by intros [= <-]. }
  split; [done|]. move: Ho Habs Hh'. rw Hr /=. intros Ho Habs Hh'.
  destruct (run (visit b) (abs h)) as [[[]|e] w'] eqn:Hv; [|done].
  apply visit_returns in Hv as (e & v & _ & ->). exists e. split; [|done].
  rw -Href (deref_wf h' Hh'). change (deref h') with (elems (abs h')). by rw Habs.
Qed.

(** C19. A block that raises leaves the list of its caller alone.  When a
    visit of a block that is not a [View] raises, the list [self.elements]
    referred to is as it was.  After a container [self.elements] refers to
    another list: the reference of the caller is not put back.  After any
    other block it refers to the same list. *)
Theorem obj_visit_raises b h (err : PyExc) :
  obj_wf h → is_View b = false → (run (obj_visit b) h).1 = Raise err →
  lists (run (obj_visit b) h).2 !! elements_ref h = lists h !! elements_ref h ∧
  match b with
  | ContainerBlock _ _ _ => elements_ref (run (obj_visit b) h).2 ≠ elements_ref h
  | _ => elements_ref (run (obj_visit b) h).2 = elements_ref h
  end.
Proof.
  intros Hh Hb Hr. destruct (decide (scopes b = 0)) as [Hl|Hc].
  - rw (obj_leaf_raises aw name_of b h err Hl Hr). split; [done|].
    destruct (obj_leaf_stays aw name_of b h Hl) as [Href _]. by destruct b.
  - destruct b as [|t a bs| | | |]; try done. move: Hr.
    rw /= run_obj_visit_ContainerBlock.
    pose proof (traverse_extends aw name_of bs (rebind [] h)) as Hext.
    destruct (run (traverse _ _) _) as [[[]|e] h1]; [done|]. intros _.
    by apply extends_caller.
Qed.

(** The lists a visit makes.  A visit makes at most one list for every
    container and every view of the tree, and exactly that many when it
    returns. *)
Theorem obj_visit_allocates b h :
  allocated (run (obj_visit b) h).2 ≤ allocated h + scopes b ∧
  (is_Return (run (obj_visit b) h).1 = true →
   allocated (run (obj_visit b) h).2 = allocated h + scopes b).
Proof.
  split; [apply obj_visit_allocated_le|].
  destruct (run (obj_visit b) h) as [[[]|e] h'] eqn:Hr; [|done]. intros _.
  by apply (obj_visit_allocated_eq aw name_of).
Qed.
End theorems.

(** A group with a text and a table, and a group whose second block cannot
    be stored. *)
Definition ex_column : Block :=
  ContainerBlock "Group" [("columns", "2")]
    [EmbeddedTextBlock "Text" [] "hi"; Asset ex_table].

Definition ex_failing : Block :=
  ContainerBlock "Group" [] [Asset ex_table; Asset ex_unsupported].

Definition ex_objects : Objects ListStore.t := new_objects ex_store.

Lemma obj_visit_refines_witness :
  (run (obj_visit ex_writers pretty ex_view) ex_objects).1 =
    (run (visit ex_writers pretty ex_view) (abs ex_objects)).1 ∧
  abs (run (obj_visit ex_writers pretty ex_view) ex_objects).2 =
    (run (visit ex_writers pretty ex_view) (abs ex_objects)).2 ∧
  obj_wf (run (obj_visit ex_writers pretty ex_view) ex_objects).2.
Proof. apply (obj_visit_refines ex_writers pretty ex_view ex_objects). by eexists. Defined.

(** A builder that holds a divider when the group is visited. *)
Definition ex_started : Objects ListStore.t :=
  (run (obj_visit ex_writers pretty (BaseElement "Divider" [])) ex_objects).2.

Lemma obj_visit_appends_witness :
  ∃ es', lists (run (obj_visit ex_writers pretty ex_column) ex_started).2 !! 0 =
           Some ([E "Divider" [] []] ++ es') ∧
         (0 ≠ elements_ref ex_started → es' = []).
Proof. by apply (obj_visit_appends ex_writers pretty ex_column ex_started). Defined.

Lemma obj_visit_returns_witness :
  elements_ref (run (obj_visit ex_writers pretty ex_column) ex_objects).2 =
    elements_ref ex_objects ∧
  ∃ e, lists (run (obj_visit ex_writers pretty ex_column) ex_objects).2
         !! elements_ref ex_objects = Some (deref ex_objects ++ [e]) ∧
       elements (self (run (visit ex_writers pretty ex_column) (abs ex_objects)).2) =
         deref ex_objects ++ [e].
Proof.
  refine (obj_visit_returns ex_writers pretty ex_column ex_objects _ _ _);
    [by eexists | by vm_compute].
Defined.

Lemma obj_visit_raises_witness :
  lists (run (obj_visit ex_writers pretty ex_failing) ex_objects).2 !! elements_ref ex_objects =
    lists ex_objects !! elements_ref ex_objects ∧
  elements_ref (run (obj_visit ex_writers pretty ex_failing) ex_objects).2 ≠
    elements_ref ex_objects.
Proof.
  apply (obj_visit_raises ex_writers pretty ex_failing ex_objects
           (DPClientError "complex not supported for XMLBuilder"));
    [by eexists | done | by vm_compute].
Defined.
