(* ===== verification/Calls.v ===== *)
(** * The calls a visit makes on the store

    The specification asks that the elements and the files of a document
    stay in step.  [Logged St] is a store [St] that also keeps the list of
    the calls that registered an entry ([add_file], [load_file]), in the
    order they were made; it is a [FileStore] whenever [St] is.

    - [visit_erases]: the log is an observer.  A visit on the store with a
      log does what the visit on the store without it does.
    - [visit_calls]: a visit that returns has made one call for every asset
      block of the tree, in the order of the blocks, each registering the
      entry the block is left with (the entry the [src] of its element
      names, by [visit_renders]), and the store it leaves is the store it
      was given after these calls ([replay]).
    - [visit_replays]: the record is complete whatever the outcome. *)

From S2P Require Import Prelude PyMonad PyDict Etree Blocks.
From S2P Require Import FileStore AssetWriters XMLBuilder Spec Refinement Examples.
From S2P Require Import Evolution Assets.

(** A call of a method of the store that registers an entry. *)
Inductive StoreCall : Type :=
| AddFile (fe : FileEntry)
| LoadFile (path : string) (fe : FileEntry).

(** The entry a call registers. *)
Definition entry_of (c : StoreCall) : FileEntry :=
  match c with AddFile fe | LoadFile _ fe => fe end.

(** A store with the list of the calls made on it. *)
Record Logged (St : Type) : Type := mkLogged {
  inner : St;
  calls : list StoreCall
}.
Arguments mkLogged {St} inner calls.
Arguments inner {St} _.
Arguments calls {St} _.

#[export] Program Instance Logged_FileStore `{FileStore St} : FileStore (Logged St) := {
  fw_klass s := fw_klass (inner s);
  files s := files (inner s);
  hash := hash (St := St);
  get_file s := get_file (inner s);
  load_file s p :=
    ((load_file (inner s) p).1,
     mkLogged (load_file (inner s) p).2 (calls s ++ [LoadFile p (load_file (inner s) p).1]));
  add_file s fe := mkLogged (add_file (inner s) fe) (calls s ++ [AddFile fe])
}.
Next Obligation. intros St ? s e m. apply get_file_fresh. Qed.
Next Obligation. intros St ?. apply hash_content. Qed.
Next Obligation. intros St ? s fe. apply add_file_klass. Qed.
Next Obligation. intros St ? s fe. apply add_file_registers. Qed.
Next Obligation. intros St ? s fe. apply add_file_mono. Qed.
Next Obligation. intros St ? s p. apply load_file_entry_klass. Qed.
Next Obligation. intros St ? s p. apply load_file_klass. Qed.
Next Obligation. intros St ? s p. apply load_file_registers. Qed.
Next Obligation. intros St ? s p. apply load_file_mono. Qed.

Section erase.
Context `{FileStore St} (aw : AssetWriters) (name_of : nat → string).
Implicit Types (w : World (Logged St)) (v : Env (Logged St)) (b : Block) (x : AssetBlock).

Notation elems w := (elements (self w)).

(** The state without the log. *)
Definition erase (w : World (Logged St)) : World St :=
  mkWorld (mkXMLBuilder (inner (store (self w))) (elements (self w)))
          (prev_entry w) (asset_mapping w) (names w).

Notation erased := (λ w (u : World St), erase w = u).

Lemma add_element_erased e : simulates erased (add_element e) (add_element e).
Proof. by intros w ? <-. Qed.

Lemma add_asset_erased x :
  simulates erased (_add_asset_to_store aw x) (_add_asset_to_store aw x).
Proof.
  intros w ? <-. rw !(add_asset_lifted aw x _) !run_lifted.
  rw /run /store_asset /memo_hit /=.
  destruct (prev_entry w !! oid x) as [pe|]; [case_decide; [done|]|];
    repeat case_match; by simplify_eq/=.
Qed.

Lemma asset_kwargs_erased x fe :
  simulates erased (asset_kwargs x fe) (asset_kwargs x fe).
Proof. intros w ? <-. by rw !asset_kwargs_call. Qed.

Lemma visit_erased b : simulates erased (visit aw name_of b) (visit aw name_of b).
Proof.
  induction b as [t a|t a bs IH|f bs IH|t a c|a c m|x].
  - apply add_element_erased.
  - intros w ? <-. rw /= !run_visit_ContainerBlock.
    destruct (simulates_traverse erased _ _ bs IH (set_elements [] w)
                (set_elements [] (erase w)) eq_refl) as [Ho Hs].
    destruct (run (traverse _ bs) (set_elements [] w)) as [[[]|e] w1],
      (run (traverse _ bs) (set_elements [] (erase w))) as [[[]|e'] w1'];
      simplify_eq/=; [|done]. by split.
  - intros w ? <-. rw /= !run_visit_View.
    destruct (simulates_traverse erased _ _ bs IH w (erase w) eq_refl) as [Ho Hs].
    change (elems (erase w)) with (elems w). case_bool_decide; [|done].
    destruct (run (traverse _ bs) w) as [[[]|e] w1],
      (run (traverse _ bs) (erase w)) as [[[]|e'] w1']; simplify_eq/=; [|done].
    by split.
  - apply add_element_erased.
  - intros w ? <-. rw /= /visit_Interactive. by repeat case_decide.
  - apply simulates_bind; [apply add_asset_erased|]. intros fe.
    apply simulates_bind; [apply asset_kwargs_erased|]. intros attrib.
    apply add_element_erased.
Qed.
End erase.

Section calls.
Context `{FileStore St} (aw : AssetWriters) (name_of : nat → string).
Implicit Types (w : World (Logged St)) (v : Env (Logged St)) (b : Block) (x : AssetBlock).

Notation elems w := (elements (self w)).
Notation to_xml := (to_xml aw name_of).
Notation logged v := (calls (env_store v)).

(** The calls a tree accounts for: one per asset block, in the order of the
    blocks, each registering the entry the block has. *)
Definition accounts (v : Env (Logged St)) (b : Block) (ops : list StoreCall) : Prop :=
  Forall2 (λ x op, memo_hit x v = Some (entry_of op)) (assets b) ops.

(** The store after the calls [ops] have been made on it, one after the
    other. *)
Definition replay (ops : list StoreCall) (s : St) : St :=
  foldl (λ s op, match op with
                 | AddFile fe => add_file s fe
                 | LoadFile path _ => (load_file s path).2
                 end) s ops.

(** The entry recorded with every call of [load_file] is the entry the
    store returned, when the calls are made on [s]. *)
Fixpoint valid (ops : list StoreCall) (s : St) : Prop :=
  match ops with
  | [] => True
  | AddFile fe :: ops' => valid ops' (add_file s fe)
  | LoadFile path fe :: ops' =>
      fe = (load_file s path).1 ∧ valid ops' (load_file s path).2
  end.

(** The record is complete: the store is the store of [s] after the calls
    recorded since. *)
Definition replays (s s' : Logged St) : Prop :=
  ∃ ops, calls s' = calls s ++ ops ∧ valid ops (inner s) ∧
         inner s' = replay ops (inner s).

Lemma replay_app ops ops' (s : St) : replay (ops ++ ops') s = replay ops' (replay ops s).
Proof. apply foldl_app. Qed.

Lemma valid_app ops ops' (s : St) :
  valid (ops ++ ops') s ↔ valid ops s ∧ valid ops' (replay ops s).
Proof.
  revert s. induction ops as [|[fe|p fe] ops IH]; intros s; [naive_solver|..];
    rw /= IH; naive_solver.
Qed.

#[export] Instance replays_preorder : PreOrder replays.
Proof.
  split; [intros s; exists []; by rw app_nil_r|].
  intros s1 s2 s3 (ops & Hc & Hv & Hi) (ops' & Hc' & Hv' & Hi'). exists (ops ++ ops').
  rw Hc' Hc Hi' Hi app_assoc replay_app valid_app. by rw Hi in Hv'.
Qed.

Lemma replays_add_file (s : Logged St) fe : replays s (add_file s fe).
Proof. by exists [AddFile fe]. Qed.

Lemma replays_load_file (s : Logged St) path : replays s (load_file s path).2.
Proof. by eexists [LoadFile path _]. Qed.

(** The same for the states of the specification. *)
Definition env_replays : relation (Env (Logged St)) :=
  λ v v', replays (env_store v) (env_store v').

#[export] Instance env_replays_preorder : PreOrder env_replays.
Proof.
  split; [intros v; apply (reflexivity (R := replays))|].
  intros v1 v2 v3. apply (transitivity (R := replays)).
Qed.

Lemma store_asset_replays x v : env_replays v (run (store_asset aw x) v).2.
Proof.
  rw /run /store_asset /env_replays.
  destruct (memo_hit x v) as [pe|]; [apply replays_add_file|].
  repeat case_match; simplify_eq/=;
    done || apply replays_add_file || apply replays_load_file.
Qed.

Lemma to_xml_replays b at_start v : env_replays v (run (to_xml at_start b) v).2.
Proof.
  apply to_xml_preserves; [apply _ | apply store_asset_replays |].
  intros v'. apply (reflexivity (R := replays)).
Qed.

Lemma accounts_mono v v' b ops : evolves aw v v' → accounts v b ops → accounts v' b ops.
Proof.
  intros Hv Hacc. eapply Forall2_impl; [exact Hacc|]. intros x op.
  apply (evolves_memo aw v v' Hv).
Qed.

Lemma accounts_blocks v (wrap : list Block → Block) bs css :
  assets (wrap bs) = mjoin (assets <$> bs) →
  Forall2 (accounts v) bs css → accounts v (wrap bs) (mjoin css).
Proof.
  intros Hw Hbs. rw /accounts Hw. by apply Forall2_join, Forall2_fmap_l.
Qed.

Lemma store_asset_call x v fe v' :
  run (store_asset aw x) v = (Return fe, v') →
  ∃ op, logged v' = logged v ++ [op] ∧ entry_of op = fe.
Proof.
  rw /run /store_asset. destruct (memo_hit x v) as [pe|].
  { intros [= <- <-]. by exists (AddFile pe). }
  repeat case_match; intros; simplify_eq/=; by eexists (_ _).
Qed.

Lemma collect_calls bs v es v1 :
  Forall (λ b, ∀ at_start v e v', run (to_xml at_start b) v = (Return e, v') →
                ∃ ops, logged v' = logged v ++ ops ∧ accounts v' b ops) bs →
  run (collect to_xml true bs) v = (Return es, v1) →
  ∃ css, logged v1 = logged v ++ mjoin css ∧ Forall2 (accounts v1) bs css.
Proof.
  intros IH Hbs.
  eapply (collect_appends to_xml (evolves aw) (λ v, logged v) accounts);
    [apply accounts_mono | intros; apply to_xml_evolves | | exact Hbs].
  eapply Forall_impl; [exact IH|]. intros b Hb first. apply Hb.
Qed.

Lemma to_xml_calls b at_start v e v' :
  run (to_xml at_start b) v = (Return e, v') →
  ∃ ops, logged v' = logged v ++ ops ∧ accounts v' b ops.
Proof.
  revert at_start v e v'.
  induction b as [t a|t a bs IH|f bs IH|t a c|a c m|x]; intros at_start v e v'.
  - rw /run /=. intros [= _ <-]. exists []. rw app_nil_r. by split; [|constructor].
  - rw run_to_xml_container.
    destruct (run (collect _ true bs) v) as [[es|err] v1] eqn:Hbs; [|done].
    intros [= _ <-]. destruct (collect_calls bs v es v1 IH Hbs) as (css & Hcss & Hacc).
    exists (mjoin css). split; [done|]. by apply (accounts_blocks v1 (ContainerBlock t a)).
  - rw run_to_xml_view. destruct at_start; [|done].
    destruct (run (collect _ true bs) v) as [[es|err] v1] eqn:Hbs; [|done].
    intros [= _ <-]. destruct (collect_calls bs v es v1 IH Hbs) as (css & Hcss & Hacc).
    exists (mjoin css). split; [done|]. by apply (accounts_blocks v1 (View f)).
  - rw /run /=. intros [= _ <-]. exists []. rw app_nil_r. by split; [|constructor].
  - rw run_interactive_xml. exists []. rw app_nil_r. split; [|constructor].
    destruct (wants_name m); by simplify_eq/=.
  - rw run_to_xml_asset.
    destruct (run (store_asset aw x) v) as [[fe|err] v1] eqn:Hx; [|done].
    rw /run /call. intros [= _ <-]. destruct (store_asset_call x v fe v1 Hx) as (op & Hop & <-).
    exists [op]. split; [done|]. constructor; [|constructor].
    by apply (store_asset_memoises aw x v).
Qed.

(** The calls of a visit that returns: they account for the asset blocks
    of the tree, and the store is the one they give. *)
Lemma visit_accounts b w w' :
  run (visit aw name_of b) w = (Return tt, w') →
  ∃ ops, calls (store (self w')) = calls (store (self w)) ++ ops ∧
    valid ops (inner (store (self w))) ∧
    inner (store (self w')) = replay ops (inner (store (self w))) ∧
    Forall2 (λ x op, prev_entry w' !! oid x = Some (entry_of op) ∧
                     entry_klass (entry_of op) = fw_klass (store (self w')))
            (assets b) ops.
Proof.
  intros (e & v & Hv & ->)%visit_returns.
  destruct (to_xml_calls _ _ _ _ _ Hv) as (ops & Hops & Hacc).
  pose proof (to_xml_replays b (bool_decide (elements (self w) = []))
                (env_of w)) as (ops' & Hops' & Hval & Hin).
  move: Hops' Hin. rw Hv /= Hops. intros <-%app_inv_head Hin.
  exists ops. split_and!; [done..|]. eapply Forall2_impl; [exact Hacc|].
  intros x op Hm. by apply memo_hit_Some in Hm.
Qed.
End calls.

Section theorems.
Context `{FileStore St} (aw : AssetWriters) (name_of : nat → string).
Implicit Types (w : World (Logged St)) (b : Block).

Notation visit := (visit aw name_of).

(** The log does not change the visit.  A visit on a store with a log
    has the outcome of the visit on the store without it, and leaves the
    state that visit leaves, with a log. *)
Theorem visit_erases b w :
  (run (visit b) w).1 = (run (visit b) (erase w)).1 ∧
  erase (run (visit b) w).2 = (run (visit b) (erase w)).2.
Proof. by apply (visit_erased aw name_of b). Qed.

(** C8. The calls on the store follow the document.  A visit that returns
    has made one registering call on the store for every asset block of the
    tree, in the order of the blocks in the tree, repeats included, and
    nothing else: the call for a block registered the entry the block has
    after the visit, which is of the class of the store.  The store is
    changed by these calls and by nothing else: it is the store before the
    visit after the calls, made in that order, and the entry recorded with
    a call of [load_file] is the entry the store returned. *)
Theorem visit_calls b w w' :
  run (visit b) w = (Return tt, w') →
  ∃ ops, calls (store (self w')) = calls (store (self w)) ++ ops ∧
    valid ops (inner (store (self w))) ∧
    inner (store (self w')) = replay ops (inner (store (self w))) ∧
    Forall2 (λ x op, prev_entry w' !! oid x = Some (entry_of op) ∧
                     entry_klass (entry_of op) = fw_klass (store (self w')))
            (assets b) ops.
Proof. apply visit_accounts. Qed.

(** The record is complete after an exception as well: whatever the
    outcome of a visit, the store it leaves is the store it was given after
    the calls recorded during the visit. *)
Lemma visit_replays b w : replays (store (self w)) (store (self (run (visit b) w).2)).
Proof.
  change (env_replays (env_of w) (env_of (run (visit b) w).2)).
  rw visit_env. apply to_xml_replays.
Qed.
End theorems.

Definition ex_logged : World (Logged ListStore.t) := new_world (mkLogged ex_store []).

Lemma visit_calls_witness :
  ∃ ops, calls (store (self (run (visit ex_writers pretty ex_view) ex_logged).2)) =
           calls (store (self ex_logged)) ++ ops ∧
    valid ops (inner (store (self ex_logged))) ∧
    inner (store (self (run (visit ex_writers pretty ex_view) ex_logged).2)) =
      replay ops (inner (store (self ex_logged))) ∧
    Forall2 (λ x op,
               prev_entry (run (visit ex_writers pretty ex_view) ex_logged).2 !! oid x =
                 Some (entry_of op) ∧
               entry_klass (entry_of op) =
                 fw_klass (store (self (run (visit ex_writers pretty ex_view) ex_logged).2)))
            (assets ex_view) ops.
Proof. apply (visit_calls ex_writers pretty ex_view ex_logged). by vm_compute. Defined.

(** The calls of the example: the table is added when it is written and
    added again when it is met the second time; the attachment is loaded. *)
Example ex_view_calls :
  calls (store (self (run (visit ex_writers pretty ex_view) ex_logged).2)) =
    [AddFile ex_table_entry; AddFile ex_table_entry;
     LoadFile "logo.png" (mkFileEntry "B64FileEntry" ".png" "image/png" "PNG")].
Proof. by vm_compute. Qed.
