(* ===== verification/Session.v ===== *)
(** * Sessions: any number of visits on one store

    A program that uses the module makes builders on a store and visits
    trees with them, and the blocks, the registry and the names outlive
    every builder.  [session_step] is one such action on the state: a visit
    of a tree, returning or raising, or a new builder on the store.  A
    [session] is any number of steps.

    - [session_invariant]: what every visit keeps ([evolves], [memo_ok])
      is kept by every session, by induction on its steps.
    - [session_rerun]: with a store that deduplicates, a tree that was
      visited with success is never written again: at any later point of
      the session a visit of it returns the document and changes nothing
      but the names.
    - [obj_session_simulated]: the sessions of the visitor on list objects
      ([Objects]) are sessions of the values they stand for. *)

From S2P Require Import Prelude PyMonad PyDict Etree Blocks.
From S2P Require Import FileStore AssetWriters XMLBuilder Spec Refinement Examples.
From S2P Require Import Evolution Assets Structure Render Objects.

Section session.
Context `{FileStore St} (aw : AssetWriters) (name_of : nat → string).
Implicit Types (w : World St) (v : Env St) (b : Block).

Notation visit := (visit aw name_of).
Notation elems w := (elements (self w)).

(** A step of a program: a visit of a tree by the builder, whatever its
    outcome, or a new builder on the store. *)
Inductive session_step : relation (World St) :=
| visit_step b w : session_step w (run (visit b) w).2
| builder_step w : session_step w (set_elements [] w).

(** A session: any number of steps. *)
Definition session : relation (World St) := rtc session_step.

Lemma session_step_evolves w w' :
  session_step w w' → evolves aw (env_of w) (env_of w').
Proof.
  destruct 1 as [b w|w]; [|done]. rw visit_env. apply to_xml_evolves.
Qed.

Lemma session_step_memo_ok w w' :
  session_step w w' → memo_ok (env_of w) → memo_ok (env_of w').
Proof.
  destruct 1 as [b w|w]; [|done]. rw visit_env. apply to_xml_memo_ok.
Qed.

Lemma session_evolves w w' : session w w' → evolves aw (env_of w) (env_of w').
Proof.
  induction 1 as [|w1 w2 w3 Hstep _ IH]; [done|].
  etrans; [by apply session_step_evolves | done].
Qed.

Lemma session_memo_ok w w' : session w w' → memo_ok (env_of w) → memo_ok (env_of w').
Proof.
  induction 1 as [|w1 w2 w3 Hstep _ IH]; [done|]. intros Hok.
  by apply IH, (session_step_memo_ok w1).
Qed.

(** A tree whose assets are stored stays so. *)
Lemma settled_mono b v v' : evolves aw v v' → settled b v → settled b v'.
Proof.
  intros Hv Hs x Hx. destruct (Hs x Hx) as (fe & Hfe & Hwf). exists fe.
  split; [by apply (evolves_memo aw v v' Hv) | done].
Qed.

(** ** Sessions on list objects

    The same steps with [self.elements] as a reference: a new builder has
    a new list.  Every such session is a session of the values the objects
    stand for, so what holds of [session] holds of it. *)
Inductive obj_session_step : relation (Objects St) :=
| obj_visit_step b h : obj_session_step h (run (obj_visit aw name_of b) h).2
| obj_builder_step h : obj_session_step h (rebind [] h).

Lemma obj_session_step_simulated h h' :
  obj_session_step h h' → obj_wf h → session_step (abs h) (abs h') ∧ obj_wf h'.
Proof.
  destruct 1 as [b h|h]; intros Hh.
  - destruct (obj_visit_simulates aw name_of b h (abs h)) as (_ & Hh' & ->); [done|].
    split; [apply visit_step | done].
  - rw abs_rebind. split; [apply builder_step | apply wf_rebind].
Qed.

Lemma obj_session_simulated h h' :
  rtc obj_session_step h h' → obj_wf h → session (abs h) (abs h') ∧ obj_wf h'.
Proof.
  induction 1 as [|h1 h2 h3 Hstep _ IH]; intros Hh; [done|].
  destruct (obj_session_step_simulated h1 h2 Hstep Hh) as [Hs Hh2].
  destruct (IH Hh2) as [Hss Hh3]. split; [by eapply rtc_l | done].
Qed.
End session.

Section theorems.
Context `{FileStore St} (aw : AssetWriters) (name_of : nat → string).
Implicit Types (w : World St) (b : Block).

Notation visit := (visit aw name_of).
Notation elems w := (elements (self w)).

(** C11. What a session keeps.  Through any number of visits of any trees,
    returning or raising, by any number of builders on the store: the
    class of the store is the same, no file leaves the store, a block that
    had an entry of the class of the store has that entry, the registry is
    as it was or has been filled, no name is taken back; and if the entries
    the blocks would reuse were registered in the store, they are. *)
Theorem session_invariant w w' :
  session aw name_of w w' →
  evolves aw (env_of w) (env_of w') ∧ (memo_ok (env_of w) → memo_ok (env_of w')).
Proof.
  intros Hs.
  split; [by apply (session_evolves aw name_of) | by apply (session_memo_ok aw name_of)].
Qed.

(** C5. Written once in a session.  With a store that deduplicates, from a
    state in which the entries the blocks would reuse are registered in the
    store ([memo_ok], which holds in a new program): once a visit of a
    tree has returned, a visit of that tree at any later point of the
    session (after any visits of any trees, by any builders on the store),
    with an accumulator that is empty if the first one was, returns; it
    appends the document of the tree, with the next names, and changes
    nothing else: the store, the slots and the registry stay as they are,
    so nothing is written again. *)
Theorem session_rerun `{!DedupStore St} b w0 w1 w :
  memo_ok (env_of w0) → run (visit b) w0 = (Return tt, w1) →
  session aw name_of w1 w → (elems w = [] ↔ elems w0 = []) →
  run (visit b) w =
    (Return tt, set_elements (elems w ++ [render name_of (env_of w) (names w) b])
                  (set_names (names w + names_used b) w)).
Proof.
  intros Hok Hrun Hsess Hacc.
  destruct (visit_settles aw name_of b w0 w1 Hok Hrun) as (Ha & Hok1 & Hs).
  apply (visit_settled aw name_of b w).
  - by rw (bool_decide_ext _ _ Hacc).
  - by apply (session_memo_ok aw name_of w1).
  - by apply (settled_mono aw b (env_of w1)); [apply (session_evolves aw name_of)|].
Qed.
End theorems.

(** A session after the example view: a new builder, a visit of a group
    whose second block cannot be stored, and a new builder again. *)
Definition ex_other : Block :=
  ContainerBlock "Group" [] [Asset ex_file; Asset ex_unsupported].

Definition ex_later : World ListStore.t :=
  set_elements []
    (run (visit ex_writers pretty ex_other) (set_elements [] (ex_build ex_view).2)).2.

Lemma ex_session : session ex_writers pretty (ex_build ex_view).2 ex_later.
Proof.
  rw /ex_later. eapply rtc_l; [apply builder_step|].
  eapply rtc_l; [apply (visit_step _ _ ex_other)|]. apply rtc_once. constructor 2.
Qed.

Lemma session_invariant_witness :
  evolves ex_writers (env_of (ex_build ex_view).2) (env_of ex_later) ∧
  (memo_ok (env_of (ex_build ex_view).2) → memo_ok (env_of ex_later)).
Proof. apply (session_invariant ex_writers pretty). apply ex_session. Defined.

Lemma session_rerun_witness :
  run (visit ex_writers pretty ex_view) ex_later =
    (Return tt,
     set_elements
       (elements (self ex_later) ++
          [render pretty (env_of ex_later) (names ex_later) ex_view])
       (set_names (names ex_later + names_used ex_view) ex_later)).
Proof.
  apply (session_rerun ex_writers pretty ex_view ex_world (ex_build ex_view).2 ex_later);
    [apply new_world_memo_ok | by vm_compute | apply ex_session | done].
Defined.
