(* ===== verification/Dispatch.v ===== *)
(** * Dispatch on the class of an argument

    [visit] is a [multimethod]: several functions registered under one
    name, each for the class its parameter is annotated with.  A call
    looks at the class of the argument.  Among the registrations for a
    class the argument is an instance of it leaves out those that another
    one of them is more specific than, and it calls what is left if that
    is one function; otherwise it raises [DispatchError].  The methods
    [get_meta] and [write_file] of the asset writers are multimethods too,
    on the type of the data, which is where the [DispatchError] that
    [_add_asset_to_store] catches comes from.

    - [Hierarchy] is what dispatch needs of the classes: [issubclass], a
      partial order.  [defs_hierarchy] builds one from [class] statements
      in the order they are executed ([ClassDefs], [ancestors]), as Python
      does, where a base has to be defined before the class.
    - [dispatch] is the selection; [dispatch_Return] characterises it: a
      registration is selected exactly when it is the least of the
      applicable ones.  So the selection does not depend on the order of
      the registrations ([dispatch_Permutation]), and it succeeds whenever
      the applicable registrations form a chain ([dispatch_chain]), which
      they do with single inheritance ([ancestors_chain]). *)

From S2P Require Import Prelude PyMonad.

(** ** Classes *)

(** Classes, by their names, with [issubclass]. *)
Class Hierarchy : Type := {
  issubclass : string → string → bool;
  issubclass_refl c : issubclass c c = true;
  issubclass_trans c1 c2 c3 :
    issubclass c1 c2 = true → issubclass c2 c3 = true → issubclass c1 c3 = true;
  issubclass_antisym c1 c2 :
    issubclass c1 c2 = true → issubclass c2 c1 = true → c1 = c2
}.

Definition subclass `{Hierarchy} : relation string := λ c k, issubclass c k = true.

Infix "≼" := subclass (at level 70) : py_scope.

#[export] Instance subclass_dec `{Hierarchy} : RelDecision subclass :=
  λ c k, decide (issubclass c k = true).

#[export] Instance subclass_po `{Hierarchy} : PartialOrder subclass.
Proof.
  split; [split|].
  - intros c. apply issubclass_refl.
  - intros c1 c2 c3. apply issubclass_trans.
  - intros c1 c2. apply issubclass_antisym.
Qed.

(** ** The selection *)

Section dispatch.
Context `{Hierarchy} {A : Type} (sig : A → string) (regs : list A).
Implicit Types (c : string) (m : A) (ms : list A).

(** The registrations for a class the argument is an instance of. *)
Definition applicable (c : string) : list A := filter (λ m, c ≼ sig m) regs.

(** Another one of [ms] is for a subclass of the class of [m]. *)
Definition shadowed (ms : list A) (m : A) : Prop :=
  Exists (λ m', sig m' ≠ sig m ∧ sig m' ≼ sig m) ms.

Definition select (c : string) : list A :=
  filter (λ m, ¬ shadowed (applicable c) m) (applicable c).

(** The function a call with an argument of class [c] runs. *)
Definition dispatch (c : string) : Outcome A :=
  match select c with
  | [m] => Return m
  | _ => Raise DispatchError
  end.

(** The most specific registration for [c]: it is applicable, and its
    class is a subclass of the class of every applicable one. *)
Definition least (c : string) (m : A) : Prop :=
  m ∈ regs ∧ c ≼ sig m ∧ ∀ m', m' ∈ regs → c ≼ sig m' → sig m ≼ sig m'.

Lemma elem_of_applicable c m : m ∈ applicable c ↔ c ≼ sig m ∧ m ∈ regs.
Proof. apply (list_elem_of_filter (λ m, c ≼ sig m)). Qed.

Lemma elem_of_select c m :
  m ∈ select c ↔ ¬ shadowed (applicable c) m ∧ m ∈ applicable c.
Proof. apply (list_elem_of_filter (λ m, ¬ shadowed (applicable c) m)). Qed.

Lemma shadowed_below m m1 :
  sig m ≠ sig m1 → sig m ≼ sig m1 →
  ∀ y, sig y ≠ sig m ∧ sig y ≼ sig m → sig y ≠ sig m1 ∧ sig y ≼ sig m1.
Proof.
  intros Hne Hle y [Hy Hym]. split; [|by etrans].
  intros Heq. apply Hy. apply (anti_symm subclass); [done|]. by rw Heq.
Qed.

(** Below every applicable registration there is one that is selected:
    by induction on the number of applicable registrations strictly below
    it. *)
Lemma below_select c m :
  m ∈ applicable c → ∃ m', m' ∈ select c ∧ sig m' ≼ sig m.
Proof.
  remember (length (filter (λ y, sig y ≠ sig m ∧ sig y ≼ sig m) (applicable c)))
    as n eqn:Hn.
  revert m Hn. induction (lt_wf n) as [n _ IH]. intros m -> Hm.
  destruct (decide (shadowed (applicable c) m)) as [Hs|Hs].
  - apply Exists_exists in Hs as (m1 & Hm1 & Hne & Hle).
    destruct (IH _ (length_filter_lt_sub _ _ (applicable c) m1
                      (shadowed_below m1 m Hne Hle) Hm1 (conj Hne Hle)
                      (λ Hc, proj1 Hc eq_refl)) m1 eq_refl Hm1) as (m2 & Hm2 & Hle2).
    exists m2. split; [done | by etrans].
  - exists m. split; [by apply elem_of_select | done].
Qed.

Lemma select_least c m : NoDup (sig <$> regs) → least c m → select c = [m].
Proof.
  intros Hnd (Hm & Hc & Hleast).
  assert (m ∈ applicable c) as Happ by by apply elem_of_applicable.
  apply NoDup_singleton_eq.
  - do 2 apply NoDup_filter. by apply NoDup_fmap_1 in Hnd.
  - apply elem_of_select. split; [|done].
    intros (m' & [Hcm' Hm']%elem_of_applicable & Hne & Hle)%Exists_exists. apply Hne.
    apply (anti_symm subclass); [done | by apply Hleast].
  - intros y [Hy [Hcy Hyr]%elem_of_applicable]%elem_of_select.
    apply (NoDup_fmap_unique sig regs); [done..|].
    destruct (decide (sig y = sig m)) as [|Hne]; [done|]. destruct Hy.
    apply Exists_exists. exists m. split; [done|]. split; [done | by apply Hleast].
Qed.

Lemma least_select c m : select c = [m] → least c m.
Proof.
  intros Hsel.
  assert (m ∈ select c) as [_ [Hc Hm]%elem_of_applicable]%elem_of_select
    by (rw Hsel; left).
  split; [done|]. split; [done|]. intros m' Hm' Hc'.
  destruct (below_select c m') as (m2 & Hm2 & Hle); [by apply elem_of_applicable|].
  rw Hsel in Hm2. by apply list_elem_of_singleton in Hm2 as ->.
Qed.

Lemma dispatch_select c m : dispatch c = Return m ↔ select c = [m].
Proof.
  rw /dispatch. destruct (select c) as [|m1 [|m2 ms]]; [|naive_solver|]; by split.
Qed.

(** What is dispatched to is the most specific registration, and a most
    specific registration is dispatched to. *)
Lemma dispatch_Return c m :
  NoDup (sig <$> regs) → dispatch c = Return m ↔ least c m.
Proof.
  intros Hnd. rw dispatch_select. split; [apply least_select | by apply select_least].
Qed.

Lemma dispatch_Raise c e : dispatch c = Raise e → e = DispatchError.
Proof. rw /dispatch. repeat case_match; congruence. Qed.

(** No most specific registration: none is applicable, or two are that
    neither is below the other.  That, and nothing else, is a
    [DispatchError]. *)
Lemma dispatch_error c :
  NoDup (sig <$> regs) → dispatch c = Raise DispatchError ↔ ¬ ∃ m, least c m.
Proof.
  intros Hnd. split.
  - intros Hr [m Hm%dispatch_Return]; [congruence | done].
  - intros Hno. destruct (dispatch c) as [m|e] eqn:Hc.
    + destruct Hno. exists m. by apply dispatch_Return.
    + by rw (dispatch_Raise c e Hc).
Qed.

(** A class whose applicable registrations are comparable two by two, and
    that has one, is dispatched. *)
Lemma dispatch_chain c m :
  NoDup (sig <$> regs) → m ∈ applicable c →
  (∀ m1 m2, m1 ∈ applicable c → m2 ∈ applicable c →
            sig m1 ≼ sig m2 ∨ sig m2 ≼ sig m1) →
  ∃ m', dispatch c = Return m' ∧ sig m' ≼ sig m.
Proof.
  intros Hnd Hm Hchain. destruct (below_select c m Hm) as (m' & Hsel & Hle).
  exists m'. split; [|done]. apply dispatch_Return; [done|].
  apply elem_of_select in Hsel as [Hs Happ].
  pose proof Happ as [Hc Hr]%elem_of_applicable. split; [done|]. split; [done|].
  intros m2 Hm2 Hc2.
  destruct (Hchain m' m2) as [|Hle2]; [done | by apply elem_of_applicable | done |].
  destruct (decide (sig m2 = sig m')) as [->|Hne]; [done|]. destruct Hs.
  apply Exists_exists. exists m2. split; [by apply elem_of_applicable | done].
Qed.
End dispatch.

Arguments dispatch : simpl never.

(** ** The order of the registrations *)

Section order.
Context `{Hierarchy} {A : Type} (sig : A → string).
Implicit Types (regs : list A) (c : string).

Lemma least_Permutation regs regs' c m : regs ≡ₚ regs' → least sig regs c m → least sig regs' c m.
Proof.
  intros Hp (Hm & Hc & Hleast). split; [by rw -Hp|]. split; [done|].
  intros m' Hm'. apply Hleast. by rw Hp.
Qed.

(** The selection does not depend on the order in which the functions
    were registered. *)
Lemma dispatch_Permutation regs regs' c :
  NoDup (sig <$> regs) → regs ≡ₚ regs' → dispatch sig regs c = dispatch sig regs' c.
Proof.
  intros Hnd Hp. assert (NoDup (sig <$> regs')) as Hnd' by by rw -Hp.
  destruct (dispatch sig regs c) as [m|e] eqn:Hc.
  - symmetry. apply dispatch_Return; [done|].
    by apply (least_Permutation regs), dispatch_Return.
  - rw (dispatch_Raise _ _ _ _ Hc). symmetry. apply dispatch_error; [done|].
    intros [m Hm]. assert (dispatch sig regs c = Return m); [|congruence].
    apply dispatch_Return; [done|]. by apply (least_Permutation regs').
Qed.
End order.

(** ** Classes from their definitions *)

(** The [class] statements of a program, the last one executed first:
    the name of the class and its bases. *)
Definition ClassDefs : Type := list (string * list string).

(** The class and the classes it inherits from.  A name without a
    definition stands for a class without bases. *)
Fixpoint ancestors (defs : ClassDefs) (c : string) : list string :=
  match defs with
  | [] => [c]
  | (k, bases) :: earlier =>
      if decide (k = c) then c :: mjoin (ancestors earlier <$> bases)
      else ancestors earlier c
  end.

(** What Python checks when it executes a [class] statement: the bases are
    defined.  No name is defined twice. *)
Fixpoint wf_defs (defs : ClassDefs) : bool :=
  match defs with
  | [] => true
  | (k, bases) :: earlier =>
      bool_decide (k ∉ earlier.*1) && bool_decide (bases ⊆ earlier.*1) && wf_defs earlier
  end.

(** No class has two bases. *)
Definition single_inheritance (defs : ClassDefs) : bool :=
  forallb (λ d, bool_decide (length d.2 ≤ 1)) defs.

Section defs.
Implicit Types (defs : ClassDefs) (c k : string).

Lemma ancestors_refl defs c : c ∈ ancestors defs c.
Proof.
  induction defs as [|[k0 bs] defs IH]; [by left|]. rw /=. case_decide; [by left | done].
Qed.

Lemma wf_defs_cons k0 bs defs :
  wf_defs ((k0, bs) :: defs) = true ↔ k0 ∉ defs.*1 ∧ bs ⊆ defs.*1 ∧ wf_defs defs = true.
Proof. rw /= !andb_true_iff !bool_decide_eq_true. naive_solver. Qed.

Lemma single_inheritance_cons k0 bs defs :
  single_inheritance ((k0, bs) :: defs) = true ↔
  length bs ≤ 1 ∧ single_inheritance defs = true.
Proof. by rw /single_inheritance /= andb_true_iff bool_decide_eq_true. Qed.

Lemma ancestors_cons_ne k0 bs defs c :
  c ≠ k0 → ancestors ((k0, bs) :: defs) c = ancestors defs c.
Proof. intros Hc. rw /=. by case_decide. Qed.

Lemma elem_of_ancestors_cons k0 bs defs k :
  k ∈ ancestors ((k0, bs) :: defs) k0 ↔ k = k0 ∨ ∃ b, b ∈ bs ∧ k ∈ ancestors defs b.
Proof.
  rw /= decide_True // elem_of_cons list_elem_of_join.
  setoid_rewrite list_elem_of_fmap. naive_solver.
Qed.

(** The ancestors of a class are the class and classes that are defined. *)
Lemma ancestors_defined defs c k :
  wf_defs defs = true → k ∈ ancestors defs c → k = c ∨ k ∈ defs.*1.
Proof.
  revert c. induction defs as [|[k0 bs] defs IH]; intros c.
  { intros _ ->%list_elem_of_singleton. by left. }
  intros (Hk0 & Hbs & Hwf)%wf_defs_cons. destruct (decide (c = k0)) as [->|Hc].
  - intros [->|(b & Hb & Hk)]%elem_of_ancestors_cons; [by left|]. right. right.
    destruct (IH b Hwf Hk) as [->|]; [by apply Hbs | done].
  - rw ancestors_cons_ne //. intros [|]%IH; [by left | by right; right | done].
Qed.

(** An ancestor of a class defined before [k0] is not [k0]. *)
Lemma ancestors_older k0 bs defs c k :
  wf_defs ((k0, bs) :: defs) = true → c ≠ k0 → k ∈ ancestors defs c → k ≠ k0.
Proof.
  intros (Hk0 & _ & Hwf)%wf_defs_cons Hc [->|Hk]%ancestors_defined; [done| |done].
  by intros ->.
Qed.

Lemma ancestors_trans defs c k k' :
  wf_defs defs = true →
  k ∈ ancestors defs c → k' ∈ ancestors defs k → k' ∈ ancestors defs c.
Proof.
  revert c. induction defs as [|[k0 bs] defs IH]; intros c Hwf.
  { by intros ->%list_elem_of_singleton. }
  pose proof Hwf as (Hk0 & Hbs & Hwf')%wf_defs_cons.
  destruct (decide (c = k0)) as [->|Hc].
  - intros [->|(b & Hb & Hk)]%elem_of_ancestors_cons; [done|].
    assert (b ≠ k0) by (intros ->; by apply Hk0, Hbs).
    rw (ancestors_cons_ne _ _ _ k); [|by eapply ancestors_older].
    intros Hk'. apply elem_of_ancestors_cons. right. exists b. split; [done|].
    by apply (IH b Hwf' Hk).
  - rw (ancestors_cons_ne _ _ _ c) //. intros Hk.
    rw (ancestors_cons_ne _ _ _ k); [|by eapply ancestors_older]. by apply IH.
Qed.

Lemma ancestors_antisym defs c k :
  wf_defs defs = true →
  k ∈ ancestors defs c → c ∈ ancestors defs k → c = k.
Proof.
  revert c k. induction defs as [|[k0 bs] defs IH]; intros c k Hwf.
  { by intros ->%list_elem_of_singleton. }
  pose proof Hwf as (Hk0 & Hbs & Hwf')%wf_defs_cons.
  destruct (decide (c = k0)) as [->|Hc], (decide (k = k0)) as [->|Hk]; [done|..].
  - rw (ancestors_cons_ne _ _ _ k) //. intros _ Hin.
    by destruct (ancestors_older _ _ _ _ _ Hwf Hk Hin).
  - rw (ancestors_cons_ne _ _ _ c) //. intros Hin.
    by destruct (ancestors_older _ _ _ _ _ Hwf Hc Hin).
  - rw !ancestors_cons_ne //. by apply IH.
Qed.

(** With one base per class the ancestors of a class are a chain. *)
Lemma ancestors_chain defs c k k' :
  wf_defs defs = true → single_inheritance defs = true →
  k ∈ ancestors defs c → k' ∈ ancestors defs c →
  k' ∈ ancestors defs k ∨ k ∈ ancestors defs k'.
Proof.
  revert c. induction defs as [|[k0 bs] defs IH]; intros c Hwf.
  { intros _ ->%list_elem_of_singleton ->%list_elem_of_singleton. left. by left. }
  pose proof Hwf as (Hk0 & Hbs & Hwf')%wf_defs_cons.
  intros [Hlen Hs]%single_inheritance_cons.
  destruct (decide (c = k0)) as [->|Hc].
  - intros Hk Hk'. pose proof Hk as [->|(b & Hb & Hkb)]%elem_of_ancestors_cons; [by left|].
    pose proof Hk' as [->|(b' & Hb' & Hkb')]%elem_of_ancestors_cons; [by right|].
    assert (b' = b) as ->
      by (destruct bs as [|? [|]]; simpl in *; [set_solver|set_solver|lia]).
    assert (b ≠ k0) by (intros ->; by apply Hk0, Hbs).
    rw !ancestors_cons_ne; [by apply (IH b) | by eapply ancestors_older..].
  - rw (ancestors_cons_ne _ _ _ c) //. intros Hk Hk'.
    rw !ancestors_cons_ne; [by apply (IH c) | by eapply ancestors_older..].
Qed.
End defs.

(** The classes of a program are a [Hierarchy]. *)
Program Definition defs_hierarchy (defs : ClassDefs) (Hwf : wf_defs defs = true) :
    Hierarchy :=
  {| issubclass c k := bool_decide (k ∈ ancestors defs c) |}.
Next Obligation. intros defs _ c. apply bool_decide_eq_true, ancestors_refl. Qed.
Next Obligation.
  intros defs Hwf c1 c2 c3. rw !bool_decide_eq_true. intros. by eapply ancestors_trans.
Qed.
Next Obligation.
  intros defs Hwf c1 c2. rw !bool_decide_eq_true. intros. by eapply ancestors_antisym.
Qed.

Lemma defs_subclass (defs : ClassDefs) (Hwf : wf_defs defs = true) (c k : string) :
  subclass (H := defs_hierarchy defs Hwf) c k ↔ k ∈ ancestors defs c.
Proof. apply bool_decide_eq_true. Qed.
