(* ===== verification/Methods.v ===== *)
(** * The methods registered as [visit], and the multimethods of the writers

    [xml_visitor.py] registers six functions under the name [visit], for
    the classes [BaseElement], [ContainerBlock], [View], [EmbeddedTextBlock],
    [Interactive] and [AssetBlock].  [XMLBuilder.visit] matches on the
    constructor of the block; this file says which class of block object
    gets which of the six, by [Dispatch.dispatch] on [visit_registry].

    - [visit_dispatch_least] (a lemma, the instance of the selection for
      the six registrations): a call of [visit] runs the function
      registered for the most specific of the six classes the block is an
      instance of, and only if there is such a class.
    - [visit_dispatch_order]: the order of the six definitions in the file
      does not matter.
    - [visit_dispatch_single]: where no class has two bases, every
      instance of [BaseElement] is dispatched, to the function of its
      nearest registered ancestor: [visit] raises no [DispatchError].
    - [typed]: the trees in which every block is dispatched to the function
      of its constructor, which is what [XMLBuilder.visit] assumes.
    - [multi_writer]: an asset writer whose [get_meta] and [write_file]
      are multimethods on the type of the data, and what
      [_add_asset_to_store] does with it ([add_asset_multimethod]).

    The classes themselves are defined in [datapane.blocks]; the theorems
    hold for every [Hierarchy], and the class table of the examples is an
    illustration. *)

From S2P Require Import Prelude PyMonad PyDict Etree Blocks.
From S2P Require Import FileStore AssetWriters XMLBuilder Spec Refinement Examples.
From S2P Require Import Evolution Assets Dispatch.

(** The six functions with the decorator [@multimethod], in the order of
    the file. *)
Inductive Registration : Type :=
| ForBaseElement
| ForContainerBlock
| ForView
| ForEmbeddedTextBlock
| ForInteractive
| ForAssetBlock.

#[export] Instance Registration_eq_dec : EqDecision Registration.
Proof. solve_decision. Defined.

(** The annotation of the parameter [b]. *)
Definition annotation (r : Registration) : string :=
  match r with
  | ForBaseElement => "BaseElement"
  | ForContainerBlock => "ContainerBlock"
  | ForView => "View"
  | ForEmbeddedTextBlock => "EmbeddedTextBlock"
  | ForInteractive => "Interactive"
  | ForAssetBlock => "AssetBlock"
  end.

Definition visit_registry : list Registration :=
  [ForBaseElement; ForContainerBlock; ForView; ForEmbeddedTextBlock;
   ForInteractive; ForAssetBlock].

(** The function the constructor of a block stands for. *)
Definition method_of (b : Block) : Registration :=
  match b with
  | BaseElement _ _ => ForBaseElement
  | ContainerBlock _ _ _ => ForContainerBlock
  | View _ _ => ForView
  | EmbeddedTextBlock _ _ _ => ForEmbeddedTextBlock
  | Interactive _ _ _ => ForInteractive
  | Asset _ => ForAssetBlock
  end.

Notation visit_dispatch := (dispatch annotation visit_registry).

(** Every block of the tree is dispatched to the function of its
    constructor, when [type_of] gives the class of a block object. *)
Fixpoint typed `{Hierarchy} (type_of : Block → string) (b : Block) : bool :=
  bool_decide (visit_dispatch (type_of b) = Return (method_of b)) &&
  match b with
  | ContainerBlock _ _ bs | View _ bs => forallb (typed type_of) bs
  | _ => true
  end.

(** A writer whose methods are multimethods: [get_meta] and [write_file]
    are registered for types of data, each with what it returns. *)
Definition multi_writer `{Hierarchy} (metas : list (string * AssetMeta))
    (writes : list (string * (Payload → string))) : AssetWriterP :=
  mkAssetWriter
    (λ d, match dispatch fst metas (type_name d) with
          | Return r => Return r.2
          | Raise e => Raise e
          end)
    (λ d, match dispatch fst writes (type_name d) with
          | Return r => Return (r.2 d)
          | Raise e => Raise e
          end).

Lemma elem_of_visit_registry r : r ∈ visit_registry.
Proof. destruct r; rw /visit_registry !elem_of_cons; naive_solver. Qed.

Lemma visit_registry_NoDup : NoDup (annotation <$> visit_registry).
Proof. by apply (bool_decide_unpack _). Qed.

Section visit.
Context `{Hierarchy}.
Implicit Types (c : string) (r : Registration).

Lemma visit_least c r :
  least annotation visit_registry c r ↔
  c ≼ annotation r ∧ ∀ r', c ≼ annotation r' → annotation r ≼ annotation r'.
Proof.
  split; [intros (_ & Hc & Hl) | intros [Hc Hl]].
  - split; [done|]. intros r'. apply Hl, elem_of_visit_registry.
  - split; [apply elem_of_visit_registry|]. split; [done|]. intros r' _. apply Hl.
Qed.

(** The selection among the six registrations: [Dispatch.dispatch_Return]
    on [visit_registry]. *)
Lemma visit_dispatch_least c r :
  visit_dispatch c = Return r ↔
  c ≼ annotation r ∧ ∀ r', c ≼ annotation r' → annotation r ≼ annotation r'.
Proof. rw dispatch_Return; [apply visit_least | apply visit_registry_NoDup]. Qed.

(** A call of [visit] raises [DispatchError], and nothing else, exactly
    when the six classes have no most specific one for the class of the
    block: it is no [BaseElement], or it inherits from two of them neither
    of which inherits from the other. *)
Lemma visit_dispatch_error c :
  visit_dispatch c = Raise DispatchError ↔
  ¬ ∃ r, c ≼ annotation r ∧ ∀ r', c ≼ annotation r' → annotation r ≼ annotation r'.
Proof.
  rw dispatch_error; [|apply visit_registry_NoDup].
  by setoid_rewrite visit_least.
Qed.

(** The order of the definitions of [visit] in the file does not
    matter: with the six functions registered in any other order every
    call runs the same function, or raises as it did. *)
Theorem visit_dispatch_order regs c :
  regs ≡ₚ visit_registry → dispatch annotation regs c = visit_dispatch c.
Proof.
  intros Hp. symmetry. by apply dispatch_Permutation; [apply visit_registry_NoDup|].
Qed.
End visit.

Section single.
Context (defs : ClassDefs) (Hwf : wf_defs defs = true).

#[local] Instance single_hierarchy : Hierarchy := defs_hierarchy defs Hwf.

(** C20. With single inheritance [visit] raises no [DispatchError].  In a
    program in which no class has two bases, a call of [visit] on an
    instance of [BaseElement] runs one of the six functions: the one of the
    nearest class among the six that the class of the block inherits
    from. *)
Theorem visit_dispatch_single c :
  single_inheritance defs = true → "BaseElement" ∈ ancestors defs c →
  ∃ r, visit_dispatch c = Return r ∧ annotation r ∈ ancestors defs c ∧
       ∀ r', annotation r' ∈ ancestors defs c →
             annotation r' ∈ ancestors defs (annotation r).
Proof.
  intros Hs Hc.
  destruct (dispatch_chain annotation visit_registry c ForBaseElement)
    as (r & Hr & _); [apply visit_registry_NoDup | | |].
  - apply elem_of_applicable. split; [by apply defs_subclass|].
    apply elem_of_visit_registry.
  - intros r1 r2 [Hc1%defs_subclass _]%elem_of_applicable
      [Hc2%defs_subclass _]%elem_of_applicable.
    rw !defs_subclass. destruct (ancestors_chain defs c _ _ Hwf Hs Hc1 Hc2); auto.
  - exists r. split; [done|]. apply visit_dispatch_least in Hr as [Hcr Hl].
    split; [by apply defs_subclass in Hcr|]. intros r' Hr'.
    by apply (defs_subclass defs Hwf), Hl, defs_subclass.
Qed.
End single.

Section writers.
Context `{FileStore St} `{Hierarchy} (aw : AssetWriters).
Implicit Types (w : World St) (x : AssetBlock) (d : Payload).

(** A block with data and a writer whose methods are multimethods.  When
    both methods have a function for the type of the data, the entry made
    of what they return is stored and put in the slot of the block.  When
    one of them has none, or no most specific one, its [DispatchError]
    becomes the client error that names the type, and the store and the
    slot are as they were. *)
Theorem add_asset_multimethod x w d metas writes :
  memo_hit x (env_of w) = None → data x = Some d →
  filled aw (asset_mapping w) !! kind x = Some (multi_writer metas writes) →
  run (_add_asset_to_store aw x) w =
    match dispatch fst metas (type_name d), dispatch fst writes (type_name d) with
    | Return (_, meta), Return (_, f) =>
        (Return (mkFileEntry (fw_klass (store (self w))) (ext meta) (mime meta) (f d)),
         written aw x
           (mkFileEntry (fw_klass (store (self w))) (ext meta) (mime meta) (f d)) w)
    | _, _ =>
        (Raise (DPClientError (type_name d +:+ " not supported for XMLBuilder")),
         set_asset_mapping (filled aw (asset_mapping w)) w)
    end.
Proof.
  intros Hm Hd Hwr. rw run_add_asset /run /store_asset Hm Hd /= Hwr /=.
  destruct w as [[]].
  destruct (dispatch fst metas (type_name d)) as [[? meta]|e1] eqn:H1;
    [|apply dispatch_Raise in H1 as ->];
    (destruct (dispatch fst writes (type_name d)) as [[? f]|e2] eqn:H2;
      [|apply dispatch_Raise in H2 as ->]); done.
Qed.
End writers.

(** ** A class table *)

(** Classes like those of [datapane.blocks], in the order of their
    definition, and two types of data. *)
Definition ex_classes : ClassDefs :=
  reverse
    [("BaseElement", []);
     ("ContainerBlock", ["BaseElement"]); ("View", ["ContainerBlock"]);
     ("Group", ["ContainerBlock"]);
     ("EmbeddedTextBlock", ["BaseElement"]); ("Text", ["EmbeddedTextBlock"]);
     ("Interactive", ["BaseElement"]);
     ("AssetBlock", ["BaseElement"]); ("Plot", ["AssetBlock"]);
     ("Table", ["AssetBlock"]); ("Attachment", ["AssetBlock"]);
     ("Divider", ["BaseElement"]);
     ("DataFrame", []); ("GeoDataFrame", ["DataFrame"])].

Definition ex_hierarchy : Hierarchy := defs_hierarchy ex_classes eq_refl.

(** The same with a class that is a container and an asset. *)
Definition ex_diamond : ClassDefs :=
  ("Gallery", ["ContainerBlock"; "AssetBlock"]) :: ex_classes.

Definition ex_diamond_hierarchy : Hierarchy := defs_hierarchy ex_diamond eq_refl.

(** The class of a block object of the examples: the class of an asset
    block, [Interactive], and for the others the class its tag names. *)
Definition ex_type_of (b : Block) : string :=
  match b with
  | Asset x => kind_name (kind x)
  | Interactive _ _ _ => "Interactive"
  | _ => out_tag b
  end.

(** A group is a [ContainerBlock] and a [BaseElement]: two registrations
    match, and the one for [ContainerBlock] is run.  For a view three
    match. *)
Example ex_dispatch_group :
  dispatch (H := ex_hierarchy) annotation visit_registry "Group" = Return ForContainerBlock ∧
  applicable (H := ex_hierarchy) annotation visit_registry "View" =
    [ForBaseElement; ForContainerBlock; ForView] ∧
  dispatch (H := ex_hierarchy) annotation visit_registry "View" = Return ForView.
Proof. by vm_compute. Qed.

(** A class that inherits from [ContainerBlock] and from [AssetBlock] has
    no most specific registration, and a class that is no [BaseElement]
    has none at all. *)
Example ex_dispatch_ambiguous :
  dispatch (H := ex_diamond_hierarchy) annotation visit_registry "Gallery" =
    Raise DispatchError ∧
  dispatch (H := ex_hierarchy) annotation visit_registry "DataFrame" = Raise DispatchError.
Proof. by vm_compute. Qed.

(** [visit] looks at the classes a block inherits from, [get_writer] at
    its class alone: a block of a subclass of [Plot] is visited as an
    asset block and has no writer. *)
Definition ex_heatmap : AssetBlock :=
  mkAssetBlock 13 (OtherAsset "Heatmap") "Heatmap" [] []
    (Some (mkPayload "DataFrame" "<table/>")) None None.

Example ex_subclass_no_writer :
  dispatch (H := defs_hierarchy (("Heatmap", ["Plot"]) :: ex_classes) eq_refl)
    annotation visit_registry "Heatmap" = Return ForAssetBlock ∧
  (run (visit ex_writers pretty (Asset ex_heatmap)) ex_world).1 = Raise (KeyError "Heatmap").
Proof. by vm_compute. Qed.

(** The example view is well typed in the class table. *)
Example ex_view_typed : typed (H := ex_hierarchy) ex_type_of ex_view = true.
Proof. by vm_compute. Qed.

(** A writer for data frames, by dispatch: a [GeoDataFrame] is a
    [DataFrame], a [complex] is not. *)
Definition ex_multi_writer : AssetWriterP :=
  multi_writer (H := ex_hierarchy)
    [("DataFrame", mkAssetMeta ".html" "text/html")]
    [("DataFrame", payload_bytes)].

Example ex_multi_writer_meta :
  get_meta ex_multi_writer (mkPayload "GeoDataFrame" "<table/>") =
    Return (mkAssetMeta ".html" "text/html") ∧
  get_meta ex_multi_writer (mkPayload "complex" "1j") = Raise DispatchError.
Proof. by vm_compute. Qed.

Lemma visit_dispatch_order_witness :
  dispatch (H := ex_hierarchy) annotation (reverse visit_registry) "View" =
    dispatch (H := ex_hierarchy) annotation visit_registry "View".
Proof.
  apply (visit_dispatch_order (H := ex_hierarchy) (reverse visit_registry) "View").
  apply reverse_Permutation.
Defined.

Lemma visit_dispatch_single_witness :
  ∃ r, dispatch (H := ex_hierarchy) annotation visit_registry "Text" = Return r ∧
       annotation r ∈ ancestors ex_classes "Text" ∧
       ∀ r', annotation r' ∈ ancestors ex_classes "Text" →
             annotation r' ∈ ancestors ex_classes (annotation r).
Proof.
  apply (visit_dispatch_single ex_classes eq_refl "Text"); [done|].
  by apply (bool_decide_unpack _).
Defined.
