(* ===== verification/Order.v ===== *)
(** * The order of the files in the store

    The document and the store are built by one traversal, so the files
    of the store are in the order of the asset blocks of the document.
    With [ListStore] this is exact:

    - [visit_store_order]: after a visit that returns, the store is the
      store before the visit with the entries of the asset blocks of the
      tree added one after the other in document order, where adding an
      entry whose hash the store has is no change.

    The proof runs the visit on the store with a record of its calls
    ([Calls.Logged]), where the calls are known to account for the asset
    blocks and to give the store ([Calls.visit_accounts]), and forgets the
    record again ([Calls.visit_erased]). *)

From S2P Require Import Prelude PyMonad PyDict Etree Blocks.
From S2P Require Import FileStore AssetWriters XMLBuilder Spec Refinement Examples.
From S2P Require Import Evolution Assets Calls.

Section logging.
Context `{FileStore St}.

(** The state with an empty record of calls. *)
Definition logging (w : World St) : World (Logged St) :=
  mkWorld (mkXMLBuilder (mkLogged (store (self w)) []) (elements (self w)))
          (prev_entry w) (asset_mapping w) (names w).

Lemma erase_logging (w : World St) : erase (logging w) = w.
Proof. by destruct w as [[]]. Qed.
End logging.

(** On a [ListStore] every call adds the entry it registers. *)
Lemma ListStore_replay (ops : list StoreCall) (s : ListStore.t) :
  valid ops s → replay ops s = foldl ListStore.add s (entry_of <$> ops).
Proof.
  revert s. induction ops as [|[fe|p fe] ops IH]; intros s; [done|..].
  - apply IH.
  - intros [-> Hv]. by apply IH.
Qed.

Section theorems.
Context (aw : AssetWriters) (name_of : nat → string).
Implicit Types (w : World ListStore.t) (b : Block).

Notation visit := (visit aw name_of).

(** C9. The files of the store are in the order of the document.  After a
    visit of a tree that returns, on a [ListStore], the store is the store
    before the visit to which the entries of the asset blocks of the tree
    (the entries their elements refer to) have been added in the order of
    the blocks in the document, where an entry whose hash is in the store
    is not added again. *)
Theorem visit_store_order b w w' :
  run (visit b) w = (Return tt, w') →
  ∃ fes, Forall2 (λ x fe, prev_entry w' !! oid x = Some fe) (assets b) fes ∧
         store (self w') = foldl ListStore.add (store (self w)) fes.
Proof.
  intros Hrun.
  destruct (visit_erased aw name_of b (logging w) w (erase_logging w)) as [Ho Hs].
  move: Ho Hs. rw Hrun /=.
  destruct (run (visit b) (logging w)) as [o wl] eqn:Hl. rw /=. intros -> <-.
  destruct (visit_accounts aw name_of b (logging w) wl Hl) as (ops & _ & Hval & Hin & Hacc).
  exists (entry_of <$> ops). split.
  - apply Forall2_fmap_r. eapply Forall2_impl; [exact Hacc|]. by intros x op [Hp _].
  - rw /= Hin. by apply ListStore_replay.
Qed.
End theorems.

(** The store of the example after the view: the table, once, then the
    attachment. *)
Lemma visit_store_order_witness :
  ∃ fes, Forall2 (λ x fe, prev_entry (ex_build ex_view).2 !! oid x = Some fe)
                 (assets ex_view) fes ∧
         store (self (ex_build ex_view).2) = foldl ListStore.add (store (self ex_world)) fes.
Proof. apply (visit_store_order ex_writers pretty ex_view ex_world). by vm_compute. Defined.

Example ex_view_files :
  files (store (self (ex_build ex_view).2)) =
    [ex_table_entry; mkFileEntry "B64FileEntry" ".png" "image/png" "PNG"].
Proof. by vm_compute. Qed.
